(** * Railway ticket resale marketplace: ticket lifecycle and settlement

    A shallow embedding of the Flask application in [app.py] and of the
    SQLAlchemy models in [models.py], followed by the properties of the
    ticket lifecycle (upload, negotiation, release, payment, sale) and of the
    seller ledger.

    Conventions of the embedding.
    - A Python [str] is a [string]; every character is a code point below
      256, which is where the predicates inspected by the handlers
      ([str.strip], the class [\d], [str.lower]) are decided here.
    - A Python [float] and a [db.Float] column are binary64 numbers, the
      primitive [float] of the kernel, with its own [+], [*] and [<=?].
    - A [datetime.date] is its proleptic ordinal ([date.toordinal()]), so
      that [<] on dates is [<] on integers.
    - The database is a record of five tables, each a list of rows in
      insertion order.  The timestamp columns ([created_at], [sold_at],
      [updated_at]) are written by the store's clock and drive no decision of
      a handler; they are left out.
    - [db.session] is an explicit unit of work threaded through a state and
      exception monad: [session_commit] either makes the transaction's view
      durable or raises, [session_rollback] discards it, and whatever is
      still uncommitted when a request ends is discarded as well.
    - What lies outside the repository is a parameter: the builtins
      [float] and [strptime], werkzeug's [secure_filename], the Stripe API,
      and the occasions on which the store refuses a commit.  Writing the
      uploaded file to disk and rendering templates leave the store alone
      and are not modelled. *)

From Stdlib Require Import ZArith QArith List String Ascii Bool Lia DecimalString.
From Stdlib Require Import PrimFloat FloatOps SpecFloat.
Import ListNotations.

Local Open Scope string_scope.
Local Open Scope Z_scope.

(** ** Python values used by the handlers *)

(** The exceptions a handler can meet. *)
Inductive Exn : Type :=
| IntegrityError      (* a constraint of the schema refused a flushed row *)
| OperationalError    (* the store refused the commit for another reason *)
| StripeError         (* the payment gateway raised *)
| ValueError
| OverflowError
| TypeError.

Definition LF : string := String "010"%char "".

(** [c.isspace()] on a code point below 256. *)
Definition isspace (c : ascii) : bool :=
  let n := N_of_ascii c in
  (((9 <=? n) && (n <=? 13)) || ((28 <=? n) && (n <=? 32))
   || (n =? 133) || (n =? 160))%N.

(** [s.strip()] *)
Fixpoint lstrip (s : string) : string :=
  match s with
  | String c rest => if isspace c then lstrip rest else s
  | EmptyString => EmptyString
  end.

Fixpoint rstrip (s : string) : string :=
  match s with
  | String c rest =>
      let rest' := rstrip rest in
      if (rest' =? "")%string && isspace c then EmptyString else String c rest'
  | EmptyString => EmptyString
  end.

Definition strip (s : string) : string := rstrip (lstrip s).

(** The class [\d] of [re] on a code point below 256. *)
Definition isdigit (c : ascii) : bool :=
  let n := N_of_ascii c in ((48 <=? n) && (n <=? 57))%N.

(** [take_digits n s]: the rest of [s] after [n] leading digits. *)
Fixpoint take_digits (n : nat) (s : string) : option string :=
  match n with
  | O => Some s
  | S n' =>
      match s with
      | String c rest => if isdigit c then take_digits n' rest else None
      | EmptyString => None
      end
  end.

(** [re.match(r'^\d{10}$', s)] as a truth value.  In [re], [$] matches at the
    end of the string and also just before a line feed that ends it. *)
Definition re_match_pnr (s : string) : bool :=
  match take_digits 10 s with
  | Some rest => (rest =? "")%string || (rest =? LF)%string
  | None => false
  end.

(** [c.lower()] on ASCII letters, the only ones an allowed extension has. *)
Definition lower_char (c : ascii) : ascii :=
  let n := N_of_ascii c in
  if ((65 <=? n) && (n <=? 90))%N then ascii_of_N (n + 32) else c.

Fixpoint lower (s : string) : string :=
  match s with
  | EmptyString => EmptyString
  | String c rest => String (lower_char c) (lower rest)
  end.

(** [s.rsplit('.', 1)[1]] when ['.' in s]: what follows the last dot. *)
Fixpoint after_last_dot (s : string) : option string :=
  match s with
  | EmptyString => None
  | String c rest =>
      match after_last_dot rest with
      | Some ext => Some ext
      | None => if Ascii.eqb c "."%char then Some rest else None
      end
  end.

(** [str(n)] for an [int]. *)
Definition str_of_int (n : Z) : string := NilZero.string_of_int (Z.to_int n).

(** [int(x)] for a [float]: truncation toward zero; [nan] raises
    [ValueError] and an infinity raises [OverflowError]. *)
Definition int_of_float (x : float) : Exn + Z :=
  match Prim2SF x with
  | S754_zero _ => inr 0
  | S754_finite s m e =>
      let v := if 0 <=? e then Zpos m * 2 ^ e else Zpos m / 2 ^ (- e) in
      inr (if s then - v else v)
  | S754_infinity _ => inl OverflowError
  | S754_nan => inl ValueError
  end.

(** The exact rational value of a finite [float] (zero for the others). *)
Definition Q_of_float (x : float) : Q :=
  match Prim2SF x with
  | S754_finite s m e =>
      let q := if 0 <=? e then inject_Z (Zpos m * 2 ^ e)
               else Qmake (Zpos m) (Z.to_pos (2 ^ (- e))) in
      if s then Qopp q else q
  | _ => 0%Q
  end.

(** A [datetime.date], by its ordinal. *)
Definition date : Type := Z.

(** ** The models of [models.py] *)

Module SoldTicket.
Record t : Type := mk {
    id : Z;
    pnr_number : string;          (* unique=True *)
    from_location : string;
    to_location : string;
    travel_date : date;
    train_number : string;
    buyer_email : option string;
    payment_id : string;
    seller_id : option Z;
    from_ticket_id : option Z
  }.
End SoldTicket.

Module Ticket.
Record t : Type := mk {
    id : Z;
    title : string;
    price : float;
    description : string;
    filename : string;
    pnr_number : string;
    from_location : string;
    to_location : string;
    travel_date : date;
    train_number : string;
    passenger_name : string;
    seller_id : option Z;
    is_expired : bool;
    stripe_checkout_id : option string;
    payment_status : option string;
    buyer_email : option string
  }.

Definition set_is_expired (v : bool) (x : t) : t :=
    mk (id x) (title x) (price x) (description x) (filename x) (pnr_number x)
       (from_location x) (to_location x) (travel_date x) (train_number x)
       (passenger_name x) (seller_id x) v (stripe_checkout_id x)
       (payment_status x) (buyer_email x).

Definition set_stripe_checkout_id (v : option string) (x : t) : t :=
    mk (id x) (title x) (price x) (description x) (filename x) (pnr_number x)
       (from_location x) (to_location x) (travel_date x) (train_number x)
       (passenger_name x) (seller_id x) (is_expired x) v
       (payment_status x) (buyer_email x).

Definition set_payment_status (v : option string) (x : t) : t :=
    mk (id x) (title x) (price x) (description x) (filename x) (pnr_number x)
       (from_location x) (to_location x) (travel_date x) (train_number x)
       (passenger_name x) (seller_id x) (is_expired x) (stripe_checkout_id x)
       v (buyer_email x).

Definition set_buyer_email (v : option string) (x : t) : t :=
    mk (id x) (title x) (price x) (description x) (filename x) (pnr_number x)
       (from_location x) (to_location x) (travel_date x) (train_number x)
       (passenger_name x) (seller_id x) (is_expired x) (stripe_checkout_id x)
       (payment_status x) v.
End Ticket.

Module Message.
Record t : Type := mk {
    id : Z;
    ticket_id : Z;                (* ForeignKey('tickets.id') *)
    sender_type : string;
    message_text : string;
    is_ticket_shared : bool
  }.
End Message.

Module SellerWallet.
Record t : Type := mk {
    id : Z;
    seller_id : Z;
    balance : float;              (* default=0.0 *)
    currency : string             (* default='INR' *)
  }.

Definition set_balance (v : float) (x : t) : t :=
    mk (id x) (seller_id x) v (currency x).
End SellerWallet.

Module WalletTransaction.
Record t : Type := mk {
    id : Z;
    wallet_id : Z;                (* ForeignKey('seller_wallets.id') *)
    amount : float;
    transaction_type : string;
    description : string;
    payment_id : string
  }.
End WalletTransaction.

(** The persisted state: the five relations. *)
Record DB : Type := mkDB {
  tickets : list Ticket.t;
  sold_tickets : list SoldTicket.t;
  messages : list Message.t;
  seller_wallets : list SellerWallet.t;
  wallet_transactions : list WalletTransaction.t
}.

Definition empty_db : DB := mkDB [] [] [] [] [].

(** The next value of an autoincremented primary key. *)
Definition next_id (ids : list Z) : Z := 1 + fold_right Z.max 0 ids.

(** ** Queries *)

(** [Ticket.query.get(ticket_id)] *)
Definition Ticket_get (db : DB) (ticket_id : Z) : option Ticket.t :=
  find (fun t => Ticket.id t =? ticket_id) (tickets db).

(** [SoldTicket.query.filter_by(pnr_number=pnr).first()] *)
Definition SoldTicket_by_pnr (db : DB) (pnr : string) : option SoldTicket.t :=
  find (fun s => (SoldTicket.pnr_number s =? pnr)%string) (sold_tickets db).

(** [SellerWallet.query.filter_by(seller_id=sid).first()] *)
Definition SellerWallet_by_seller (db : DB) (sid : Z) : option SellerWallet.t :=
  find (fun w => SellerWallet.seller_id w =? sid) (seller_wallets db).

(** [Message.query.filter_by(ticket_id=.., sender_type=.., message_text=..).first()] *)
Definition Message_by_text (db : DB) (ticket_id : Z) (sender text : string)
  : option Message.t :=
  find (fun m => (Message.ticket_id m =? ticket_id)
                 && (Message.sender_type m =? sender)%string
                 && (Message.message_text m =? text)%string)
       (messages db).

(** [Message.query.filter_by(ticket_id=.., sender_type=.., is_ticket_shared=True).first()] *)
Definition Message_shared_by (db : DB) (ticket_id : Z) (sender : string)
  : option Message.t :=
  find (fun m => (Message.ticket_id m =? ticket_id)
                 && (Message.sender_type m =? sender)%string
                 && Bool.eqb (Message.is_ticket_shared m) true)
       (messages db).

(** ** The unit of work: [db.session]

    [txn] is the view of the open transaction: the durable state with the
    pending inserts and updates applied.  A pending row that breaks a
    constraint of the schema is remembered in [doomed]: the error surfaces
    when the rows are flushed, inside [commit()].  [faults] schedules, for
    each coming [commit()], whether the store refuses it for a reason outside
    the schema (a lost connection, a backend limit); an empty schedule means
    no such refusal. *)
Record Session : Type := mkSession {
  durable : DB;
  txn : DB;
  doomed : bool;
  faults : list bool
}.

Inductive Outcome (A : Type) : Type :=
| Ok (a : A)
| Raise (e : Exn).
Arguments Ok {A} a.
Arguments Raise {A} e.

Definition M (A : Type) : Type := Session -> Outcome A * Session.

Definition ret {A : Type} (a : A) : M A := fun s => (Ok a, s).

Definition bind {A B : Type} (m : M A) (k : A -> M B) : M B :=
  fun s =>
    match m s with
    | (Ok a, s') => k a s'
    | (Raise e, s') => (Raise e, s')
    end.

Definition raise {A : Type} (e : Exn) : M A := fun s => (Raise e, s).

(** [try: body  except Exception: handler] *)
Definition try_except {A : Type} (body : M A) (handler : Exn -> M A) : M A :=
  fun s =>
    match body s with
    | (Ok a, s') => (Ok a, s')
    | (Raise e, s') => handler e s'
    end.

Declare Scope session_scope.
Delimit Scope session_scope with session.
Notation "x <- m ;; k" := (bind m (fun x => k))
  (at level 100, m at next level, right associativity) : session_scope.
Notation "m ;; k" := (bind m (fun _ => k))
  (at level 100, right associativity) : session_scope.
Local Open Scope session_scope.

Definition query {A : Type} (q : DB -> A) : M A := fun s => (Ok (q (txn s)), s).

Definition lift {A : Type} (r : Exn + A) : M A :=
  match r with
  | inr a => ret a
  | inl e => raise e
  end.

Definition or_raise {A : Type} (e : Exn) (r : option A) : M A :=
  match r with
  | Some a => ret a
  | None => raise e
  end.

(** A pending change: the new view of the transaction, and whether the
    change breaks a constraint of the schema. *)
Definition with_txn (f : DB -> DB * bool) : M unit :=
  fun s =>
    let (db', bad) := f (txn s) in
    (Ok tt, mkSession (durable s) db' (doomed s || bad) (faults s)).

(** [INSERT INTO tickets]: the row gets the next primary key. *)
Definition insert_ticket (row : Z -> Ticket.t) (db : DB) : DB * bool :=
  let r := row (next_id (map Ticket.id (tickets db))) in
  (mkDB (tickets db ++ [r]) (sold_tickets db) (messages db) (seller_wallets db)
        (wallet_transactions db),
   false).

(** [INSERT INTO sold_tickets]; [pnr_number] is [unique=True]. *)
Definition insert_sold_ticket (row : Z -> SoldTicket.t) (db : DB) : DB * bool :=
  let r := row (next_id (map SoldTicket.id (sold_tickets db))) in
  (mkDB (tickets db) (sold_tickets db ++ [r]) (messages db) (seller_wallets db)
        (wallet_transactions db),
   existsb (fun s => (SoldTicket.pnr_number s =? SoldTicket.pnr_number r)%string)
           (sold_tickets db)).

(** [INSERT INTO messages]; [ticket_id] references [tickets.id]. *)
Definition insert_message (row : Z -> Message.t) (db : DB) : DB * bool :=
  let r := row (next_id (map Message.id (messages db))) in
  (mkDB (tickets db) (sold_tickets db) (messages db ++ [r]) (seller_wallets db)
        (wallet_transactions db),
   negb (existsb (fun t => Ticket.id t =? Message.ticket_id r) (tickets db))).

(** [INSERT INTO seller_wallets] *)
Definition insert_wallet (row : Z -> SellerWallet.t) (db : DB) : DB * bool :=
  let r := row (next_id (map SellerWallet.id (seller_wallets db))) in
  (mkDB (tickets db) (sold_tickets db) (messages db) (seller_wallets db ++ [r])
        (wallet_transactions db),
   false).

(** [INSERT INTO wallet_transactions]; [wallet_id] references
    [seller_wallets.id]. *)
Definition insert_wallet_transaction (row : Z -> WalletTransaction.t) (db : DB)
  : DB * bool :=
  let r := row (next_id (map WalletTransaction.id (wallet_transactions db))) in
  (mkDB (tickets db) (sold_tickets db) (messages db) (seller_wallets db)
        (wallet_transactions db ++ [r]),
   negb (existsb (fun w => SellerWallet.id w =? WalletTransaction.wallet_id r)
                 (seller_wallets db))).

(** [UPDATE tickets SET ... WHERE id = ticket_id]: an attribute assignment
    on a loaded [Ticket]. *)
Definition update_ticket (ticket_id : Z) (f : Ticket.t -> Ticket.t) (db : DB)
  : DB * bool :=
  (mkDB (map (fun t => if Ticket.id t =? ticket_id then f t else t) (tickets db))
        (sold_tickets db) (messages db) (seller_wallets db) (wallet_transactions db),
   false).

(** [UPDATE seller_wallets SET ... WHERE id = wallet_id] *)
Definition update_wallet (wallet_id : Z) (f : SellerWallet.t -> SellerWallet.t)
  (db : DB) : DB * bool :=
  (mkDB (tickets db) (sold_tickets db) (messages db)
        (map (fun w => if SellerWallet.id w =? wallet_id then f w else w)
             (seller_wallets db))
        (wallet_transactions db),
   false).

(** [db.session.add(row)] for each model. *)
Definition session_add_ticket (row : Z -> Ticket.t) : M unit :=
  with_txn (insert_ticket row).

Definition session_add_sold_ticket (row : Z -> SoldTicket.t) : M unit :=
  with_txn (insert_sold_ticket row).

Definition session_add_message (row : Z -> Message.t) : M unit :=
  with_txn (insert_message row).

(** The wallet added is returned with its key, as the object the view keeps
    using after the commit. *)
Definition session_add_wallet (row : Z -> SellerWallet.t) : M SellerWallet.t :=
  fun s =>
    let r := row (next_id (map SellerWallet.id (seller_wallets (txn s)))) in
    (Ok r, snd (with_txn (insert_wallet row) s)).

Definition session_add_wallet_transaction (row : Z -> WalletTransaction.t) : M unit :=
  with_txn (insert_wallet_transaction row).

(** [db.session.commit()] *)
Definition session_commit : M unit :=
  fun s =>
    let rest := tl (faults s) in
    if hd false (faults s)
    then (Raise OperationalError, mkSession (durable s) (txn s) (doomed s) rest)
    else if doomed s
    then (Raise IntegrityError, mkSession (durable s) (txn s) (doomed s) rest)
    else (Ok tt, mkSession (txn s) (txn s) false rest).

(** [db.session.rollback()] *)
Definition session_rollback : M unit :=
  fun s => (Ok tt, mkSession (durable s) (durable s) false (faults s)).

(** ** Responses *)

Inductive Endpoint : Type :=
| ep_index
| ep_upload_ticket
| ep_chat (ticket_id : Z)
| ep_payment_page (ticket_id : Z)
| ep_url (url : string).

(** What a view returns, with the message it flashed on the way (each path
    of a view flashes at most one). *)
Inductive Response : Type :=
| redirect (flashed : option (string * string)) (target : Endpoint)
| render_template (template : string)
| jsonify (success : bool) (shared : bool) (error : option string)
| internal_server_error (e : Exn).

(** [flash(message, category); return redirect(url_for(target))] *)
Definition flash_redirect (message category : string) (target : Endpoint) : M Response :=
  ret (redirect (Some (message, category)) target).

(** One request against the store: the view runs in a fresh session, an
    exception it lets through becomes a 500 response, and the session is
    removed when the request ends, which discards what was not committed. *)
Definition run_request (view : M Response) (fs : list bool) (db : DB) : Response * DB :=
  match view (mkSession db db false fs) with
  | (Ok r, s) => (r, durable s)
  | (Raise e, s) => (internal_server_error e, durable s)
  end.

(** ** Collaborators outside the repository

    The builtins and services the views call: [float(s)] and
    [datetime.strptime(s, '%Y-%m-%d').date()] ([None] for [ValueError]),
    [strftime("%d-%m-%Y")], werkzeug's [secure_filename], and the Stripe
    API ([None] when the call raises). *)
Record CheckoutParams : Type := mkCheckoutParams {
  product_name : string;
  product_description : string;
  currency : string;
  unit_amount : Z;
  meta_ticket_id : Z;
  meta_pnr_number : string;
  meta_buyer_email : string
}.

Record CheckoutSession : Type := mkCheckoutSession {
  cs_id : string;
  cs_url : string;
  cs_payment_intent : string;
  cs_ticket_id : option Z    (* int(metadata.get('ticket_id')), None when it raises *)
}.

Record Platform : Type := mkPlatform {
  py_float : string -> option float;
  strptime_ymd : string -> option date;
  strftime_dmy : date -> string;
  secure_filename : string -> string;
  stripe_session_create : CheckoutParams -> option CheckoutSession;
  stripe_session_retrieve : string -> option CheckoutSession;
  stripe_payment_intent_retrieve : string -> option string
}.

(** ** The views of [app.py] *)

Section Views.

Variable P : Platform.

Definition ALLOWED_EXTENSIONS : list string :=
  ["pdf"; "jpg"; "jpeg"; "png"; "svg"; "gif"].

Definition allowed_file (filename : string) : bool :=
  match after_last_dot filename with
  | Some ext => existsb (String.eqb (lower ext)) ALLOWED_EXTENSIONS
  | None => false
  end.

(** Returns [(is_valid, error_message)]. *)
Definition validate_pnr (db : DB) (pnr_number : string) : bool * string :=
  if negb (re_match_pnr pnr_number)
  then (false, "PNR must be exactly 10 digits")
  else
    match SoldTicket_by_pnr db pnr_number with
    | Some _ => (false, "This ticket has already been sold and cannot be resold")
    | None => (true, "")
    end.

(** The rows selected by [check_expired_tickets]. *)
Definition expired_now (today : date) (t : Ticket.t) : bool :=
  (Ticket.travel_date t <? today) && Bool.eqb (Ticket.is_expired t) false.

(** [today] is [date.today()].  The loop assigns [is_expired = True] on each
    row the query returned. *)
Definition check_expired_tickets (today : date) : M unit :=
  expired_tickets <- query (fun db => filter (expired_now today) (tickets db));;
  with_txn (fun db =>
    (mkDB (map (fun t => if expired_now today t then Ticket.set_is_expired true t else t)
               (tickets db))
          (sold_tickets db) (messages db) (seller_wallets db) (wallet_transactions db),
     false));;
  match expired_tickets with
  | [] => ret tt
  | _ :: _ => try_except session_commit (fun _ => session_rollback)
  end.

(** [GET /]; the listing itself reads the store and changes nothing. *)
Definition index (today : date) : M Response :=
  check_expired_tickets today;;
  ret (render_template "index.html").

(** The fields of the upload form; [None] when the key is not posted.
    [files_file] is the file name of [request.files['file']]. *)
Record UploadForm : Type := mkUploadForm {
  form_title : option string;
  form_price : option string;
  files_file : option string;
  form_description : option string;
  form_from_location : option string;
  form_to_location : option string;
  form_travel_date : option string;
  form_train_number : option string;
  form_passenger_name : option string;
  form_pnr_number : option string
}.

(** [request.form.get(key, '')] *)
Definition form_get (v : option string) : string :=
  match v with
  | Some x => x
  | None => ""
  end.

(** [key not in request.form or not request.form[key].strip()] *)
Definition missing_or_blank (v : option string) : bool :=
  match v with
  | Some x => (strip x =? "")%string
  | None => true
  end.

Definition upload_rejected (message : string) : M Response :=
  flash_redirect message "danger" ep_upload_ticket.

(** [POST /upload] *)
Definition upload_ticket (form : UploadForm) : M Response :=
  if missing_or_blank (form_title form)
  then upload_rejected "Please provide a ticket title"
  else if missing_or_blank (form_price form)
  then upload_rejected "Please provide a ticket price"
  else
    match py_float P (form_get (form_price form)) with
    | None => upload_rejected "Price must be a valid number"
    | Some price =>
      if (price <=? 0)%float
      then upload_rejected "Price must be greater than zero"
      else
        match files_file form with
        | None => upload_rejected "No file part"
        | Some file_filename =>
          if (file_filename =? "")%string
          then upload_rejected "No image selected for uploading"
          else
            let title := form_get (form_title form) in
            let description := form_get (form_description form) in
            let from_location := form_get (form_from_location form) in
            let to_location := form_get (form_to_location form) in
            let travel_date_str := form_get (form_travel_date form) in
            let train_number := form_get (form_train_number form) in
            let passenger_name := form_get (form_passenger_name form) in
            let pnr_number := form_get (form_pnr_number form) in
            if (from_location =? "")%string
            then upload_rejected "Please provide origin location"
            else if (to_location =? "")%string
            then upload_rejected "Please provide destination location"
            else if (travel_date_str =? "")%string
            then upload_rejected "Please provide travel date"
            else if (train_number =? "")%string
            then upload_rejected "Please provide train number"
            else if (passenger_name =? "")%string
            then upload_rejected "Please provide passenger name"
            else if (pnr_number =? "")%string
            then upload_rejected "Please provide the PNR number"
            else
              verdict <- query (fun db => validate_pnr db pnr_number);;
              if negb (fst verdict)
              then upload_rejected (snd verdict)
              else
                match strptime_ymd P travel_date_str with
                | None =>
                    upload_rejected
                      "Invalid travel date format. Please use YYYY-MM-DD format"
                | Some travel_date =>
                  if allowed_file file_filename
                  then
                    let filename := secure_filename P file_filename in
                    try_except
                      (session_add_ticket (fun id =>
                         Ticket.mk id title price description filename pnr_number
                                   from_location to_location travel_date
                                   train_number passenger_name None false
                                   None None None);;
                       session_commit;;
                       ret (redirect (Some ("Ticket uploaded successfully!", "success"))
                                     ep_index))
                      (fun _ =>
                         session_rollback;;
                         upload_rejected "Error saving ticket to database")
                  else
                    upload_rejected "Allowed image types are: png, jpg, jpeg, gif"
                end
        end
    end.

(** [GET /buy/<ticket_id>] *)
Definition buy_ticket (ticket_id : Z) : M Response :=
  ticket <- query (fun db => Ticket_get db ticket_id);;
  match ticket with
  | Some ticket => ret (redirect None (ep_chat (Ticket.id ticket)))
  | None => flash_redirect "Ticket not found." "danger" ep_index
  end.

Definition RELEASE_REQUEST : string :=
  "[SYSTEM] Buyer has requested the ticket to be released.".

Definition RELEASE_CONFIRMATION : string :=
  "[SYSTEM] Seller has confirmed the ticket transfer.".

(** [GET /request_release/<ticket_id>]: buyer requests the seller to release
    the ticket. *)
Definition request_release (ticket_id : Z) : M Response :=
  ticket <- query (fun db => Ticket_get db ticket_id);;
  match ticket with
  | Some _ =>
      release_request_message <-
        query (fun db => Message_by_text db ticket_id "buyer" RELEASE_REQUEST);;
      match release_request_message with
      | Some _ =>
          flash_redirect
            "You have already requested this ticket to be released. Please wait for the seller to confirm."
            "warning" (ep_chat ticket_id)
      | None =>
          try_except
            (session_add_message (fun id =>
               Message.mk id ticket_id "buyer" RELEASE_REQUEST false);;
             session_commit;;
             flash_redirect "Release request sent to the seller." "success"
                            (ep_chat ticket_id))
            (fun _ =>
               session_rollback;;
               flash_redirect "Error sending release request." "danger"
                              (ep_chat ticket_id))
      end
  | None => flash_redirect "Ticket not found." "danger" (ep_chat ticket_id)
  end.

(** [GET /release_ticket/<ticket_id>]: seller confirms and releases the
    ticket to the buyer. *)
Definition release_ticket (ticket_id : Z) : M Response :=
  ticket <- query (fun db => Ticket_get db ticket_id);;
  match ticket with
  | Some _ =>
      shared_message <- query (fun db => Message_shared_by db ticket_id "seller");;
      match shared_message with
      | None =>
          flash_redirect
            "You must first share the ticket details before releasing it."
            "warning" (ep_chat ticket_id)
      | Some _ =>
          try_except
            (session_add_message (fun id =>
               Message.mk id ticket_id "seller" RELEASE_CONFIRMATION false);;
             session_commit;;
             ret (redirect None (ep_payment_page ticket_id)))
            (fun _ =>
               session_rollback;;
               flash_redirect "Error confirming release. Please try again." "danger"
                              (ep_chat ticket_id))
      end
  | None => flash_redirect "Ticket not found." "danger" ep_index
  end.

(** [GET /payment/<ticket_id>]: show the payment page for the ticket. *)
Definition payment_page (ticket_id : Z) : M Response :=
  ticket <- query (fun db => Ticket_get db ticket_id);;
  match ticket with
  | None => flash_redirect "Ticket not found." "danger" ep_index
  | Some ticket =>
      existing_sold_ticket <-
        query (fun db => SoldTicket_by_pnr db (Ticket.pnr_number ticket));;
      match existing_sold_ticket with
      | Some _ => flash_redirect "This ticket has already been sold." "danger" ep_index
      | None => ret (render_template "payment.html")
      end
  end.

(** [not v] for the value of [request.form.get(key)] or
    [request.args.get(key)]: the key is absent or its value is empty. *)
Definition not_given (v : option string) : bool :=
  match v with
  | Some x => (x =? "")%string
  | None => true
  end.

(** [int(ticket.price * 110)]: the price in the smallest currency unit,
    including the 10% commission. *)
Definition price_with_commission (ticket : Ticket.t) : Exn + Z :=
  int_of_float (Ticket.price ticket * 110)%float.

(** The arguments of [stripe.checkout.Session.create]. *)
Definition checkout_params (ticket : Ticket.t) (buyer_email : string)
  (amount : Z) : CheckoutParams :=
  mkCheckoutParams
    (Ticket.title ticket)
    ("From " ++ Ticket.from_location ticket ++ " to " ++ Ticket.to_location ticket
       ++ " on " ++ strftime_dmy P (Ticket.travel_date ticket))
    "inr"
    amount
    (Ticket.id ticket)
    (Ticket.pnr_number ticket)
    buyer_email.

(** [POST /process_payment/<ticket_id>]: create the Stripe checkout session
    for the ticket. *)
Definition process_payment (ticket_id : Z) (email : option string) : M Response :=
  ticket <- query (fun db => Ticket_get db ticket_id);;
  match ticket with
  | None => flash_redirect "Ticket not found." "danger" ep_index
  | Some ticket =>
      if not_given email
      then flash_redirect "Email is required for ticket delivery." "danger"
                          (ep_payment_page ticket_id)
      else
        let buyer_email := form_get email in
        with_txn (update_ticket (Ticket.id ticket)
                                (Ticket.set_buyer_email (Some buyer_email)));;
        amount <- lift (price_with_commission ticket);;
        try_except
          (checkout_session <-
             or_raise StripeError
               (stripe_session_create P
                  (checkout_params ticket buyer_email amount));;
           with_txn (update_ticket (Ticket.id ticket)
                       (Ticket.set_stripe_checkout_id (Some (cs_id checkout_session))));;
           with_txn (update_ticket (Ticket.id ticket)
                       (Ticket.set_payment_status (Some "pending")));;
           session_commit;;
           ret (redirect None (ep_url (cs_url checkout_session))))
          (fun _ =>
             flash_redirect "Payment processing error. Please try again." "danger"
                            (ep_payment_page ticket_id))
  end.

(** [f'{email}'] for a nullable column. *)
Definition str_of_optional (v : option string) : string :=
  match v with
  | Some x => x
  | None => "None"
  end.

(** [GET /payment/success]: the return from Stripe after a payment. *)
Definition payment_success (session_id : option string) : M Response :=
  if not_given session_id
  then flash_redirect "Invalid payment session." "danger" ep_index
  else
    try_except
      (checkout_session <-
         or_raise StripeError (stripe_session_retrieve P (form_get session_id));;
       ticket_id <- or_raise TypeError (cs_ticket_id checkout_session);;
       ticket <- query (fun db => Ticket_get db ticket_id);;
       match ticket with
       | Some ticket =>
           try_except
             (session_add_message (fun id =>
                Message.mk id ticket_id "system"
                  ("[SYSTEM] Ticket has been successfully purchased by "
                     ++ str_of_optional (Ticket.buyer_email ticket))
                  true);;
              session_commit)
             (fun _ => session_rollback)
       | None => ret tt
       end;;
       ret (render_template "payment_success.html"))
      (fun _ =>
         flash_redirect "Error verifying payment. Please contact support." "danger"
                        ep_index).

(** [GET /payment/cancel/<ticket_id>] *)
Definition payment_cancel (ticket_id : Z) : M Response :=
  ticket <- query (fun db => Ticket_get db ticket_id);;
  match ticket with
  | None => flash_redirect "Ticket not found." "danger" ep_index
  | Some ticket =>
      with_txn (update_ticket (Ticket.id ticket)
                              (Ticket.set_payment_status (Some "cancelled")));;
      session_commit;;
      ret (render_template "payment_cancel.html")
  end.

(** [ticket.seller_id or 1] *)
Definition seller_or_default (seller_id : option Z) : Z :=
  match seller_id with
  | Some n => if n =? 0 then 1 else n
  | None => 1
  end.

(** The finalisation block of [view_purchased_ticket]: the inner [try]. *)
Definition finalize_purchase_block (ticket : Ticket.t) (payment_intent_id : string)
  : M Response :=
  let seller := seller_or_default (Ticket.seller_id ticket) in
  found <- query (fun db => SellerWallet_by_seller db seller);;
  seller_wallet <-
    match found with
    | Some w => ret w
    | None =>
        w <- session_add_wallet (fun id => SellerWallet.mk id seller 0%float "INR");;
        session_commit;;
        ret w
    end;;
  let original_price := Ticket.price ticket in
  let seller_amount := original_price in
  with_txn (update_wallet (SellerWallet.id seller_wallet)
              (SellerWallet.set_balance
                 (SellerWallet.balance seller_wallet + seller_amount)%float));;
  session_add_sold_ticket (fun id =>
    SoldTicket.mk id (Ticket.pnr_number ticket) (Ticket.from_location ticket)
                  (Ticket.to_location ticket) (Ticket.travel_date ticket)
                  (Ticket.train_number ticket) (Ticket.buyer_email ticket)
                  payment_intent_id (Ticket.seller_id ticket)
                  (Some (Ticket.id ticket)));;
  session_add_wallet_transaction (fun id =>
    WalletTransaction.mk id (SellerWallet.id seller_wallet) seller_amount "credit"
      ("Payment for ticket " ++ str_of_int (Ticket.id ticket) ++ ": "
         ++ Ticket.from_location ticket ++ " to " ++ Ticket.to_location ticket)
      payment_intent_id);;
  with_txn (update_ticket (Ticket.id ticket)
                          (Ticket.set_payment_status (Some "completed")));;
  session_commit;;
  ret (render_template "ticket_download.html").

(** [GET /view_purchased_ticket/<session_id>]: finalize the purchase after a
    successful payment. *)
Definition view_purchased_ticket (session_id : string) : M Response :=
  try_except
    (checkout_session <- or_raise StripeError (stripe_session_retrieve P session_id);;
     payment_intent_id <-
       or_raise StripeError
         (stripe_payment_intent_retrieve P (cs_payment_intent checkout_session));;
     ticket_id <- or_raise TypeError (cs_ticket_id checkout_session);;
     ticket <- query (fun db => Ticket_get db ticket_id);;
     match ticket with
     | None =>
         flash_redirect "Ticket not found. It may have already been processed."
                        "warning" ep_index
     | Some ticket =>
         try_except
           (finalize_purchase_block ticket payment_intent_id)
           (fun _ =>
              session_rollback;;
              flash_redirect "Error processing your purchase. Please contact support."
                             "danger" ep_index)
     end)
    (fun _ =>
       flash_redirect "Error verifying payment. Please contact support." "danger"
                      ep_index).

(** [POST /send_message/<ticket_id>]; [user_type] is the value kept in the
    Flask session, [share_ticket] whether that key is posted. *)
Definition send_message (ticket_id : Z) (message : option string)
  (share_ticket : bool) (user_type : option string) : M Response :=
  ticket <- query (fun db => Ticket_get db ticket_id);;
  match ticket with
  | None => ret (jsonify false false (Some "Ticket not found"))
  | Some _ =>
      let message_text := strip (form_get message) in
      if (message_text =? "")%string
      then ret (jsonify false false (Some "Message cannot be empty"))
      else
        let user_type := match user_type with Some u => u | None => "buyer" end in
        let is_ticket_shared := share_ticket && (user_type =? "seller")%string in
        try_except
          (session_add_message (fun id =>
             Message.mk id ticket_id user_type message_text is_ticket_shared);;
           session_commit;;
           if is_ticket_shared
           then ret (jsonify true true None)
           else ret (jsonify true false None))
          (fun _ =>
             session_rollback;;
             ret (jsonify false false (Some "Database error")))
  end.

End Views.

(** ** Requests and the states they reach

    The views that only read the store and render ([GET /upload],
    [/chat], [/download_ticket], [/uploads], [/switch_user],
    [/finalize_purchase]) change nothing and are not listed. *)
Inductive Request : Type :=
| GET_index (today : date)
| POST_upload_ticket (form : UploadForm)
| GET_buy_ticket (ticket_id : Z)
| GET_request_release (ticket_id : Z)
| GET_release_ticket (ticket_id : Z)
| GET_payment_page (ticket_id : Z)
| POST_process_payment (ticket_id : Z) (email : option string)
| GET_payment_success (session_id : option string)
| GET_payment_cancel (ticket_id : Z)
| GET_view_purchased_ticket (session_id : string)
| POST_send_message (ticket_id : Z) (message : option string)
    (share_ticket : bool) (user_type : option string).

Definition view_of (P : Platform) (req : Request) : M Response :=
  match req with
  | GET_index today => index today
  | POST_upload_ticket form => upload_ticket P form
  | GET_buy_ticket ticket_id => buy_ticket ticket_id
  | GET_request_release ticket_id => request_release ticket_id
  | GET_release_ticket ticket_id => release_ticket ticket_id
  | GET_payment_page ticket_id => payment_page ticket_id
  | POST_process_payment ticket_id email => process_payment P ticket_id email
  | GET_payment_success session_id => payment_success P session_id
  | GET_payment_cancel ticket_id => payment_cancel ticket_id
  | GET_view_purchased_ticket session_id => view_purchased_ticket P session_id
  | POST_send_message ticket_id message share_ticket user_type =>
      send_message ticket_id message share_ticket user_type
  end.

(** One request served: the response and the store afterwards.  [fs] is the
    fault schedule of the store during the request. *)
Definition handle (P : Platform) (req : Request) (fs : list bool) (db : DB)
  : Response * DB :=
  run_request (view_of P req) fs db.

(** The stores the application can reach from an empty database. *)
Inductive reachable (P : Platform) : DB -> Prop :=
| reach_empty : reachable P empty_db
| reach_step (db : DB) (req : Request) (fs : list bool) :
    reachable P db -> reachable P (snd (handle P req fs db)).

(** A sequence of requests served one after the other. *)
Fixpoint serve (P : Platform) (reqs : list (Request * list bool)) (db : DB)
  : list Response * DB :=
  match reqs with
  | [] => ([], db)
  | (req, fs) :: rest =>
      let (r, db') := handle P req fs db in
      let (rs, db'') := serve P rest db' in
      (r :: rs, db'')
  end.

(** ** The error taxonomy of the specification

    The specification names five kinds of failure; a view reports a failure
    by the message it flashes.  [spec_error] reads the kind off the message:
    the messages of form validation are [ValidationError], the two "Ticket
    not found" messages are [NotFound], the refusal to release before the
    details are shared is [PreconditionFailed], the refusal to pay for a
    ticket already sold is [Conflict], and the failure of the settlement
    transaction (the user is told to contact support) is
    [FinalizationError].  Any other response is none of the five. *)
Inductive ErrorKind : Type :=
| ValidationError
| NotFound
| PreconditionFailed
| Conflict
| FinalizationError.

Definition validation_messages : list string :=
  [ "Please provide a ticket title";
    "Please provide a ticket price";
    "Price must be greater than zero";
    "Price must be a valid number";
    "No file part";
    "No image selected for uploading";
    "Please provide origin location";
    "Please provide destination location";
    "Please provide travel date";
    "Please provide train number";
    "Please provide passenger name";
    "Please provide the PNR number";
    "PNR must be exactly 10 digits";
    "This ticket has already been sold and cannot be resold";
    "Invalid travel date format. Please use YYYY-MM-DD format";
    "Allowed image types are: png, jpg, jpeg, gif";
    "Email is required for ticket delivery.";
    "Invalid payment session.";
    "Message cannot be empty" ].

Definition not_found_messages : list string :=
  [ "Ticket not found.";
    "Ticket not found. It may have already been processed.";
    "Ticket not found" ].

Definition kind_of_message (message : string) : option ErrorKind :=
  if existsb (String.eqb message) validation_messages then Some ValidationError
  else if existsb (String.eqb message) not_found_messages then Some NotFound
  else if (message =? "You must first share the ticket details before releasing it.")%string
  then Some PreconditionFailed
  else if (message =? "This ticket has already been sold.")%string
  then Some Conflict
  else if (message =? "Error processing your purchase. Please contact support.")%string
  then Some FinalizationError
  else None.

Definition spec_error (r : Response) : option ErrorKind :=
  match r with
  | redirect (Some (message, _)) _ => kind_of_message message
  | jsonify false _ (Some message) => kind_of_message message
  | _ => None
  end.

(** ** Vocabulary of the properties *)

(** A seller message with the shared flag set, for the ticket: the
    share-confirmation. *)
Definition share_confirmation (ticket_id : Z) (m : Message.t) : Prop :=
  Message.ticket_id m = ticket_id
  /\ Message.sender_type m = "seller"
  /\ Message.is_ticket_shared m = true.

(** The release-request of the buyer, for the ticket. *)
Definition release_request (ticket_id : Z) (m : Message.t) : Prop :=
  Message.ticket_id m = ticket_id
  /\ Message.sender_type m = "buyer"
  /\ Message.message_text m = RELEASE_REQUEST.

(** The store with one more message. *)
Definition with_message (db : DB) (m : Message.t) : DB :=
  mkDB (tickets db) (sold_tickets db) (messages db ++ [m]) (seller_wallets db)
       (wallet_transactions db).

(** The store with one more ticket. *)
Definition with_ticket (db : DB) (t : Ticket.t) : DB :=
  mkDB (tickets db ++ [t]) (sold_tickets db) (messages db) (seller_wallets db)
       (wallet_transactions db).

(** The store with one more wallet. *)
Definition with_wallet (db : DB) (w : SellerWallet.t) : DB :=
  mkDB (tickets db) (sold_tickets db) (messages db) (seller_wallets db ++ [w])
       (wallet_transactions db).

(** The balance the seller holds: that of the seller's wallet, zero while
    the seller has none. *)
Definition balance_of (db : DB) (seller : Z) : float :=
  match SellerWallet_by_seller db seller with
  | Some w => SellerWallet.balance w
  | None => 0%float
  end.

(** The store accepts the next commit: no fault is scheduled for it. *)
Definition store_accepts (fs : list bool) : Prop := hd false fs = false.



(** ** A platform and a listing for the examples

    The collaborators answer as Python and Stripe's test mode do on the
    inputs used in the examples: [float('500.00')] is [500.0],
    [float('499.99')] is the double nearest to 499.99, the date
    2030-01-15 has ordinal 741092, and the checkout session of ticket [n]
    is [cs_n] with payment intent [pi_n]. *)
Definition stub_session (ticket_id : Z) : CheckoutSession :=
  mkCheckoutSession ("cs_" ++ str_of_int ticket_id)
                    ("https://checkout.stripe.com/c/pay/cs_" ++ str_of_int ticket_id)
                    ("pi_" ++ str_of_int ticket_id)
                    (Some ticket_id).

Definition stub_platform : Platform :=
  mkPlatform
    (fun s => if (s =? "500.00")%string then Some 500%float
              else if (s =? "499.99")%string then Some (49999 / 100)%float
              else None)
    (fun s => if (s =? "2030-01-15")%string then Some 741092 else None)
    (fun _ => "15-01-2030")
    (fun s => s)
    (fun params => Some (stub_session (meta_ticket_id params)))
    (fun sid =>
       if (sid =? "cs_1")%string then Some (stub_session 1)
       else if (sid =? "cs_2")%string then Some (stub_session 2)
       else None)
    (fun pi => Some pi).

(** An upload of a Delhi to Mumbai ticket with the given price and PNR. *)
Definition listing (price pnr : string) : UploadForm :=
  mkUploadForm (Some "Delhi to Mumbai") (Some price) (Some "ticket.png") None
               (Some "Delhi") (Some "Mumbai") (Some "2030-01-15") (Some "12951")
               (Some "A Kumar") (Some pnr).

(** The store after the upload of one ticket, PNR 1234567890, price 500.00. *)
Definition db_listed : DB :=
  Eval vm_compute in
  snd (handle stub_platform (POST_upload_ticket (listing "500.00" "1234567890")) []
              empty_db).

(** ... and after the buyer has reached the payment step. *)
Definition db_pending : DB :=
  Eval vm_compute in
  snd (handle stub_platform (POST_process_payment 1 (Some "buyer@x.com")) [] db_listed).

(** ... and after the sale is finalized. *)
Definition db_sold : DB :=
  Eval vm_compute in
  snd (handle stub_platform (GET_view_purchased_ticket "cs_1") [] db_pending).

(** ... or, from [db_listed], after the seller has shared the ticket
    details in the chat. *)
Definition db_shared : DB :=
  Eval vm_compute in
  snd (handle stub_platform
              (POST_send_message 1 (Some "PNR and coach details attached") true
                                 (Some "seller"))
              [] db_listed).

(** The listed ticket, as [db_listed] holds it. *)
Definition ticket_listed : Ticket.t :=
  Eval vm_compute in
  Ticket.mk 1 "Delhi to Mumbai" 500%float "" "ticket.png" "1234567890" "Delhi"
            "Mumbai" 741092 "12951" "A Kumar" None false None None None.

(** The faults of an upload named by the specification of ticket creation:
    the price is missing, is not a number or is not positive; the PNR does
    not match the pattern of [validate_pnr] or is already sold; a required
    route, date, train, passenger or PNR field is missing; the travel date
    does not parse. *)
Definition invalid_upload (P : Platform) (db : DB) (form : UploadForm) : Prop :=
  missing_or_blank (form_price form) = true
  \/ py_float P (form_get (form_price form)) = None
  \/ (exists price, py_float P (form_get (form_price form)) = Some price
                    /\ (price <=? 0)%float = true)
  \/ re_match_pnr (form_get (form_pnr_number form)) = false
  \/ SoldTicket_by_pnr db (form_get (form_pnr_number form)) <> None
  \/ form_get (form_from_location form) = ""
  \/ form_get (form_to_location form) = ""
  \/ form_get (form_travel_date form) = ""
  \/ form_get (form_train_number form) = ""
  \/ form_get (form_passenger_name form) = ""
  \/ form_get (form_pnr_number form) = ""
  \/ strptime_ymd P (form_get (form_travel_date form)) = None.

(** Two listings of the same PNR, the first of them paid for and sold. *)
Definition db_resale : DB :=
  Eval vm_compute in
  snd (serve stub_platform
         [ (POST_upload_ticket (listing "500.00" "1234567890"), []);
           (POST_upload_ticket (listing "500.00" "1234567890"), []);
           (POST_process_payment 1 (Some "buyer@x.com"), []);
           (GET_view_purchased_ticket "cs_1", []) ]
         empty_db).

(** What [process_payment] writes on the ticket. *)
Definition payment_pending (buyer_email checkout_id : string) (t : Ticket.t) : Ticket.t :=
  Ticket.set_payment_status (Some "pending")
    (Ticket.set_stripe_checkout_id (Some checkout_id)
       (Ticket.set_buyer_email (Some buyer_email) t)).

(** A listing priced 499.99, and the ticket it creates. *)
Definition db_listed_odd : DB :=
  Eval vm_compute in
  snd (handle stub_platform (POST_upload_ticket (listing "499.99" "1234567890")) []
              empty_db).

Definition ticket_listed_odd : Ticket.t :=
  Eval vm_compute in
  Ticket.mk 1 "Delhi to Mumbai" (49999 / 100)%float "" "ticket.png" "1234567890"
            "Delhi" "Mumbai" 741092 "12951" "A Kumar" None false None None None.

(** What a request can do to a row of [tickets]: the key and the listing
    stay; the expiry flag changes only by being raised, by the sweep of
    [index], on a row whose travel date lies before the day of the sweep. *)
Definition ticket_kept (req : Request) (t t' : Ticket.t) : Prop :=
  Ticket.id t' = Ticket.id t
  /\ Ticket.price t' = Ticket.price t
  /\ Ticket.pnr_number t' = Ticket.pnr_number t
  /\ Ticket.seller_id t' = Ticket.seller_id t
  /\ Ticket.travel_date t' = Ticket.travel_date t
  /\ (Ticket.is_expired t' = Ticket.is_expired t
      \/ (exists today, req = GET_index today
                        /\ Ticket.travel_date t < today
                        /\ Ticket.is_expired t = false
                        /\ Ticket.is_expired t' = true)).

(** What the sweep of [today] may do to a row: leave it, or raise its flag;
    a raised flag stays raised, and a flag is raised only on a travel date
    before [today]. *)
Definition swept_row (today : date) (t t' : Ticket.t) : Prop :=
  (t' = t \/ t' = Ticket.set_is_expired true t)
  /\ (Ticket.is_expired t = true -> Ticket.is_expired t' = true)
  /\ (Ticket.is_expired t' = true ->
      Ticket.is_expired t = true \/ Ticket.travel_date t < today).

(** What a sweep that commits does to a row: the flag is raised exactly on
    the rows whose travel date lies before [today]. *)
Definition swept_exactly (today : date) (t t' : Ticket.t) : Prop :=
  Ticket.is_expired t' = Ticket.is_expired t || (Ticket.travel_date t <? today).

(** A store with a ticket whose travel date (2030-01-15) is past on
    2030-01-16, and the same store after the sweep of that day. *)
Definition db_swept : DB :=
  Eval vm_compute in snd (handle stub_platform (GET_index 741093) [] db_listed).

(** The payment session [session_id] resolves, at the gateway and in the
    store, to a ticket and to the payment that settled it. *)
Definition resolves (P : Platform) (session_id : string) (db : DB)
  (ticket : Ticket.t) (payment_id : string) : Prop :=
  exists cs ticket_id,
    stripe_session_retrieve P session_id = Some cs
    /\ stripe_payment_intent_retrieve P (cs_payment_intent cs) = Some payment_id
    /\ cs_ticket_id cs = Some ticket_id
    /\ Ticket_get db ticket_id = Some ticket.

(** The rows the finalisation block builds for a ticket. *)
Definition sold_row (ticket : Ticket.t) (payment_id : string) (id : Z) : SoldTicket.t :=
  SoldTicket.mk id (Ticket.pnr_number ticket) (Ticket.from_location ticket)
                (Ticket.to_location ticket) (Ticket.travel_date ticket)
                (Ticket.train_number ticket) (Ticket.buyer_email ticket)
                payment_id (Ticket.seller_id ticket) (Some (Ticket.id ticket)).

Definition credit_row (ticket : Ticket.t) (payment_id : string) (wallet_id id : Z)
  : WalletTransaction.t :=
  WalletTransaction.mk id wallet_id (Ticket.price ticket) "credit"
    ("Payment for ticket " ++ str_of_int (Ticket.id ticket) ++ ": "
       ++ Ticket.from_location ticket ++ " to " ++ Ticket.to_location ticket)
    payment_id.

(** The wallet the finalisation block creates for a seller who has none. *)
Definition fresh_wallet (db : DB) (seller : Z) : SellerWallet.t :=
  SellerWallet.mk (next_id (map SellerWallet.id (seller_wallets db))) seller 0%float "INR".

(** The store once the four writes of a settlement are committed: the
    wallet [w] credited with the listed price, the credit recorded, the sold
    ticket recorded, and the ticket marked completed. *)
Definition settled (db : DB) (ticket : Ticket.t) (payment_id : string)
  (w : SellerWallet.t) : DB :=
  mkDB (map (fun t => if Ticket.id t =? Ticket.id ticket
                      then Ticket.set_payment_status (Some "completed") t else t)
            (tickets db))
       (sold_tickets db
          ++ [sold_row ticket payment_id (next_id (map SoldTicket.id (sold_tickets db)))])
       (messages db)
       (map (fun x => if SellerWallet.id x =? SellerWallet.id w
                      then SellerWallet.set_balance
                             (SellerWallet.balance w + Ticket.price ticket)%float x
                      else x)
            (seller_wallets db))
       (wallet_transactions db
          ++ [credit_row ticket payment_id (SellerWallet.id w)
                         (next_id (map WalletTransaction.id (wallet_transactions db)))]).

(** The PNR is already in [sold_tickets]. *)
Definition pnr_sold (db : DB) (pnr : string) : bool :=
  existsb (fun s => (SoldTicket.pnr_number s =? pnr)%string) (sold_tickets db).

(** The two answers of the finalisation block. *)
Definition finalization_failed : Response :=
  redirect (Some ("Error processing your purchase. Please contact support.", "danger"))
           ep_index.

Definition finalization_done : Response := render_template "ticket_download.html".

(** The requests that finalize the given payment sessions, one after the
    other, each with the fault schedule of its own request. *)
Definition finalizations (calls : list (string * list bool))
  : list (Request * list bool) :=
  map (fun c => (GET_view_purchased_ticket (fst c), snd c)) calls.

(** What holds of every store the application reaches: no PNR is sold
    twice, no listing names a seller (uploads never do), and the wallet of
    the default seller exists as soon as something is sold. *)
Definition ledger_invariant (db : DB) : Prop :=
  NoDup (map SoldTicket.pnr_number (sold_tickets db))
  /\ Forall (fun t => Ticket.seller_id t = None) (tickets db)
  /\ (sold_tickets db <> [] -> exists w, SellerWallet_by_seller db 1 = Some w).

(** Two listings with different PNRs, priced 500.00 and 499.99. *)
Definition db_two_listed : DB :=
  Eval vm_compute in
  snd (serve stub_platform
         [ (POST_upload_ticket (listing "500.00" "1234567890"), []);
           (POST_upload_ticket (listing "499.99" "0987654321"), []) ]
         empty_db).

(** The payment session of [call] resolves to a ticket of [seller] listed
    at [price]. *)
Definition sells (P : Platform) (db : DB) (seller : Z) (call : string * list bool)
  (price : float) : Prop :=
  exists ticket payment_id,
    resolves P (fst call) db ticket payment_id
    /\ seller_or_default (Ticket.seller_id ticket) = seller
    /\ Ticket.price ticket = price.

(** The store the four writes of a settlement are applied to: the store
    itself when the seller has a wallet, and otherwise the store with the
    fresh wallet that the block commits on its own first. *)
Definition settlement_base (db : DB) (seller : Z) : DB :=
  match SellerWallet_by_seller db seller with
  | Some _ => db
  | None => with_wallet db (fresh_wallet db seller)
  end.

(** The ticket of [db_sold]: paid for and completed. *)
Definition ticket_sold : Ticket.t :=
  Eval vm_compute in
  Ticket.set_payment_status (Some "completed")
    (payment_pending "buyer@x.com" "cs_1" ticket_listed).

(** ['.' in s] *)
Fixpoint contains_dot (s : string) : bool :=
  match s with
  | EmptyString => false
  | String c rest => Ascii.eqb c "."%char || contains_dot rest
  end.

(** Ten characters, each a decimal digit. *)
Definition ten_digits (s : string) : Prop :=
  String.length s = 10%nat /\ forallb isdigit (list_ascii_of_string s) = true.


(** Two rows of [tickets] carry the same listing: key, title, price,
    description, file, PNR, route, date, train, passenger and seller. *)
Definition same_listing (t t' : Ticket.t) : Prop :=
  Ticket.id t' = Ticket.id t
  /\ Ticket.title t' = Ticket.title t
  /\ Ticket.price t' = Ticket.price t
  /\ Ticket.description t' = Ticket.description t
  /\ Ticket.filename t' = Ticket.filename t
  /\ Ticket.pnr_number t' = Ticket.pnr_number t
  /\ Ticket.from_location t' = Ticket.from_location t
  /\ Ticket.to_location t' = Ticket.to_location t
  /\ Ticket.travel_date t' = Ticket.travel_date t
  /\ Ticket.train_number t' = Ticket.train_number t
  /\ Ticket.passenger_name t' = Ticket.passenger_name t
  /\ Ticket.seller_id t' = Ticket.seller_id t.

(** [session.get('user_type', 'buyer')] *)
Definition session_user_type (user_type : option string) : string :=
  match user_type with
  | Some u => u
  | None => "buyer"
  end.

(** The answer reports a failure: an error page, a JSON failure, or a
    redirect that flashes a message of category danger or warning. *)
Definition reports_failure (r : Response) : bool :=
  match r with
  | redirect (Some (_, category)) _ =>
      (category =? "danger")%string || (category =? "warning")%string
  | redirect None _ => false
  | render_template _ => false
  | jsonify success _ _ => negb success
  | internal_server_error _ => true
  end.

(** The store accepts the commits of a finalisation for the seller: the
    commit of the settlement, and before it the commit of the wallet when
    the seller has none yet. *)
Definition commits_accepted (db : DB) (seller : Z) (fs : list bool) : Prop :=
  match SellerWallet_by_seller db seller with
  | Some _ => hd false fs = false
  | None => hd false fs = false /\ hd false (tl fs) = false
  end.

(** The message [payment_success] writes into the chat of the ticket. *)
Definition purchase_message (ticket : Ticket.t) (id : Z) : Message.t :=
  Message.mk id (Ticket.id ticket) "system"
    ("[SYSTEM] Ticket has been successfully purchased by "
       ++ str_of_optional (Ticket.buyer_email ticket))
    true.

(** The payment session names a ticket of the store. *)
Definition session_names (P : Platform) (session_id : string) (db : DB)
  (ticket : Ticket.t) : Prop :=
  exists cs ticket_id,
    stripe_session_retrieve P session_id = Some cs
    /\ cs_ticket_id cs = Some ticket_id
    /\ Ticket_get db ticket_id = Some ticket.

(** [db_shared] after the seller has released the ticket and the buyer has
    requested the release. *)
Definition db_released : DB :=
  Eval vm_compute in
  snd (serve stub_platform
         [ (GET_release_ticket 1, []); (GET_request_release 1, []) ]
         db_shared).

(** The amounts of the wallet transactions, added up in the order they were
    recorded, starting from the balance [0.0] of a new wallet. *)
Definition credited (xs : list WalletTransaction.t) : float :=
  fold_left (fun b x => (b + WalletTransaction.amount x)%float) xs 0%float.

(** A sold ticket and the wallet transaction recorded with it: a credit for
    the same payment, of the price at which the ticket the sale came from is
    listed. *)
Definition sale_credited (db : DB) (s : SoldTicket.t) (x : WalletTransaction.t)
  : Prop :=
  WalletTransaction.payment_id x = SoldTicket.payment_id s
  /\ WalletTransaction.transaction_type x = "credit"
  /\ exists t,
       In t (tickets db)
       /\ SoldTicket.from_ticket_id s = Some (Ticket.id t)
       /\ SoldTicket.pnr_number s = Ticket.pnr_number t
       /\ WalletTransaction.amount x = Ticket.price t.

(** The books balance: sales and wallet transactions pair up, there is at
    most one wallet (that of the default seller 1), every transaction belongs
    to it, and its balance is the sum of the transactions. *)
Definition books_balance (db : DB) : Prop :=
  Forall2 (sale_credited db) (sold_tickets db) (wallet_transactions db)
  /\ match seller_wallets db with
     | [] => wallet_transactions db = []
     | [w] =>
         SellerWallet.seller_id w = 1
         /\ SellerWallet.balance w = credited (wallet_transactions db)
         /\ Forall (fun x => WalletTransaction.wallet_id x = SellerWallet.id w)
                   (wallet_transactions db)
     | _ :: _ :: _ => False
     end.


(** ** The session of a visitor

    The Flask session of a browser holds at most the key [user_type]; a
    [Cookie] is the value under that key, [None] when the key is absent. *)
Definition Cookie : Type := option string.

(** [GET /switch_user/<user_type>]; [referrer] is [request.referrer]. *)
Definition switch_user (user_type : string) (referrer : option string)
  (cookie : Cookie) : Response * Cookie :=
  let target := if not_given referrer then ep_index else ep_url (form_get referrer) in
  if existsb (String.eqb user_type) ["buyer"; "seller"]
  then (redirect (Some ("Switched to " ++ user_type ++ " mode", "info")) target,
        Some user_type)
  else (redirect None target, cookie).

(** [GET /chat/<ticket_id>]: reads the store, and gives a session without a
    role the role buyer. *)
Definition chat (ticket_id : Z) (cookie : Cookie) (db : DB) : Response * Cookie :=
  match Ticket_get db ticket_id with
  | None => (redirect (Some ("Ticket not found.", "danger")) ep_index, cookie)
  | Some _ =>
      (render_template "chat.html",
       match cookie with
       | Some user_type => Some user_type
       | None => Some "buyer"
       end)
  end.

(** What a visitor does: switch the role, open a chat, or send one of the
    requests that work on the store. *)
Inductive Visit : Type :=
| V_switch_user (user_type : string) (referrer : option string)
| V_chat (ticket_id : Z)
| V_request (req : Request).

(** The request as the server sees it: [send_message] reads the role from
    the session of the visitor. *)
Definition in_session (cookie : Cookie) (req : Request) : Request :=
  match req with
  | POST_send_message ticket_id message share_ticket _ =>
      POST_send_message ticket_id message share_ticket cookie
  | _ => req
  end.

(** One visit: the response, the session and the store afterwards. *)
Definition visit (P : Platform) (v : Visit) (fs : list bool) (st : Cookie * DB)
  : Response * (Cookie * DB) :=
  match v with
  | V_switch_user user_type referrer =>
      let (r, cookie) := switch_user user_type referrer (fst st) in
      (r, (cookie, snd st))
  | V_chat ticket_id =>
      let (r, cookie) := chat ticket_id (fst st) (snd st) in
      (r, (cookie, snd st))
  | V_request req =>
      let (r, db) := handle P (in_session (fst st) req) fs (snd st) in
      (r, (fst st, db))
  end.

(** The visits of one browser, one after the other. *)
Fixpoint browse (P : Platform) (visits : list (Visit * list bool))
  (st : Cookie * DB) : Cookie * DB :=
  match visits with
  | [] => st
  | (v, fs) :: rest => browse P rest (snd (visit P v fs st))
  end.

(** The roles a session can hold. *)
Definition role_known (cookie : Cookie) : Prop :=
  cookie = None \/ cookie = Some "buyer" \/ cookie = Some "seller".

(** The visitor never asks for the role of the seller. *)
Definition never_switches_to_seller (visits : list (Visit * list bool)) : Prop :=
  forall referrer fs, ~ In (V_switch_user "seller" referrer, fs) visits.

(** A visitor who opens the chat of ticket 1 and posts a message with the
    [share_ticket] key. *)
Definition buyer_visits : list (Visit * list bool) :=
  [ (V_chat 1, []);
    (V_request (POST_send_message 1 (Some "here is the ticket") true None), []) ].

(** ** Downloading a purchased ticket *)

(** [SoldTicket.query.get(sold_ticket_id)] *)
Definition SoldTicket_get (db : DB) (sold_ticket_id : Z) : option SoldTicket.t :=
  find (fun s => SoldTicket.id s =? sold_ticket_id) (sold_tickets db).

(** [s.endswith(suffix)] *)
Fixpoint endswith (suffix s : string) : bool :=
  (s =? suffix)%string
  || match s with
     | String _ rest => endswith suffix rest
     | EmptyString => false
     end.

(** [os.path.join(a, b)] on a POSIX system. *)
Definition os_path_join (a b : string) : string :=
  match b with
  | String "/"%char _ => b
  | _ => if (a =? "")%string || endswith "/" a then a ++ b else a ++ "/" ++ b
  end.

Definition UPLOAD_FOLDER : string := "uploads".

(** The file system as [download_ticket] meets it: [os.path.exists],
    [os.listdir] of the upload folder ([None] when it raises), and whether
    [send_file] finds the file it is given (it raises when it does not). *)
Record Folder : Type := mkFolder {
  path_exists : string -> bool;
  listdir : option (list string);
  can_send : string -> bool
}.

(** What [download_ticket] returns: the file sent as an attachment, or
    another response. *)
Inductive Download : Type :=
| send_file (path download_name : string)
| answered (r : Response).

(** The path under which [download_ticket] first looks for the ticket. *)
Definition own_path (sold_ticket : SoldTicket.t) : string :=
  os_path_join UPLOAD_FOLDER (SoldTicket.pnr_number sold_ticket ++ ".svg").

Definition download_name_of (sold_ticket : SoldTicket.t) : string :=
  "Ticket_" ++ SoldTicket.from_location sold_ticket ++ "_to_"
    ++ SoldTicket.to_location sold_ticket ++ ".svg".

(** [GET /download_ticket/<sold_ticket_id>] *)
Definition download_ticket (F : Folder) (sold_ticket_id : Z) (db : DB) : Download :=
  match SoldTicket_get db sold_ticket_id with
  | None => answered (redirect (Some ("Ticket not found.", "danger")) ep_index)
  | Some sold_ticket =>
      let failed :=
        answered (redirect (Some ("Error downloading ticket. Please try again.",
                                  "danger")) ep_index) in
      let ticket_path := own_path sold_ticket in
      let found :=
        if path_exists F ticket_path
        then Some ticket_path
        else
          match listdir F with
          | None => None
          | Some names =>
              match find (endswith ".svg") names with
              | Some filename => Some (os_path_join UPLOAD_FOLDER filename)
              | None => Some ticket_path
              end
          end in
      match found with
      | None => failed
      | Some ticket_path =>
          if can_send F ticket_path
          then send_file ticket_path (download_name_of sold_ticket)
          else failed
      end
  end.

(** [send_file] finds only files that exist. *)
Definition coherent (F : Folder) : Prop :=
  forall path, can_send F path = true -> path_exists F path = true.

(** An upload folder that holds the image of a listing and the file of
    some other ticket. *)
Definition folder_of_examples : Folder :=
  mkFolder (fun path => (path =? "uploads/ticket.png")%string
                        || (path =? "uploads/9999999999.svg")%string)
           (Some ["ticket.png"; "9999999999.svg"])
           (fun path => (path =? "uploads/ticket.png")%string
                        || (path =? "uploads/9999999999.svg")%string).

(** ** The state of a listed ticket *)

(** The listing passed the checks of [upload_ticket]: a title that is not
    blank, a price that is not zero or negative, a route, a train, a
    passenger, and a PNR that matches the pattern; no seller is named. *)
Definition listing_checked (t : Ticket.t) : Prop :=
  strip (Ticket.title t) <> ""
  /\ (Ticket.price t <=? 0)%float = false
  /\ Ticket.from_location t <> ""
  /\ Ticket.to_location t <> ""
  /\ Ticket.train_number t <> ""
  /\ Ticket.passenger_name t <> ""
  /\ re_match_pnr (Ticket.pnr_number t) = true
  /\ Ticket.seller_id t = None.

(** The payment fields of a ticket fit together: the status is one of the
    three the views write, or unset; a completed ticket has a sale recorded
    from it; the checkout session and the buyer's email are set together,
    and then the status is set too; the email is never empty. *)
Definition payment_state_ok (sold : list SoldTicket.t) (t : Ticket.t) : Prop :=
  In (Ticket.payment_status t)
     [None; Some "pending"; Some "cancelled"; Some "completed"]
  /\ (Ticket.payment_status t = Some "completed" ->
      exists s, In s sold /\ SoldTicket.from_ticket_id s = Some (Ticket.id t))
  /\ (Ticket.stripe_checkout_id t = None <-> Ticket.buyer_email t = None)
  /\ (Ticket.stripe_checkout_id t <> None -> Ticket.payment_status t <> None)
  /\ Ticket.buyer_email t <> Some "".

(** What a request other than a finalisation can do to the payment fields
    of a row: leave them, set them all for a pending payment, or mark the
    payment cancelled. *)
Definition payment_step (t t' : Ticket.t) : Prop :=
  (Ticket.payment_status t' = Ticket.payment_status t
   /\ Ticket.stripe_checkout_id t' = Ticket.stripe_checkout_id t
   /\ Ticket.buyer_email t' = Ticket.buyer_email t)
  \/ (Ticket.payment_status t' = Some "pending"
      /\ Ticket.stripe_checkout_id t' <> None
      /\ exists email, email <> "" /\ Ticket.buyer_email t' = Some email)
  \/ (Ticket.payment_status t' = Some "cancelled"
      /\ Ticket.stripe_checkout_id t' = Ticket.stripe_checkout_id t
      /\ Ticket.buyer_email t' = Ticket.buyer_email t).

(** A row as [upload_ticket] creates it. *)
Definition fresh_listing (t : Ticket.t) : Prop :=
  listing_checked t
  /\ Ticket.payment_status t = None
  /\ Ticket.stripe_checkout_id t = None
  /\ Ticket.buyer_email t = None.

(** Every ticket of the store is a checked listing in a consistent payment
    state. *)
Definition tickets_consistent (db : DB) : Prop :=
  Forall (fun t => listing_checked t /\ payment_state_ok (sold_tickets db) t)
         (tickets db).

(** ** Sums of prices *)

(** No addition rounds when the prices are added to the balance one after
    the other: each binary64 sum is the exact sum of its two terms. *)
Fixpoint adds_exactly (balance : float) (prices : list float) : Prop :=
  match prices with
  | [] => True
  | price :: rest =>
      (Q_of_float (balance + price)%float == Q_of_float balance + Q_of_float price)%Q
      /\ adds_exactly (balance + price)%float rest
  end.

(** The exact sum of the prices. *)
Definition exact_sum (prices : list float) : Q :=
  fold_right (fun price q => (Q_of_float price + q)%Q) 0%Q prices.

(** The platform of the examples with four more prices, read as Python
    reads them: [float('0.10')] and [float('0.20')] are the doubles nearest
    to 0.1 and 0.2, [float('10000000000000000')] is 1e16 and [float('1.00')]
    is 1. *)
Definition stub_platform_prices : Platform :=
  mkPlatform
    (fun s => if (s =? "0.10")%string then Some (1 / 10)%float
              else if (s =? "0.20")%string then Some (2 / 10)%float
              else if (s =? "10000000000000000")%string
                   then Some 10000000000000000%float
              else if (s =? "1.00")%string then Some 1%float
              else py_float stub_platform s)
    (strptime_ymd stub_platform)
    (strftime_dmy stub_platform)
    (secure_filename stub_platform)
    (stripe_session_create stub_platform)
    (stripe_session_retrieve stub_platform)
    (stripe_payment_intent_retrieve stub_platform).

(** Two listings priced 0.10 and 0.20, and two priced 1e16 and 1.00. *)
Definition db_cents : DB :=
  Eval vm_compute in
  snd (serve stub_platform_prices
         [ (POST_upload_ticket (listing "0.10" "1234567890"), []);
           (POST_upload_ticket (listing "0.20" "0987654321"), []) ]
         empty_db).

Definition db_large : DB :=
  Eval vm_compute in
  snd (serve stub_platform_prices
         [ (POST_upload_ticket (listing "10000000000000000" "1234567890"), []);
           (POST_upload_ticket (listing "1.00" "0987654321"), []) ]
         empty_db).

(** ** The pattern of a PNR on any text

    A Python [str] is a sequence of code points; the strings of this
    development hold the code points below 256.  On a [str] the class [\d]
    of [re] holds every Unicode decimal digit, of whatever script; which code
    points these are is a table of the interpreter, so the class is a
    parameter of the matcher on texts. *)
Definition code_points (s : string) : list N :=
  map N_of_ascii (list_ascii_of_string s).

(** [take_decimals decimal n text]: the rest of [text] after [n] leading
    characters of the class. *)
Fixpoint take_decimals (decimal : N -> bool) (n : nat) (text : list N)
  : option (list N) :=
  match n with
  | O => Some text
  | S n' =>
      match text with
      | c :: rest => if decimal c then take_decimals decimal n' rest else None
      | [] => None
      end
  end.

(** [re.match(r'^\d{10}$', text)] as a truth value, on any text. *)
Definition re_match_pnr_text (decimal : N -> bool) (text : list N) : bool :=
  match take_decimals decimal 10 text with
  | Some [] => true
  | Some [c] => (c =? 10)%N
  | _ => false
  end.

(** Below code point 256 the decimal digits of Unicode are the digits 0 to
    9. *)
Definition decimal_below_256 (decimal : N -> bool) : Prop :=
  forall c, (c < 256)%N -> decimal c = ((48 <=? c) && (c <=? 57))%N.

(** A class of decimal digits for the examples: the digits 0 to 9, the
    Arabic-Indic digits and the fullwidth digits. *)
Definition decimal_of_examples (c : N) : bool :=
  (((48 <=? c) && (c <=? 57))
   || ((1632 <=? c) && (c <=? 1641))
   || ((65296 <=? c) && (c <=? 65305)))%N.

(** * Properties *)

(** ** Tactics for running a view *)

Ltac unfold_views :=
  cbv [handle run_request view_of
       index upload_ticket buy_ticket request_release release_ticket payment_page
       process_payment payment_success payment_cancel view_purchased_ticket
       finalize_purchase_block send_message check_expired_tickets
       bind ret raise try_except query lift or_raise with_txn
       session_add_ticket session_add_sold_ticket session_add_message
       session_add_wallet session_add_wallet_transaction
       session_commit session_rollback flash_redirect upload_rejected
       insert_ticket insert_sold_ticket insert_message insert_wallet
       insert_wallet_transaction update_ticket update_wallet
       durable txn doomed faults fst snd].

(** Case analysis on an innermost scrutinee of the goal. *)
Ltac split_match :=
  match goal with
  | |- context [match ?x with _ => _ end] =>
      lazymatch x with
      | context [match ?y with _ => _ end] => fail
      | _ => first [ is_var x; destruct x | destruct x eqn:? ]
      end
  end.

Ltac simpl_views :=
  cbv beta iota zeta;
  cbn [tickets sold_tickets messages seller_wallets wallet_transactions orb negb].

Ltac break_views := unfold_views; simpl_views; repeat (split_match; simpl_views).

(** ** Queries on the message log *)

Lemma share_confirmation_iff (ticket_id : Z) (m : Message.t) :
  ((Message.ticket_id m =? ticket_id)
     && (Message.sender_type m =? "seller")%string
     && Bool.eqb (Message.is_ticket_shared m) true) = true
  <-> share_confirmation ticket_id m.
Proof.
  unfold share_confirmation.
  rewrite !andb_true_iff, Z.eqb_eq, String.eqb_eq, Bool.eqb_true_iff.
  tauto.
Qed.

Lemma Message_shared_by_None (db : DB) (ticket_id : Z) :
  Message_shared_by db ticket_id "seller" = None
  <-> ~ (exists m, In m (messages db) /\ share_confirmation ticket_id m).
Proof.
  unfold Message_shared_by. split.
  - intros Hnone [m [Hin Hm]].
    apply (find_none _ _ Hnone) in Hin.
    apply share_confirmation_iff in Hm. congruence.
  - intros Hno.
    destruct (find _ (messages db)) as [m|] eqn:Hfind; [|reflexivity].
    exfalso. apply Hno. exists m.
    apply find_some in Hfind. destruct Hfind as [Hin Hm].
    split; [exact Hin|]. apply share_confirmation_iff. exact Hm.
Qed.

Lemma release_request_iff (ticket_id : Z) (m : Message.t) :
  ((Message.ticket_id m =? ticket_id)
     && (Message.sender_type m =? "buyer")%string
     && (Message.message_text m =? RELEASE_REQUEST)%string) = true
  <-> release_request ticket_id m.
Proof.
  unfold release_request.
  rewrite !andb_true_iff, Z.eqb_eq, !String.eqb_eq.
  tauto.
Qed.

Lemma Message_by_text_None (db : DB) (ticket_id : Z) :
  Message_by_text db ticket_id "buyer" RELEASE_REQUEST = None
  <-> ~ (exists m, In m (messages db) /\ release_request ticket_id m).
Proof.
  unfold Message_by_text. split.
  - intros Hnone [m [Hin Hm]].
    apply (find_none _ _ Hnone) in Hin.
    apply release_request_iff in Hm. congruence.
  - intros Hno.
    destruct (find _ (messages db)) as [m|] eqn:Hfind; [|reflexivity].
    exfalso. apply Hno. exists m.
    apply find_some in Hfind. destruct Hfind as [Hin Hm].
    split; [exact Hin|]. apply release_request_iff. exact Hm.
Qed.

(** A ticket that [Ticket.query.get] finds is a row of the table, so a
    message may reference it. *)
Lemma Ticket_get_exists (db : DB) (ticket_id : Z) (ticket : Ticket.t) :
  Ticket_get db ticket_id = Some ticket ->
  existsb (fun t => Ticket.id t =? ticket_id) (tickets db) = true.
Proof.
  unfold Ticket_get. intros Hget.
  apply find_some in Hget. destruct Hget as [Hin Hid].
  apply existsb_exists. exists ticket. split; assumption.
Qed.

(** ** Release of a ticket by its seller *)

(** C8, as stated, fails: a release unlocks nothing, because payment is
    never locked.  The log of the ticket of [db_listed] is empty: the seller
    has shared nothing, and [release_ticket] is refused with the
    precondition failure.  All the same the payment page of the ticket is
    served, [process_payment] opens the gateway session, and the purchase is
    finalized: the ticket is sold, and the log is still empty. *)
Lemma payment_needs_no_release :
  messages db_listed = []
  /\ spec_error (fst (handle stub_platform (GET_release_ticket 1) [] db_listed))
     = Some PreconditionFailed
  /\ fst (serve stub_platform
            [ (GET_payment_page 1, []);
              (POST_process_payment 1 (Some "buyer@x.com"), []);
              (GET_view_purchased_ticket "cs_1", []) ]
            db_listed)
     = [ render_template "payment.html";
         redirect None (ep_url "https://checkout.stripe.com/c/pay/cs_1");
         finalization_done ]
  /\ messages
       (snd (serve stub_platform
               [ (GET_payment_page 1, []);
                 (POST_process_payment 1 (Some "buyer@x.com"), []);
                 (GET_view_purchased_ticket "cs_1", []) ]
               db_listed))
     = []
  /\ map SoldTicket.pnr_number
         (sold_tickets
            (snd (serve stub_platform
                    [ (GET_payment_page 1, []);
                      (POST_process_payment 1 (Some "buyer@x.com"), []);
                      (GET_view_purchased_ticket "cs_1", []) ]
                    db_listed)))
     = ["1234567890"].
Proof.
  repeat split; vm_compute; reflexivity.
Qed.

(** C8, amended.  For a listed ticket, [release_ticket] (the confirm-release
    of the specification) is refused with the precondition failure, and
    leaves the store as it was, unless the log of the ticket holds a seller
    message with the shared flag set.  When it holds one and the store
    accepts the commit, exactly one message is appended, the
    release-confirmation of the seller, nothing else changes, and the seller
    is sent on to the payment page of the ticket.  The release unlocks
    nothing: the payment page and [process_payment] do not read the log, so
    they answer the same whatever messages the store holds, and the payment
    page of a listed ticket is served as long as its PNR is unsold, released
    or not. *)
Theorem release_ticket_requires_share (P : Platform) (db : DB) (ticket_id : Z)
  (fs : list bool) (ticket : Ticket.t) :
  Ticket_get db ticket_id = Some ticket ->
  let out := handle P (GET_release_ticket ticket_id) fs db in
  let with_log (log : list Message.t) :=
    mkDB (tickets db) (sold_tickets db) log (seller_wallets db)
         (wallet_transactions db) in
  (~ (exists m, In m (messages db) /\ share_confirmation ticket_id m) ->
   fst out = redirect (Some ("You must first share the ticket details before releasing it.",
                             "warning"))
                      (ep_chat ticket_id)
   /\ spec_error (fst out) = Some PreconditionFailed
   /\ snd out = db)
  /\
  ((exists m, In m (messages db) /\ share_confirmation ticket_id m) ->
   store_accepts fs ->
   fst out = redirect None (ep_payment_page ticket_id)
   /\ snd out =
        with_message db
          (Message.mk (next_id (map Message.id (messages db))) ticket_id "seller"
                      RELEASE_CONFIRMATION false))
  /\
  (forall (log : list Message.t) (fs' : list bool) (email : option string),
     fst (handle P (GET_payment_page ticket_id) fs' (with_log log))
     = fst (handle P (GET_payment_page ticket_id) fs' db)
     /\ fst (handle P (POST_process_payment ticket_id email) fs' (with_log log))
        = fst (handle P (POST_process_payment ticket_id email) fs' db))
  /\
  (SoldTicket_by_pnr db (Ticket.pnr_number ticket) = None ->
   forall (log : list Message.t) (fs' : list bool),
     fst (handle P (GET_payment_page ticket_id) fs' (with_log log))
     = render_template "payment.html").
Proof.
  intros Hget out with_log. subst out with_log. split; [|split; [|split]].
  - intros Hno. apply Message_shared_by_None in Hno.
    unfold_views. rewrite Hget. cbv beta iota zeta. rewrite Hno.
    cbv beta iota zeta. repeat split.
  - intros Hshare Hok.
    destruct (Message_shared_by db ticket_id "seller") as [m|] eqn:Hfind.
    2:{ apply Message_shared_by_None in Hfind. contradiction. }
    pose proof (Ticket_get_exists _ _ _ Hget) as Hex.
    unfold store_accepts in Hok.
    unfold_views. rewrite Hget. cbv beta iota zeta. rewrite Hfind.
    cbv beta iota zeta. rewrite Hok. cbv beta iota zeta.
    cbn [Message.ticket_id]. rewrite Hex. cbn [negb orb].
    cbv beta iota zeta. split; reflexivity.
  - intros log fs' email.
    unfold_views. unfold Ticket_get, SoldTicket_by_pnr. simpl_views.
    split; repeat (split_match; simpl_views); reflexivity.
  - intros Hunsold log fs'.
    unfold_views. unfold Ticket_get, SoldTicket_by_pnr in *. simpl_views.
    rewrite Hget. simpl_views. rewrite Hunsold. reflexivity.
Qed.

(** The theorem at work on [db_shared], where the seller has shared the
    details of ticket 1. *)
Lemma release_ticket_requires_share_witness :
  Ticket_get db_shared 1 = Some ticket_listed
  /\ (exists m, In m (messages db_shared) /\ share_confirmation 1 m)
  /\ fst (handle stub_platform (GET_release_ticket 1) [] db_shared)
     = redirect None (ep_payment_page 1)
  /\ messages (snd (handle stub_platform (GET_release_ticket 1) [] db_shared))
     = (messages db_shared
          ++ [Message.mk 2 1 "seller" RELEASE_CONFIRMATION false])%list.
Proof.
  assert (Hget : Ticket_get db_shared 1 = Some ticket_listed) by reflexivity.
  assert (Hshare : exists m, In m (messages db_shared) /\ share_confirmation 1 m).
  { exists (Message.mk 1 1 "seller" "PNR and coach details attached" true).
    split; [left; reflexivity | repeat split]. }
  destruct (release_ticket_requires_share stub_platform db_shared 1 [] ticket_listed Hget)
    as (_ & Hyes & _).
  destruct (Hyes Hshare eq_refl) as [Hresp Hdb].
  split; [exact Hget|]. split; [exact Hshare|]. split; [exact Hresp|].
  rewrite Hdb. reflexivity.
Defined.

(** ** Release request of the buyer *)

(** C9, as stated, fails.  The ticket of [db_listed] is freshly created and
    has no message, and [request_release] accepts the request: the
    release-request is inserted and the success message is flashed.  When
    the seller then shares the details and the buyer asks again, that second
    request is the one refused, as a repetition. *)
Lemma request_release_fresh_ticket_accepted :
  messages db_listed = []
  /\ handle stub_platform (GET_request_release 1) [] db_listed
     = (redirect (Some ("Release request sent to the seller.", "success")) (ep_chat 1),
        with_message db_listed (Message.mk 1 1 "buyer" RELEASE_REQUEST false))
  /\ spec_error (fst (handle stub_platform (GET_request_release 1) [] db_listed))
     <> Some PreconditionFailed
  /\ fst (serve stub_platform
            [ (GET_request_release 1, []);
              (POST_send_message 1 (Some "PNR and coach details attached") true
                                 (Some "seller"), []);
              (GET_request_release 1, []) ]
            db_listed)
     = [ redirect (Some ("Release request sent to the seller.", "success")) (ep_chat 1);
         jsonify true true None;
         redirect (Some ("You have already requested this ticket to be released. Please wait for the seller to confirm.",
                         "warning"))
                  (ep_chat 1) ].
Proof.
  split; [reflexivity|]. split; [vm_compute; reflexivity|].
  split; [vm_compute; discriminate|]. vm_compute. reflexivity.
Qed.

(** C9, amended.  [request_release] asks for no share-confirmation.  On a
    listed ticket whose log holds no release-request yet -- a fresh ticket
    with no message at all, or one the seller has already shared -- the
    request is accepted and the release-request message is inserted (when the
    store accepts the commit).  Once the log holds a release-request, a
    further request is refused with a warning and inserts nothing. *)
Theorem request_release_needs_no_share (P : Platform) (db : DB) (ticket_id : Z)
  (fs : list bool) (ticket : Ticket.t) :
  Ticket_get db ticket_id = Some ticket ->
  let out := handle P (GET_request_release ticket_id) fs db in
  (~ (exists m, In m (messages db) /\ release_request ticket_id m) ->
   store_accepts fs ->
   fst out = redirect (Some ("Release request sent to the seller.", "success"))
                      (ep_chat ticket_id)
   /\ snd out =
        with_message db
          (Message.mk (next_id (map Message.id (messages db))) ticket_id "buyer"
                      RELEASE_REQUEST false))
  /\
  ((exists m, In m (messages db) /\ release_request ticket_id m) ->
   fst out = redirect (Some ("You have already requested this ticket to be released. Please wait for the seller to confirm.",
                             "warning"))
                      (ep_chat ticket_id)
   /\ snd out = db).
Proof.
  intros Hget out. subst out. split.
  - intros Hno Hok. apply Message_by_text_None in Hno.
    pose proof (Ticket_get_exists _ _ _ Hget) as Hex.
    unfold store_accepts in Hok.
    unfold_views. rewrite Hget. cbv beta iota zeta. rewrite Hno.
    cbv beta iota zeta. rewrite Hok. cbv beta iota zeta.
    cbn [Message.ticket_id]. rewrite Hex. cbn [negb orb].
    cbv beta iota zeta. split; reflexivity.
  - intros Hsome.
    destruct (Message_by_text db ticket_id "buyer" RELEASE_REQUEST) as [m|] eqn:Hfind.
    2:{ apply Message_by_text_None in Hfind. contradiction. }
    unfold_views. rewrite Hget. cbv beta iota zeta. rewrite Hfind.
    cbv beta iota zeta. split; reflexivity.
Qed.

(** The theorem at work on [db_shared]: the seller has shared, the buyer has
    not asked yet, and the request is accepted. *)
Lemma request_release_needs_no_share_witness :
  Ticket_get db_shared 1 = Some ticket_listed
  /\ (exists m, In m (messages db_shared) /\ share_confirmation 1 m)
  /\ ~ (exists m, In m (messages db_shared) /\ release_request 1 m)
  /\ handle stub_platform (GET_request_release 1) [] db_shared
     = (redirect (Some ("Release request sent to the seller.", "success")) (ep_chat 1),
        with_message db_shared (Message.mk 2 1 "buyer" RELEASE_REQUEST false)).
Proof.
  assert (Hget : Ticket_get db_shared 1 = Some ticket_listed) by reflexivity.
  assert (Hno : ~ (exists m, In m (messages db_shared) /\ release_request 1 m)).
  { intros [m [[Hm|[]] [_ [Hsender _]]]]. subst m. discriminate Hsender. }
  destruct (request_release_needs_no_share stub_platform db_shared 1 [] ticket_listed Hget)
    as [Hyes _].
  destruct (Hyes Hno eq_refl) as [Hresp Hdb].
  split; [exact Hget|]. split.
  { exists (Message.mk 1 1 "seller" "PNR and coach details attached" true).
    split; [left; reflexivity | repeat split]. }
  split; [exact Hno|].
  rewrite (surjective_pairing (handle stub_platform (GET_request_release 1) [] db_shared)).
  rewrite Hresp, Hdb. reflexivity.
Defined.

(** ** Upload of a ticket *)

Lemma eqb_empty_false (s : string) : s <> "" -> (s =? "")%string = false.
Proof. intros Hs. apply String.eqb_neq. exact Hs. Qed.








(** Every fault the specification names for ticket creation -- with "the
    PNR does not match the pattern" for the fault of the PNR format -- makes
    [upload_ticket] answer with a validation error and persist nothing. *)
Lemma upload_rejects_invalid (P : Platform) (db : DB) (form : UploadForm)
  (fs : list bool) :
  invalid_upload P db form ->
  spec_error (fst (handle P (POST_upload_ticket form) fs db)) = Some ValidationError
  /\ snd (handle P (POST_upload_ticket form) fs db) = db.
Proof.
  intros Hbad. unfold invalid_upload in Hbad.
  unfold_views. unfold validate_pnr.
  repeat (split_match; cbv beta iota zeta; cbn [fst snd negb] in *);
    try (split; reflexivity);
    exfalso;
    repeat match goal with
           | H : (_ =? _)%string = true |- _ => apply String.eqb_eq in H
           | H : (_ =? _)%string = false |- _ => apply String.eqb_neq in H
           | H : negb _ = false |- _ => apply negb_false_iff in H
           | H : negb _ = true |- _ => apply negb_true_iff in H
           end;
    repeat match goal with
           | H : _ \/ _ |- _ => destruct H as [H|H]
           | H : exists _, _ |- _ => destruct H as [? [? ?]]
           end;
    try congruence.
Qed.

(** C5.  The code departs from the claim on the PNR format.  The pattern of
    [validate_pnr] ends in [$], which also matches just before a final line
    feed, so a PNR of eleven characters -- ten digits and a line feed --
    passes the check that reports "PNR must be exactly 10 digits", and the
    upload is persisted.  The three-digit PNR of the specification's
    scenario is rejected, as claimed. *)
Theorem upload_accepts_pnr_with_line_feed :
  let pnr := "1234567890" ++ LF in
  String.length pnr = 11%nat
  /\ validate_pnr empty_db pnr = (true, "")
  /\ handle stub_platform (POST_upload_ticket (listing "500.00" pnr)) [] empty_db
     = (redirect (Some ("Ticket uploaded successfully!", "success")) ep_index,
        with_ticket empty_db
          (Ticket.mk 1 "Delhi to Mumbai" 500%float "" "ticket.png" pnr "Delhi" "Mumbai"
                     741092 "12951" "A Kumar" None false None None None))
  /\ handle stub_platform (POST_upload_ticket (listing "500.00" "123")) [] empty_db
     = (redirect (Some ("PNR must be exactly 10 digits", "danger")) ep_upload_ticket,
        empty_db).
Proof.
  cbv zeta. split; [reflexivity|]. split; [reflexivity|].
  split; vm_compute; reflexivity.
Qed.

(** ** Payment initiation *)

Lemma Ticket_get_id (db : DB) (ticket_id : Z) (ticket : Ticket.t) :
  Ticket_get db ticket_id = Some ticket -> Ticket.id ticket = ticket_id.
Proof.
  unfold Ticket_get. intros Hget. apply find_some in Hget.
  destruct Hget as [_ Hid]. apply Z.eqb_eq. exact Hid.
Qed.

(** Looking a ticket up after rows were rewritten by a function that keeps
    the primary key. *)
Lemma find_ticket_map (g : Ticket.t -> Ticket.t) (l : list Ticket.t) (ticket_id : Z) :
  (forall t, Ticket.id (g t) = Ticket.id t) ->
  find (fun t => Ticket.id t =? ticket_id) (map g l)
  = option_map g (find (fun t => Ticket.id t =? ticket_id) l).
Proof.
  intros Hid. induction l as [|t l IH]; [reflexivity|].
  cbn [map find]. rewrite Hid.
  destruct (Ticket.id t =? ticket_id); [reflexivity | exact IH].
Qed.

Lemma process_payment_not_found (P : Platform) (db : DB) (ticket_id : Z)
  (email : option string) (fs : list bool) :
  Ticket_get db ticket_id = None ->
  handle P (POST_process_payment ticket_id email) fs db
  = (redirect (Some ("Ticket not found.", "danger")) ep_index, db).
Proof.
  intros Hget. unfold_views. rewrite Hget. reflexivity.
Qed.

Lemma payment_page_not_found (P : Platform) (db : DB) (ticket_id : Z) (fs : list bool) :
  Ticket_get db ticket_id = None ->
  handle P (GET_payment_page ticket_id) fs db
  = (redirect (Some ("Ticket not found.", "danger")) ep_index, db).
Proof.
  intros Hget. unfold_views. rewrite Hget. reflexivity.
Qed.

(** The outcome of [process_payment] once the ticket is found, an email is
    given, the amount is computed, the gateway opens a session and the store
    accepts the commit: the buyer is sent to the gateway, and the ticket
    carries the email, the session and the pending status.  The table of sold
    tickets is not consulted. *)
Lemma process_payment_records (P : Platform) (db : DB) (ticket_id : Z)
  (buyer_email : string) (fs : list bool) (ticket : Ticket.t) (amount : Z)
  (cs : CheckoutSession) :
  Ticket_get db ticket_id = Some ticket ->
  buyer_email <> "" ->
  price_with_commission ticket = inr amount ->
  stripe_session_create P (checkout_params P ticket buyer_email amount) = Some cs ->
  store_accepts fs ->
  let out := handle P (POST_process_payment ticket_id (Some buyer_email)) fs db in
  fst out = redirect None (ep_url (cs_url cs))
  /\ Ticket_get (snd out) ticket_id = Some (payment_pending buyer_email (cs_id cs) ticket)
  /\ sold_tickets (snd out) = sold_tickets db
  /\ messages (snd out) = messages db
  /\ seller_wallets (snd out) = seller_wallets db
  /\ wallet_transactions (snd out) = wallet_transactions db.
Proof.
  intros Hget Hemail Hamount Hcs Hok out. subst out.
  pose proof (Ticket_get_id _ _ _ Hget) as Hid.
  unfold store_accepts in Hok.
  unfold_views. rewrite Hget. cbv beta iota zeta.
  unfold not_given, form_get. rewrite (eqb_empty_false _ Hemail).
  cbv beta iota zeta. rewrite Hamount. cbv beta iota zeta.
  rewrite Hcs. cbv beta iota zeta. rewrite Hok. cbn [orb].
  cbv beta iota zeta. cbn [tickets sold_tickets messages seller_wallets wallet_transactions].
  split; [reflexivity|]. split; [|repeat split].
  unfold Ticket_get. cbn [tickets]. rewrite !map_map.
  rewrite find_ticket_map.
  - unfold Ticket_get in Hget. rewrite Hget. cbn [option_map].
    repeat (rewrite Z.eqb_refl;
            cbn [Ticket.id Ticket.set_buyer_email Ticket.set_stripe_checkout_id]).
    reflexivity.
  - intros t. repeat (destruct (_ =? _); cbn [Ticket.id Ticket.set_buyer_email
      Ticket.set_stripe_checkout_id Ticket.set_payment_status]); reflexivity.
Qed.

(** [process_payment] does not read the table of sold tickets: with any
    other content of that table it answers the same and leaves the same
    tickets. *)
Lemma process_payment_blind_to_sales (P : Platform) (ticket_id : Z)
  (email : option string) (fs : list bool) (db : DB) (sold : list SoldTicket.t) :
  let db2 := mkDB (tickets db) sold (messages db) (seller_wallets db)
                  (wallet_transactions db) in
  fst (handle P (POST_process_payment ticket_id email) fs db2)
  = fst (handle P (POST_process_payment ticket_id email) fs db)
  /\ tickets (snd (handle P (POST_process_payment ticket_id email) fs db2))
     = tickets (snd (handle P (POST_process_payment ticket_id email) fs db)).
Proof.
  cbv zeta. unfold_views. unfold Ticket_get. simpl_views.
  repeat (split_match; simpl_views); split; reflexivity.
Qed.

(** C4.  The code departs from the claim on the conflict.  In [db_resale]
    the PNR of ticket 2 is already sold (through ticket 1).  The payment
    page of ticket 2 answers with the conflict, but [process_payment], the
    view that takes the buyer's email and opens the gateway session, does
    not consult the sold tickets: it opens a session and leaves ticket 2
    with the buyer's email, the session and the pending status. *)
Theorem process_payment_ignores_sold_tickets :
  let ticket_2 :=
    Ticket.mk 2 "Delhi to Mumbai" 500%float "" "ticket.png" "1234567890" "Delhi"
              "Mumbai" 741092 "12951" "A Kumar" None false None None None in
  let out := handle stub_platform (POST_process_payment 2 (Some "late@x.com")) []
                    db_resale in
  Ticket_get db_resale 2 = Some ticket_2
  /\ (exists sold, SoldTicket_by_pnr db_resale (Ticket.pnr_number ticket_2) = Some sold)
  /\ handle stub_platform (GET_payment_page 2) [] db_resale
     = (redirect (Some ("This ticket has already been sold.", "danger")) ep_index,
        db_resale)
  /\ fst out = redirect None (ep_url "https://checkout.stripe.com/c/pay/cs_2")
  /\ spec_error (fst out) = None
  /\ Ticket_get (snd out) 2 = Some (payment_pending "late@x.com" "cs_2" ticket_2).
Proof.
  cbv zeta. split; [reflexivity|]. split; [eexists; reflexivity|].
  split; [vm_compute; reflexivity|]. split; [vm_compute; reflexivity|].
  split; vm_compute; reflexivity.
Qed.

(** ** The amount charged *)

(** [int(x)] is the quotient, truncated toward zero, of the numerator of [x]
    by its denominator. *)
Lemma int_of_float_quot (x : float) (a : Z) :
  int_of_float x = inr a ->
  a = Z.quot (Qnum (Q_of_float x)) (QDen (Q_of_float x)).
Proof.
  unfold int_of_float, Q_of_float.
  destruct (Prim2SF x) as [s| s | | s m e]; try discriminate.
  - intros Ha. injection Ha as <-. reflexivity.
  - intros Ha. injection Ha as <-.
    destruct (0 <=? e) eqn:He.
    + destruct s; cbn [Qnum Qden Qopp inject_Z]; rewrite Z.quot_1_r; reflexivity.
    + apply Z.leb_gt in He.
      assert (Hpow : 0 < 2 ^ (- e)) by (apply Z.pow_pos_nonneg; lia).
      destruct s; cbn [Qnum Qden Qopp]; rewrite Z2Pos.id by exact Hpow.
      * rewrite Z.quot_opp_l by lia.
        rewrite Z.quot_div_nonneg by lia. reflexivity.
      * rewrite Z.quot_div_nonneg by lia. reflexivity.
Qed.

(** Truncation of a rational that is not negative: the integer part. *)
Lemma quot_bounds (q : Q) :
  (0 <= q)%Q ->
  (inject_Z (Z.quot (Qnum q) (QDen q)) <= q
   /\ q < inject_Z (Z.quot (Qnum q) (QDen q)) + 1)%Q.
Proof.
  destruct q as [n d]. unfold Qle, Qlt. cbn [Qnum Qden inject_Z Qplus].
  intros Hn. rewrite Z.mul_1_r in Hn. cbn in Hn.
  assert (Hd : 0 < Zpos d) by reflexivity.
  rewrite Z.quot_div_nonneg by lia.
  pose proof (Z.div_mod n (Zpos d) ltac:(lia)) as Hdm.
  pose proof (Z.mod_pos_bound n (Zpos d) Hd) as Hmod.
  split.
  - rewrite Z.mul_1_r. nia.
  - cbn [Z.mul Pos.mul]. rewrite !Z.mul_1_r. nia.
Qed.

(** A rational that is a whole number is its own truncation. *)
Lemma quot_whole (q : Q) (n : Z) :
  (q == inject_Z n)%Q -> Z.quot (Qnum q) (QDen q) = n.
Proof.
  destruct q as [k d]. unfold Qeq. cbn [Qnum Qden inject_Z].
  intros Heq. rewrite Z.mul_1_r in Heq. subst k.
  apply Z.quot_mul. discriminate.
Qed.

(** C6, as stated, fails.  A ticket listed at 499.99 is charged 54998 of
    the smallest currency unit, that is 549.98, while 1.1 times its price is
    more than that: the fraction of a unit is dropped by [int]. *)
Lemma session_amount_drops_fraction :
  Ticket_get db_listed_odd 1 = Some ticket_listed_odd
  /\ fst (handle stub_platform (POST_process_payment 1 (Some "buyer@x.com")) []
                 db_listed_odd)
     = redirect None (ep_url "https://checkout.stripe.com/c/pay/cs_1")
  /\ price_with_commission ticket_listed_odd = inr 54998
  /\ unit_amount (checkout_params stub_platform ticket_listed_odd "buyer@x.com" 54998)
     = 54998
  /\ (inject_Z 54998 < 110 * Q_of_float (Ticket.price ticket_listed_odd))%Q
  /\ ~ (inject_Z 54998 == 110 * Q_of_float (Ticket.price ticket_listed_odd))%Q.
Proof.
  split; [reflexivity|]. split; [vm_compute; reflexivity|].
  split; [vm_compute; reflexivity|]. split; [reflexivity|].
  assert (Hlt : (inject_Z 54998 < 110 * Q_of_float (Ticket.price ticket_listed_odd))%Q)
    by (vm_compute; reflexivity).
  split; [exact Hlt|].
  intros Heq. rewrite Heq in Hlt. exact (Qlt_irrefl _ Hlt).
Qed.

(** C6, amended.  Whenever [process_payment] sends the buyer to the gateway,
    the session was opened for [int(price * 110)] units: the binary64
    product of the listed price and 110, truncated toward zero to a whole
    number of the smallest currency unit.  The amount is that product
    exactly when the product is a whole number, and otherwise, for a
    positive price, falls short of it by less than one unit. *)
Theorem session_amount_is_truncated_product (P : Platform) (db : DB) (ticket_id : Z)
  (email : option string) (fs : list bool) (ticket : Ticket.t) (url : string) :
  Ticket_get db ticket_id = Some ticket ->
  fst (handle P (POST_process_payment ticket_id email) fs db)
  = redirect None (ep_url url) ->
  exists buyer_email amount cs,
    email = Some buyer_email
    /\ stripe_session_create P (checkout_params P ticket buyer_email amount) = Some cs
    /\ cs_url cs = url
    /\ unit_amount (checkout_params P ticket buyer_email amount) = amount
    /\ price_with_commission ticket = inr amount
    /\ let product := Q_of_float (Ticket.price ticket * 110)%float in
       amount = Z.quot (Qnum product) (QDen product)
       /\ (forall n, (product == inject_Z n)%Q -> amount = n)
       /\ ((0 <= product)%Q ->
           (inject_Z amount <= product /\ product < inject_Z amount + 1)%Q).
Proof.
  intros Hget Hresp.
  revert Hresp. unfold_views. rewrite Hget. cbv beta iota zeta.
  destruct email as [buyer_email|]; cbn [not_given]; [|discriminate].
  destruct (buyer_email =? "")%string; [discriminate|].
  cbv beta iota zeta. cbn [form_get].
  destruct (price_with_commission ticket) as [e|amount] eqn:Hamount;
    cbv beta iota zeta; [discriminate|].
  destruct (stripe_session_create P (checkout_params P ticket buyer_email amount))
    as [cs|] eqn:Hcs; cbv beta iota zeta; [|discriminate].
  destruct (hd false fs); cbv beta iota zeta; [discriminate|].
  cbn [orb]. intros Hresp.
  exists buyer_email, amount, cs.
  split; [reflexivity|]. split; [exact Hcs|]. split; [congruence|].
  split; [reflexivity|]. split; [reflexivity|].
  cbv zeta. unfold price_with_commission in Hamount.
  pose proof (int_of_float_quot _ _ Hamount) as Hquot.
  split; [exact Hquot|]. split.
  - intros n Hn. rewrite Hquot. apply quot_whole. exact Hn.
  - intros Hpos. rewrite Hquot. apply quot_bounds. exact Hpos.
Qed.

(** The theorem at work on the ticket listed at 500.00: the product is the
    whole number 55000, and that is the amount of the session. *)
Lemma session_amount_is_truncated_product_witness :
  exists cs,
    stripe_session_create stub_platform
      (checkout_params stub_platform ticket_listed "buyer@x.com" 55000) = Some cs
    /\ price_with_commission ticket_listed = inr 55000
    /\ (Q_of_float (Ticket.price ticket_listed) * 110 == inject_Z 55000)%Q.
Proof.
  destruct (session_amount_is_truncated_product stub_platform db_listed 1
              (Some "buyer@x.com") [] ticket_listed
              "https://checkout.stripe.com/c/pay/cs_1" eq_refl eq_refl)
    as (buyer_email & amount & cs & Hemail & Hcs & _ & _ & Hamount & _).
  injection Hemail as <-.
  assert (Ha : amount = 55000).
  { assert (H : price_with_commission ticket_listed = inr 55000) by reflexivity.
    rewrite H in Hamount. injection Hamount as <-. reflexivity. }
  subst amount. exists cs.
  split; [exact Hcs|]. split; [exact Hamount|]. reflexivity.
Defined.

(** ** What requests do to the table of tickets *)

Lemma expired_now_true (today : date) (t : Ticket.t) :
  expired_now today t = true ->
  Ticket.travel_date t < today /\ Ticket.is_expired t = false.
Proof.
  unfold expired_now. rewrite andb_true_iff, Z.ltb_lt, Bool.eqb_true_iff. tauto.
Qed.

Ltac solve_kept :=
  intros; unfold ticket_kept;
  repeat match goal with
         | |- context [if ?c then _ else _] => destruct c eqn:?
         end;
  cbn [Ticket.id Ticket.price Ticket.pnr_number Ticket.seller_id Ticket.travel_date
       Ticket.is_expired Ticket.set_is_expired Ticket.set_buyer_email
       Ticket.set_stripe_checkout_id Ticket.set_payment_status];
  repeat match goal with |- _ /\ _ => split end;
  try reflexivity;
  first
    [ left; reflexivity
    | right; eexists; split; [reflexivity|];
      match goal with
      | H : expired_now _ _ = true |- _ => apply expired_now_true in H; destruct H
      end;
      repeat split; assumption ].

Ltac shape_unchanged :=
  exists (fun t => t), (@nil Ticket.t);
  split; [rewrite map_id, app_nil_r; reflexivity
         | split; [solve_kept | constructor]].

Ltac shape_appended :=
  eexists (fun t => t), (cons _ nil);
  split; [rewrite map_id; reflexivity
         | split; [solve_kept | repeat constructor]].

Ltac shape_rewritten :=
  rewrite ?map_map; eexists _, (@nil Ticket.t);
  split; [rewrite app_nil_r; reflexivity
         | split; [solve_kept | constructor]].

Ltac solve_shape :=
  cbn [tickets]; first [ shape_unchanged | shape_appended | shape_rewritten ].

(** Every request keeps the rows of [tickets] in place, each of them kept
    in the sense of [ticket_kept], and appends the rows it creates, which
    are not expired and name no seller. *)
Lemma handle_tickets (P : Platform) (req : Request) (fs : list bool) (db : DB) :
  exists g extra,
    tickets (snd (handle P req fs db)) = (map g (tickets db) ++ extra)%list
    /\ (forall t, ticket_kept req t (g t))
    /\ Forall (fun t => Ticket.is_expired t = false /\ Ticket.seller_id t = None) extra.
Proof.
  destruct req; break_views.
  all: solve_shape.
Qed.

(** ** The expiry sweep *)

Lemma Forall2_map_right {A : Type} (R : A -> A -> Prop) (g : A -> A) (l : list A) :
  (forall a, R a (g a)) -> Forall2 R l (map g l).
Proof.
  intros Hg. induction l as [|a l IH]; cbn [map]; constructor; auto.
Qed.

Lemma Forall2_same {A : Type} (R : A -> A -> Prop) (l : list A) :
  (forall a, R a a) -> Forall2 R l l.
Proof.
  intros HR. induction l as [|a l IH]; constructor; auto.
Qed.

Lemma swept_row_refl (today : date) (t : Ticket.t) : swept_row today t t.
Proof. unfold swept_row. auto. Qed.

Lemma swept_row_sweep (today : date) (t : Ticket.t) :
  swept_row today t (if expired_now today t then Ticket.set_is_expired true t else t).
Proof.
  destruct (expired_now today t) eqn:Hnow; [|apply swept_row_refl].
  apply expired_now_true in Hnow. destruct Hnow as [Hpast Hflag].
  unfold swept_row. cbn [Ticket.is_expired Ticket.set_is_expired]. auto.
Qed.

Lemma swept_exactly_sweep (today : date) (t : Ticket.t) :
  swept_exactly today t (if expired_now today t then Ticket.set_is_expired true t else t).
Proof.
  unfold swept_exactly, expired_now.
  destruct (Ticket.travel_date t <? today);
    destruct (Ticket.is_expired t) eqn:Hflag;
    cbn [andb orb Bool.eqb Ticket.is_expired Ticket.set_is_expired];
    try rewrite Hflag; reflexivity.
Qed.

Lemma swept_exactly_nothing (today : date) (l : list Ticket.t) :
  filter (expired_now today) l = [] -> Forall2 (swept_exactly today) l l.
Proof.
  induction l as [|t l IH]; [constructor|].
  cbn [filter]. destruct (expired_now today t) eqn:Hnow; [discriminate|].
  intros Hrest. constructor; [|exact (IH Hrest)].
  unfold swept_exactly. unfold expired_now in Hnow.
  destruct (Ticket.travel_date t <? today), (Ticket.is_expired t);
    try reflexivity; discriminate.
Qed.

(** After a sweep, the query of the sweep selects nothing. *)
Lemma nothing_left_to_sweep (today : date) (l : list Ticket.t) :
  filter (expired_now today)
         (map (fun t => if expired_now today t then Ticket.set_is_expired true t else t) l)
  = [].
Proof.
  induction l as [|t l IH]; [reflexivity|].
  cbn [map filter].
  destruct (expired_now today t) eqn:Hnow.
  - unfold expired_now at 1. cbn [Ticket.is_expired Ticket.set_is_expired Bool.eqb].
    rewrite andb_false_r. exact IH.
  - rewrite Hnow. exact IH.
Qed.

(** A sweep that finds nothing to select answers without touching the
    store. *)
Lemma index_nothing_to_sweep (P : Platform) (today : date) (fs : list bool) (db : DB) :
  filter (expired_now today) (tickets db) = [] ->
  handle P (GET_index today) fs db = (render_template "index.html", db).
Proof.
  intros Hnone. unfold_views. rewrite Hnone. reflexivity.
Qed.

Lemma find_app_some {A : Type} (f : A -> bool) (l extra : list A) (a : A) :
  find f l = Some a -> find f (l ++ extra) = Some a.
Proof.
  induction l as [|b l IH]; [discriminate|].
  cbn [find app]. destruct (f b); [trivial | exact IH].
Qed.

(** A ticket found before a request is found after it, kept. *)
Lemma Ticket_get_kept (P : Platform) (req : Request) (fs : list bool) (db : DB)
  (ticket_id : Z) (t : Ticket.t) :
  Ticket_get db ticket_id = Some t ->
  exists t', Ticket_get (snd (handle P req fs db)) ticket_id = Some t'
             /\ ticket_kept req t t'.
Proof.
  intros Hget.
  destruct (handle_tickets P req fs db) as (g & extra & Hshape & Hkept & _).
  exists (g t). split; [|apply Hkept].
  unfold Ticket_get in *. rewrite Hshape.
  apply find_app_some. rewrite find_ticket_map.
  - rewrite Hget. reflexivity.
  - intros t0. apply (Hkept t0).
Qed.

(** C7.  The expiry sweep is monotonic and idempotent.  A sweep leaves every
    row of [tickets] in place and changes at most its flag: a row that is
    expired stays expired, and a row ends up expired only if it was so
    already or its travel date lies before [today].  When the store accepts
    the commit, the flag is raised exactly on the rows whose travel date
    lies before [today]; a second sweep with the same [today] then selects
    nothing and leaves the store as it is.  No other request lowers or
    raises the flag: across any request an expired ticket stays expired,
    and a ticket becomes expired only through a sweep on a day after its
    travel date; in particular a ticket is not expired when it is
    created. *)
Theorem expiry_sweep_monotonic_idempotent (P : Platform) (today : date)
  (fs : list bool) (db : DB) :
  let db' := snd (handle P (GET_index today) fs db) in
  Forall2 (swept_row today) (tickets db) (tickets db')
  /\ (store_accepts fs ->
      Forall2 (swept_exactly today) (tickets db) (tickets db')
      /\ filter (expired_now today) (tickets db') = []
      /\ forall fs', handle P (GET_index today) fs' db'
                     = (render_template "index.html", db'))
  /\ (forall req fs' db0 ticket_id t,
        Ticket_get db0 ticket_id = Some t ->
        exists t',
          Ticket_get (snd (handle P req fs' db0)) ticket_id = Some t'
          /\ (Ticket.is_expired t = true -> Ticket.is_expired t' = true)
          /\ (Ticket.is_expired t = false -> Ticket.is_expired t' = true ->
              exists day, req = GET_index day /\ Ticket.travel_date t < day))
  /\ (forall req fs' db0 t',
        In t' (tickets (snd (handle P req fs' db0))) ->
        Ticket.is_expired t' = true ->
        exists t,
          In t (tickets db0)
          /\ Ticket.id t = Ticket.id t'
          /\ Ticket.travel_date t = Ticket.travel_date t'
          /\ (Ticket.is_expired t = true
              \/ exists day, req = GET_index day /\ Ticket.travel_date t < day)).
Proof.
  intros db'. subst db'. split; [|split; [|split]].
  - unfold_views. simpl_views.
    destruct (filter (expired_now today) (tickets db)) as [|t0 l0]; simpl_views.
    + apply Forall2_same. apply swept_row_refl.
    + destruct (hd false fs); simpl_views.
      * apply Forall2_same. apply swept_row_refl.
      * apply Forall2_map_right. apply swept_row_sweep.
  - intros Hok. unfold store_accepts in Hok.
    destruct (filter (expired_now today) (tickets db)) as [|t0 l0] eqn:Hsel.
    + rewrite (index_nothing_to_sweep P today fs db Hsel). cbn [snd].
      split; [apply swept_exactly_nothing; exact Hsel|].
      split; [exact Hsel|].
      intros fs'. apply index_nothing_to_sweep. exact Hsel.
    + assert (Hrun : snd (handle P (GET_index today) fs db)
                     = mkDB (map (fun t => if expired_now today t
                                           then Ticket.set_is_expired true t else t)
                                 (tickets db))
                            (sold_tickets db) (messages db) (seller_wallets db)
                            (wallet_transactions db)).
      { unfold_views. simpl_views. rewrite Hsel. simpl_views. rewrite Hok.
        simpl_views. reflexivity. }
      rewrite Hrun. cbn [tickets].
      split; [apply Forall2_map_right; apply swept_exactly_sweep|].
      split; [apply nothing_left_to_sweep|].
      intros fs'. apply index_nothing_to_sweep. apply nothing_left_to_sweep.
  - intros req fs' db0 ticket_id t Hget.
    destruct (Ticket_get_kept P req fs' db0 ticket_id t Hget) as (t' & Hget' & Hkept).
    exists t'. split; [exact Hget'|].
    destruct Hkept as (_ & _ & _ & _ & _ & Hflag).
    split.
    + intros Hexp. destruct Hflag as [Hsame | (day & _ & _ & _ & Hraised)];
        congruence.
    + intros Hnot Hexp.
      destruct Hflag as [Hsame | (day & Hreq & Hpast & _ & _)]; [congruence|].
      exists day. split; assumption.
  - intros req fs' db0 t' Hin Hexp.
    destruct (handle_tickets P req fs' db0) as (g & extra & Hshape & Hkept & Hextra).
    rewrite Hshape in Hin. apply in_app_or in Hin. destruct Hin as [Hin | Hin].
    + apply in_map_iff in Hin. destruct Hin as (t & Hgt & Hin). subst t'.
      destruct (Hkept t) as (Hid & _ & _ & _ & Hdate & Hflag).
      exists t. split; [exact Hin|]. split; [auto|]. split; [auto|].
      destruct Hflag as [Hsame | (day & Hreq & Hpast & _ & _)].
      * left. congruence.
      * right. exists day. split; assumption.
    + rewrite Forall_forall in Hextra. destruct (Hextra t' Hin) as [Hfresh _].
      congruence.
Qed.

(** The theorem at work: the sweep of 2030-01-16 expires the ticket that
    travelled on 2030-01-15, and a second sweep of that day changes nothing. *)
Lemma expiry_sweep_monotonic_idempotent_witness :
  store_accepts []
  /\ Forall2 (swept_exactly 741093) (tickets db_listed) (tickets db_swept)
  /\ map Ticket.is_expired (tickets db_listed) = [false]
  /\ map Ticket.is_expired (tickets db_swept) = [true]
  /\ handle stub_platform (GET_index 741093) [] db_swept
     = (render_template "index.html", db_swept).
Proof.
  destruct (expiry_sweep_monotonic_idempotent stub_platform 741093 [] db_listed)
    as (_ & Hcommitted & _ & _).
  destruct (Hcommitted eq_refl) as (Hexact & _ & Hagain).
  split; [reflexivity|]. split; [exact Hexact|].
  split; [reflexivity|]. split; [reflexivity|].
  exact (Hagain []).
Defined.

(** ** Finalisation of a purchase *)

Lemma pnr_sold_iff (db : DB) (pnr : string) :
  pnr_sold db pnr = true <-> exists sold, SoldTicket_by_pnr db pnr = Some sold.
Proof.
  unfold pnr_sold, SoldTicket_by_pnr. split.
  - intros Hex. apply existsb_exists in Hex. destruct Hex as [s [Hin Hs]].
    destruct (find _ (sold_tickets db)) as [sold|] eqn:Hfind; [eauto|].
    apply (find_none _ _ Hfind) in Hin. congruence.
  - intros [sold Hfind]. apply find_some in Hfind. destruct Hfind as [Hin Hs].
    apply existsb_exists. exists sold. split; assumption.
Qed.

(** A wallet of the table is still referenced by its key after balances
    were rewritten. *)
Lemma wallet_reference_holds (l : list SellerWallet.t) (w : SellerWallet.t)
  (f : SellerWallet.t -> SellerWallet.t) :
  In w l ->
  (forall x, SellerWallet.id (f x) = SellerWallet.id x) ->
  existsb (fun x => SellerWallet.id x =? SellerWallet.id w) (map f l) = true.
Proof.
  intros Hin Hid.
  apply existsb_exists. exists (f w). split.
  - apply in_map. exact Hin.
  - rewrite Hid. apply Z.eqb_refl.
Qed.

Lemma SellerWallet_by_seller_In (db : DB) (seller : Z) (w : SellerWallet.t) :
  SellerWallet_by_seller db seller = Some w -> In w (seller_wallets db).
Proof.
  unfold SellerWallet_by_seller. intros Hfind.
  apply find_some in Hfind. tauto.
Qed.

Lemma credit_keeps_id (wallet_id : Z) (b : float) (x : SellerWallet.t) :
  SellerWallet.id (if SellerWallet.id x =? wallet_id
                   then SellerWallet.set_balance b x else x)
  = SellerWallet.id x.
Proof. destruct (_ =? _); reflexivity. Qed.

(** The finalisation of a resolved session, case by case.  With a wallet at
    hand there is one commit: it fails when the store refuses it or when the
    PNR is already sold, and nothing changes; otherwise the store is
    settled.  Without a wallet there are two commits: the first persists the
    new wallet, and the second settles or fails as before, on top of it. *)
Lemma finalize_outcome (P : Platform) (session_id : string) (fs : list bool)
  (db : DB) (ticket : Ticket.t) (payment_id : string) :
  resolves P session_id db ticket payment_id ->
  let seller := seller_or_default (Ticket.seller_id ticket) in
  let sold := pnr_sold db (Ticket.pnr_number ticket) in
  handle P (GET_view_purchased_ticket session_id) fs db
  = match SellerWallet_by_seller db seller with
    | Some w =>
        if hd false fs || sold
        then (finalization_failed, db)
        else (finalization_done, settled db ticket payment_id w)
    | None =>
        let w := fresh_wallet db seller in
        if hd false fs
        then (finalization_failed, db)
        else if hd false (tl fs) || sold
        then (finalization_failed, with_wallet db w)
        else (finalization_done, settled (with_wallet db w) ticket payment_id w)
    end.
Proof.
  intros (cs & ticket_id & Hcs & Hpi & Htid & Hget) seller sold.
  subst seller sold.
  unfold_views. rewrite Hcs. simpl_views. rewrite Hpi. simpl_views.
  rewrite Htid. simpl_views. rewrite Hget. simpl_views.
  destruct (SellerWallet_by_seller db (seller_or_default (Ticket.seller_id ticket)))
    as [w|] eqn:Hwallet; simpl_views.
  - destruct (hd false fs); simpl_views; [reflexivity|].
    match goal with
    | |- context [negb (existsb ?p ?l)] =>
        replace (existsb p l) with true
          by (symmetry;
              exact (wallet_reference_holds (seller_wallets db) w _
                       (SellerWallet_by_seller_In _ _ _ Hwallet)
                       (credit_keeps_id _ _)))
    end.
    cbn [negb]. rewrite !orb_false_r.
    unfold pnr_sold. cbn [SoldTicket.pnr_number].
    destruct (existsb _ (sold_tickets db)); reflexivity.
  - destruct (hd false fs); simpl_views; [reflexivity|].
    destruct (hd false (tl fs)); simpl_views; [reflexivity|].
    match goal with
    | |- context [negb (existsb ?p ?l)] =>
        replace (existsb p l) with true
          by (symmetry;
              exact (wallet_reference_holds
                       (seller_wallets db
                          ++ [fresh_wallet db
                                (seller_or_default (Ticket.seller_id ticket))])%list
                       (fresh_wallet db (seller_or_default (Ticket.seller_id ticket)))
                       _
                       (in_elt _ _ [])
                       (credit_keeps_id _ _)))
    end.
    cbn [negb]. rewrite !orb_false_r.
    unfold pnr_sold. cbn [SoldTicket.pnr_number].
    destruct (existsb _ (sold_tickets db)); reflexivity.
Qed.

Lemma find_app_none {A : Type} (f : A -> bool) (l extra : list A) :
  find f l = None -> find f (l ++ extra) = find f extra.
Proof.
  induction l as [|b l IH]; [reflexivity|].
  cbn [find app]. destruct (f b); [discriminate | exact IH].
Qed.

(** Looking a wallet up by seller after balances were rewritten. *)
Lemma find_wallet_map (f : SellerWallet.t -> SellerWallet.t) (l : list SellerWallet.t)
  (seller : Z) :
  (forall x, SellerWallet.seller_id (f x) = SellerWallet.seller_id x) ->
  find (fun w => SellerWallet.seller_id w =? seller) (map f l)
  = option_map f (find (fun w => SellerWallet.seller_id w =? seller) l).
Proof.
  intros Hkeep. induction l as [|w l IH]; [reflexivity|].
  cbn [map find]. rewrite Hkeep.
  destruct (SellerWallet.seller_id w =? seller); [reflexivity | exact IH].
Qed.

Lemma credit_keeps_seller (wallet_id : Z) (b : float) (x : SellerWallet.t) :
  SellerWallet.seller_id (if SellerWallet.id x =? wallet_id
                          then SellerWallet.set_balance b x else x)
  = SellerWallet.seller_id x.
Proof. destruct (_ =? _); reflexivity. Qed.

(** The wallet the block works with: the seller's, or the fresh one. *)
Lemma fresh_wallet_found (db : DB) (seller : Z) :
  SellerWallet_by_seller db seller = None ->
  SellerWallet_by_seller (with_wallet db (fresh_wallet db seller)) seller
  = Some (fresh_wallet db seller).
Proof.
  unfold SellerWallet_by_seller, with_wallet. cbn [seller_wallets].
  intros Hnone. rewrite (find_app_none _ _ _ Hnone).
  cbn [find fresh_wallet SellerWallet.seller_id]. rewrite Z.eqb_refl. reflexivity.
Qed.

(** In a settled store the wallet worked with holds its former balance plus
    the listed price. *)
Lemma settled_balance (db : DB) (ticket : Ticket.t) (payment_id : string)
  (seller : Z) (w : SellerWallet.t) :
  SellerWallet_by_seller db seller = Some w ->
  SellerWallet_by_seller (settled db ticket payment_id w) seller
  = Some (SellerWallet.set_balance (SellerWallet.balance w + Ticket.price ticket)%float w).
Proof.
  unfold SellerWallet_by_seller, settled. cbn [seller_wallets].
  intros Hfind. rewrite find_wallet_map by (intros x; apply credit_keeps_seller).
  rewrite Hfind. cbn [option_map]. rewrite Z.eqb_refl. reflexivity.
Qed.

(** A successful finalisation credits the seller with the listed price and
    appends one transaction of that amount on the seller's wallet. *)
Lemma finalize_done_credit (P : Platform) (session_id : string) (fs : list bool)
  (db : DB) (ticket : Ticket.t) (payment_id : string) :
  resolves P session_id db ticket payment_id ->
  fst (handle P (GET_view_purchased_ticket session_id) fs db) = finalization_done ->
  let seller := seller_or_default (Ticket.seller_id ticket) in
  let db' := snd (handle P (GET_view_purchased_ticket session_id) fs db) in
  balance_of db' seller = (balance_of db seller + Ticket.price ticket)%float
  /\ exists w x,
       SellerWallet_by_seller db' seller = Some w
       /\ wallet_transactions db' = (wallet_transactions db ++ [x])%list
       /\ WalletTransaction.amount x = Ticket.price ticket
       /\ WalletTransaction.wallet_id x = SellerWallet.id w
       /\ WalletTransaction.transaction_type x = "credit".
Proof.
  intros Hres Hdone seller db'. subst seller db'. revert Hdone.
  rewrite (finalize_outcome P session_id fs db ticket payment_id Hres).
  cbv zeta. unfold balance_of.
  destruct (SellerWallet_by_seller db (seller_or_default (Ticket.seller_id ticket)))
    as [w|] eqn:Hwallet.
  - destruct (hd false fs || pnr_sold db (Ticket.pnr_number ticket));
      cbn [fst snd]; [discriminate|]. intros _.
    rewrite (settled_balance db ticket payment_id _ w Hwallet).
    split; [reflexivity|].
    eexists _, _. split; [reflexivity|]. repeat split.
  - destruct (hd false fs); cbn [fst snd]; [discriminate|].
    destruct (hd false (tl fs) || pnr_sold db (Ticket.pnr_number ticket));
      cbn [fst snd]; [discriminate|]. intros _.
    rewrite (settled_balance _ ticket payment_id _ _ (fresh_wallet_found db _ Hwallet)).
    split; [reflexivity|].
    eexists _, _. split; [reflexivity|]. repeat split.
Qed.

Lemma serve_cons (P : Platform) (req : Request) (fs : list bool)
  (rest : list (Request * list bool)) (db : DB) :
  serve P ((req, fs) :: rest) db
  = (fst (handle P req fs db) :: fst (serve P rest (snd (handle P req fs db))),
     snd (serve P rest (snd (handle P req fs db)))).
Proof.
  cbn [serve]. destruct (handle P req fs db) as [r db1]. cbn [fst snd].
  destruct (serve P rest db1) as [rs db2]. reflexivity.
Qed.

(** Requests do not change what a payment session sells. *)
Lemma sells_kept (P : Platform) (req : Request) (fs : list bool) (db : DB)
  (seller : Z) (call : string * list bool) (price : float) :
  sells P db seller call price ->
  sells P (snd (handle P req fs db)) seller call price.
Proof.
  intros (ticket & payment_id & (cs & ticket_id & Hcs & Hpi & Htid & Hget) & Hseller
          & Hprice).
  destruct (Ticket_get_kept P req fs db ticket_id ticket Hget)
    as (ticket' & Hget' & Hkept).
  destruct Hkept as (_ & Hp & _ & Hs & _).
  exists ticket', payment_id. split.
  - exists cs, ticket_id. auto.
  - rewrite Hs, Hp. auto.
Qed.

(** Successful finalizations for one seller, from any balance: the balance
    grows by the listed prices, added in the order of the sales, and one
    transaction per sale records the listed price. *)
Lemma finalizations_accumulate (P : Platform) (seller : Z)
  (calls : list (string * list bool)) :
  forall (prices : list float) (db : DB),
    Forall2 (sells P db seller) calls prices ->
    Forall (eq finalization_done) (fst (serve P (finalizations calls) db)) ->
    balance_of (snd (serve P (finalizations calls) db)) seller
    = fold_left PrimFloat.add prices (balance_of db seller)
    /\ exists new,
         wallet_transactions (snd (serve P (finalizations calls) db))
         = (wallet_transactions db ++ new)%list
         /\ map WalletTransaction.amount new = prices.
Proof.
  induction calls as [|[session_id fs] calls IH]; intros prices db Hsells Hdone.
  - inversion Hsells; subst. cbn. split; [reflexivity|].
    exists []. rewrite app_nil_r. split; reflexivity.
  - inversion Hsells as [|c price calls' prices' Hsell Hrest]; subst.
    change (finalizations ((session_id, fs) :: calls))
      with ((GET_view_purchased_ticket session_id, fs) :: finalizations calls) in *.
    rewrite serve_cons in *. cbn [fst snd] in *.
    inversion Hdone as [|r rs Hfirst Hothers]; subst.
    destruct Hsell as (ticket & payment_id & Hres & Hseller & Hprice).
    cbn [fst] in Hres.
    destruct (finalize_done_credit P session_id fs db ticket payment_id Hres
                (eq_sym Hfirst))
      as (Hbalance & w & x & _ & Htxn & Hamount & _).
    rewrite Hseller in Hbalance.
    set (db1 := snd (handle P (GET_view_purchased_ticket session_id) fs db)) in *.
    assert (Hrest1 : Forall2 (sells P db1 seller) calls prices').
    { clear - Hrest. induction Hrest; constructor; auto.
      apply sells_kept. assumption. }
    destruct (IH prices' db1 Hrest1 Hothers) as (Hsum & new & Hnew & Hamounts).
    split.
    + rewrite Hsum, Hbalance, Hprice. reflexivity.
    + exists (x :: new). split.
      * rewrite Hnew, Htxn, <- app_assoc. reflexivity.
      * cbn [map]. rewrite Hamount, Hprice, Hamounts. reflexivity.
Qed.

(** Added without rounding, the balance is the exact sum. *)
Lemma exact_fold (prices : list float) :
  forall balance : float,
  adds_exactly balance prices ->
  (Q_of_float (fold_left PrimFloat.add prices balance)
   == Q_of_float balance + exact_sum prices)%Q.
Proof.
  induction prices as [|price prices IH]; intros balance Hexact.
  - cbn [fold_left exact_sum fold_right]. rewrite Qplus_0_r. reflexivity.
  - destruct Hexact as [Hfirst Hrest].
    cbn [fold_left exact_sum fold_right].
    rewrite (IH _ Hrest), Hfirst. fold (exact_sum prices).
    rewrite Qplus_assoc. reflexivity.
Qed.

(** C3, as stated, fails.  The balance is a binary64 number and a credit is
    a binary64 addition, which rounds.  In [db_cents] the tickets listed at
    0.10 and 0.20 are both sold, and the balance is then more than the sum
    of the two listed prices.  In [db_large] the tickets listed at 1e16 and
    1.00 are both sold, both credits are recorded, and the second sale
    leaves the balance where the first had put it: the seller is not
    credited with the listed price of 1.00. *)
Lemma wallet_balance_rounds :
  map Ticket.price (tickets db_cents) = [(1 / 10)%float; (2 / 10)%float]
  /\ fst (serve stub_platform_prices (finalizations [("cs_1", []); ("cs_2", [])])
                db_cents)
     = [finalization_done; finalization_done]
  /\ (Q_of_float (1 / 10)%float + Q_of_float (2 / 10)%float
      < Q_of_float
          (balance_of
             (snd (serve stub_platform_prices
                         (finalizations [("cs_1", []); ("cs_2", [])]) db_cents))
             1))%Q
  /\ map Ticket.price (tickets db_large) = [10000000000000000%float; 1%float]
  /\ fst (serve stub_platform_prices (finalizations [("cs_1", []); ("cs_2", [])])
                db_large)
     = [finalization_done; finalization_done]
  /\ map WalletTransaction.amount
         (wallet_transactions
            (snd (serve stub_platform_prices
                        (finalizations [("cs_1", []); ("cs_2", [])]) db_large)))
     = [10000000000000000%float; 1%float]
  /\ balance_of
       (snd (serve stub_platform_prices (finalizations [("cs_1", [])]) db_large)) 1
     = 10000000000000000%float
  /\ balance_of
       (snd (serve stub_platform_prices
                   (finalizations [("cs_1", []); ("cs_2", [])]) db_large))
       1
     = 10000000000000000%float.
Proof.
  repeat split; vm_compute; reflexivity.
Qed.

(** C3, amended.  Every successful finalisation credits the seller's wallet
    with the ticket's listed price -- the price itself, not the amount
    charged with the commission -- by a binary64 addition, and records a
    credit transaction of exactly the listed price.  So after N successful
    finalisations for a seller the balance is the balance before with the N
    listed prices added to it in the order of the sales, each addition
    rounded to binary64 (from a zero balance: the binary64 sum of the
    prices), and the N transactions appended carry the N listed prices.  The
    balance is the exact sum of the listed prices when none of these
    additions rounds. *)
Theorem wallet_balance_is_sum_of_listed_prices (P : Platform) (seller : Z)
  (calls : list (string * list bool)) (prices : list float) (db : DB) :
  Forall2 (sells P db seller) calls prices ->
  Forall (eq finalization_done) (fst (serve P (finalizations calls) db)) ->
  let db' := snd (serve P (finalizations calls) db) in
  balance_of db' seller = fold_left PrimFloat.add prices (balance_of db seller)
  /\ (balance_of db seller = 0%float ->
      balance_of db' seller = fold_left PrimFloat.add prices 0%float)
  /\ (exists new,
        wallet_transactions db' = (wallet_transactions db ++ new)%list
        /\ map WalletTransaction.amount new = prices)
  /\ (adds_exactly (balance_of db seller) prices ->
      (Q_of_float (balance_of db' seller)
       == Q_of_float (balance_of db seller) + exact_sum prices)%Q).
Proof.
  intros Hsells Hdone db'. subst db'.
  destruct (finalizations_accumulate P seller calls prices db Hsells Hdone)
    as (Hsum & Hnew).
  split; [exact Hsum|]. split; [|split; [exact Hnew|]].
  - intros Hzero. rewrite Hsum, Hzero. reflexivity.
  - intros Hexact. rewrite Hsum. apply exact_fold. exact Hexact.
Qed.

(** The theorem at work: the two tickets of [db_two_listed] are sold one
    after the other and the default seller holds 500.00 + 499.99. *)
Lemma wallet_balance_is_sum_of_listed_prices_witness :
  balance_of db_two_listed 1 = 0%float
  /\ balance_of
       (snd (serve stub_platform (finalizations [("cs_1", []); ("cs_2", [])])
                   db_two_listed))
       1
     = (0 + 500 + 49999 / 100)%float.
Proof.
  split; [reflexivity|].
  refine (proj1 (wallet_balance_is_sum_of_listed_prices stub_platform 1
                   [("cs_1", []); ("cs_2", [])] [500%float; (49999 / 100)%float]
                   db_two_listed _ _)).
  - constructor; [|constructor; [|constructor]].
    + exists (Ticket.mk 1 "Delhi to Mumbai" 500%float "" "ticket.png" "1234567890"
                        "Delhi" "Mumbai" 741092 "12951" "A Kumar" None false None None
                        None), "pi_1".
      split; [|split; reflexivity].
      exists (stub_session 1), 1. repeat split.
    + exists (Ticket.mk 2 "Delhi to Mumbai" (49999 / 100)%float "" "ticket.png"
                        "0987654321" "Delhi" "Mumbai" 741092 "12951" "A Kumar" None
                        false None None None), "pi_2".
      split; [|split; reflexivity].
      exists (stub_session 2), 2. repeat split.
  - vm_compute. repeat constructor.
Defined.

(** In [db_pending] the session [cs_1] resolves to ticket 1. *)
Lemma resolves_pending :
  resolves stub_platform "cs_1" db_pending
           (payment_pending "buyer@x.com" "cs_1" ticket_listed) "pi_1".
Proof.
  exists (stub_session 1), 1. repeat split.
Defined.

(** C2, as stated, fails.  In [db_pending] the seller has no wallet yet.
    When the store accepts the first commit of the finalisation and refuses
    the last one, the buyer is told that the purchase failed, and the wallet
    row created on the way has stayed in the store. *)
Lemma wallet_row_survives_failed_settlement :
  seller_wallets db_pending = []
  /\ handle stub_platform (GET_view_purchased_ticket "cs_1") [false; true] db_pending
     = (finalization_failed,
        with_wallet db_pending (SellerWallet.mk 1 1 0%float "INR"))
  /\ spec_error finalization_failed = Some FinalizationError
  /\ seller_wallets
       (snd (handle stub_platform (GET_view_purchased_ticket "cs_1") [false; true]
                    db_pending))
     <> seller_wallets db_pending.
Proof.
  split; [reflexivity|]. split; [vm_compute; reflexivity|].
  split; [reflexivity|]. vm_compute. discriminate.
Qed.

(** C2, amended.  The credit of the balance, the transaction, the sold
    ticket and the completed status commit together or not at all: a
    finalisation either succeeds and leaves the store settled, or fails and
    leaves it without any of the four.  The wallet row of a seller who had
    none is committed on its own before them: a failure after that commit
    leaves the store with this one more row, of balance zero, and otherwise
    as it was. *)
Theorem settlement_commits_together_after_wallet (P : Platform) (session_id : string)
  (fs : list bool) (db : DB) (ticket : Ticket.t) (payment_id : string) :
  resolves P session_id db ticket payment_id ->
  let seller := seller_or_default (Ticket.seller_id ticket) in
  let out := handle P (GET_view_purchased_ticket session_id) fs db in
  let base := settlement_base db seller in
  ((fst out = finalization_done
    /\ exists w, SellerWallet_by_seller base seller = Some w
                 /\ snd out = settled base ticket payment_id w)
   \/
   (fst out = finalization_failed
    /\ spec_error (fst out) = Some FinalizationError
    /\ (snd out = db \/ snd out = base)))
  /\ tickets base = tickets db
  /\ sold_tickets base = sold_tickets db
  /\ messages base = messages db
  /\ wallet_transactions base = wallet_transactions db
  /\ (seller_wallets base = seller_wallets db
      \/ (SellerWallet_by_seller db seller = None
          /\ seller_wallets base
             = (seller_wallets db ++ [fresh_wallet db seller])%list
          /\ SellerWallet.balance (fresh_wallet db seller) = 0%float)).
Proof.
  intros Hres seller out base. subst seller out base.
  rewrite (finalize_outcome P session_id fs db ticket payment_id Hres).
  cbv zeta. unfold settlement_base.
  destruct (SellerWallet_by_seller db (seller_or_default (Ticket.seller_id ticket)))
    as [w|] eqn:Hwallet.
  - split; [|repeat split; left; reflexivity].
    destruct (hd false fs || pnr_sold db (Ticket.pnr_number ticket)); cbn [fst snd].
    + right. repeat split. left. reflexivity.
    + left. split; [reflexivity|]. exists w. split; [exact Hwallet | reflexivity].
  - split; [|repeat split; right; repeat split].
    destruct (hd false fs); cbn [fst snd].
    + right. repeat split. left. reflexivity.
    + destruct (hd false (tl fs) || pnr_sold db (Ticket.pnr_number ticket));
        cbn [fst snd].
      * right. repeat split. right. reflexivity.
      * left. split; [reflexivity|]. eexists. split; [|reflexivity].
        apply fresh_wallet_found. exact Hwallet.
Qed.

(** The theorem at work on [db_pending]: with no fault the store is settled
    into [db_sold]; with the last commit refused it is left as it was or with
    the fresh wallet only. *)
Lemma settlement_commits_together_after_wallet_witness :
  resolves stub_platform "cs_1" db_pending
           (payment_pending "buyer@x.com" "cs_1" ticket_listed) "pi_1"
  /\ handle stub_platform (GET_view_purchased_ticket "cs_1") [] db_pending
     = (finalization_done, db_sold)
  /\ (snd (handle stub_platform (GET_view_purchased_ticket "cs_1") [false; true]
                  db_pending)
      = db_pending
      \/ snd (handle stub_platform (GET_view_purchased_ticket "cs_1") [false; true]
                     db_pending)
         = settlement_base db_pending 1).
Proof.
  split; [exact resolves_pending|]. split; [vm_compute; reflexivity|].
  destruct (settlement_commits_together_after_wallet stub_platform "cs_1"
              [false; true] db_pending _ "pi_1" resolves_pending)
    as [[[Hdone _] | (_ & _ & Hfailed)] _].
  - exfalso. vm_compute in Hdone. discriminate Hdone.
  - exact Hfailed.
Defined.

(** ** No PNR is sold twice *)

Ltac ledger_kept :=
  cbn [sold_tickets seller_wallets wallet_transactions]; repeat split; reflexivity.

(** Only the finalisation of a purchase writes the ledger. *)
Lemma other_requests_keep_ledger (P : Platform) (req : Request) (fs : list bool)
  (db : DB) :
  (forall session_id, req <> GET_view_purchased_ticket session_id) ->
  sold_tickets (snd (handle P req fs db)) = sold_tickets db
  /\ seller_wallets (snd (handle P req fs db)) = seller_wallets db
  /\ wallet_transactions (snd (handle P req fs db)) = wallet_transactions db.
Proof.
  intros Hreq. destruct req; try (exfalso; eapply Hreq; reflexivity); break_views.
  all: ledger_kept.
Qed.

(** A finalisation whose session does not resolve leaves the store alone. *)
Lemma finalize_cases (P : Platform) (session_id : string) (fs : list bool) (db : DB) :
  (exists ticket payment_id, resolves P session_id db ticket payment_id)
  \/ snd (handle P (GET_view_purchased_ticket session_id) fs db) = db.
Proof.
  unfold resolves.
  destruct (stripe_session_retrieve P session_id) as [cs|] eqn:Hcs.
  2:{ right. unfold_views. rewrite Hcs. reflexivity. }
  destruct (stripe_payment_intent_retrieve P (cs_payment_intent cs)) as [pid|] eqn:Hpi.
  2:{ right. unfold_views. rewrite Hcs. simpl_views. rewrite Hpi. reflexivity. }
  destruct (cs_ticket_id cs) as [ticket_id|] eqn:Htid.
  2:{ right. unfold_views. rewrite Hcs. simpl_views. rewrite Hpi. simpl_views.
      rewrite Htid. reflexivity. }
  destruct (Ticket_get db ticket_id) as [ticket|] eqn:Hget.
  2:{ right. unfold_views. rewrite Hcs. simpl_views. rewrite Hpi. simpl_views.
      rewrite Htid. simpl_views. rewrite Hget. reflexivity. }
  left. exists ticket, pid, cs, ticket_id. auto.
Qed.

Lemma NoDup_snoc {A : Type} (l : list A) (x : A) :
  NoDup l -> ~ In x l -> NoDup (l ++ [x]).
Proof.
  induction 1 as [|y l Hy Hl IH]; intros Hx; cbn [app].
  - constructor; [intros [] | constructor].
  - constructor.
    + rewrite in_app_iff. intros [Hin | [Heq | []]]; [contradiction|].
      apply Hx. left. symmetry. exact Heq.
    + apply IH. intros Hin. apply Hx. right. exact Hin.
Qed.

Lemma pnr_unsold_not_in (db : DB) (pnr : string) :
  pnr_sold db pnr = false -> ~ In pnr (map SoldTicket.pnr_number (sold_tickets db)).
Proof.
  unfold pnr_sold. intros Hunsold Hin.
  apply in_map_iff in Hin. destruct Hin as [s [Hs Hin]].
  assert (Hex : existsb (fun s => (SoldTicket.pnr_number s =? pnr)%string)
                        (sold_tickets db) = true).
  { apply existsb_exists. exists s. split; [exact Hin|]. apply String.eqb_eq. exact Hs. }
  congruence.
Qed.

Lemma Ticket_get_In (db : DB) (ticket_id : Z) (ticket : Ticket.t) :
  Ticket_get db ticket_id = Some ticket -> In ticket (tickets db).
Proof.
  unfold Ticket_get. intros Hget. apply find_some in Hget. tauto.
Qed.

(** The invariant of the ledger survives a settlement. *)
Lemma settled_invariant (db : DB) (ticket : Ticket.t) (payment_id : string)
  (w : SellerWallet.t) :
  ledger_invariant db ->
  Ticket.seller_id ticket = None ->
  SellerWallet_by_seller db 1 = Some w ->
  pnr_sold db (Ticket.pnr_number ticket) = false ->
  ledger_invariant (settled db ticket payment_id w).
Proof.
  intros (Hnodup & Hsellers & _) Hnone Hwallet Hunsold.
  split; [|split].
  - unfold settled. cbn [sold_tickets]. rewrite map_app. cbn [map sold_row
      SoldTicket.pnr_number].
    apply NoDup_snoc; [exact Hnodup | apply pnr_unsold_not_in; exact Hunsold].
  - unfold settled. cbn [tickets]. apply Forall_map.
    apply (Forall_impl _ (P := fun t => Ticket.seller_id t = None)); [|exact Hsellers].
    intros t Ht. destruct (_ =? _); exact Ht.
  - intros _. eexists. apply settled_balance. exact Hwallet.
Qed.

Lemma with_wallet_invariant (db : DB) (w : SellerWallet.t) :
  ledger_invariant db -> ledger_invariant (with_wallet db w).
Proof.
  intros (Hnodup & Hsellers & Hwallet).
  split; [exact Hnodup|]. split; [exact Hsellers|].
  cbn [with_wallet sold_tickets]. intros Hsold.
  destruct (Hwallet Hsold) as [w1 Hw1]. exists w1.
  unfold SellerWallet_by_seller, with_wallet in *. cbn [seller_wallets].
  apply find_app_some. exact Hw1.
Qed.

(** Every request keeps the invariant of the ledger. *)
Lemma handle_keeps_invariant (P : Platform) (req : Request) (fs : list bool) (db : DB) :
  ledger_invariant db -> ledger_invariant (snd (handle P req fs db)).
Proof.
  intros Hinv.
  assert (Hother : (forall session_id, req <> GET_view_purchased_ticket session_id) ->
                   ledger_invariant (snd (handle P req fs db))).
  { intros Hreq.
    destruct (other_requests_keep_ledger P req fs db Hreq) as (Hsold & Hwallets & _).
    destruct (handle_tickets P req fs db) as (g & extra & Hshape & Hkept & Hextra).
    destruct Hinv as (Hnodup & Hsellers & Hwallet).
    split; [|split].
    - rewrite Hsold. exact Hnodup.
    - rewrite Hshape. apply Forall_app. split.
      + apply Forall_map.
        apply (Forall_impl _ (P := fun t => Ticket.seller_id t = None));
          [|exact Hsellers].
        intros t Ht. destruct (Hkept t) as (_ & _ & _ & Hs & _). congruence.
      + apply (Forall_impl _ (P := fun t => Ticket.is_expired t = false
                                         /\ Ticket.seller_id t = None));
          [|exact Hextra].
        intros t [_ Ht]. exact Ht.
    - rewrite Hsold. unfold SellerWallet_by_seller. rewrite Hwallets. exact Hwallet. }
  destruct req; try (apply Hother; discriminate).
  destruct (finalize_cases P session_id fs db) as [(ticket & pid & Hres) | Hsame];
    [|rewrite Hsame; exact Hinv].
  assert (Hnone : Ticket.seller_id ticket = None).
  { destruct Hres as (cs & ticket_id & _ & _ & _ & Hget).
    destruct Hinv as (_ & Hsellers & _).
    rewrite Forall_forall in Hsellers. apply Hsellers.
    apply (Ticket_get_In _ _ _ Hget). }
  rewrite (finalize_outcome P session_id fs db ticket pid Hres).
  cbv zeta. rewrite Hnone. cbn [seller_or_default].
  destruct (SellerWallet_by_seller db 1) as [w|] eqn:Hwallet.
  - destruct (hd false fs); cbn [orb snd]; [exact Hinv|].
    destruct (pnr_sold db (Ticket.pnr_number ticket)) eqn:Hsold; cbn [snd];
      [exact Hinv|].
    apply settled_invariant; assumption.
  - destruct (hd false fs); cbn [snd]; [exact Hinv|].
    destruct (hd false (tl fs)); cbn [orb snd];
      [apply with_wallet_invariant; exact Hinv|].
    destruct (pnr_sold db (Ticket.pnr_number ticket)) eqn:Hsold; cbn [snd];
      [apply with_wallet_invariant; exact Hinv|].
    apply settled_invariant.
    + apply with_wallet_invariant. exact Hinv.
    + exact Hnone.
    + apply fresh_wallet_found. exact Hwallet.
    + exact Hsold.
Qed.

Lemma reachable_invariant (P : Platform) (db : DB) :
  reachable P db -> ledger_invariant db.
Proof.
  induction 1 as [|db req fs Hreach IH].
  - split; [constructor|]. split; [constructor|]. intros Hsold. contradiction.
  - apply handle_keeps_invariant. exact IH.
Qed.

(** [db_sold] is reached by an upload, a payment and its finalisation. *)
Lemma reachable_db_sold : reachable stub_platform db_sold.
Proof.
  change db_sold
    with (snd (handle stub_platform (GET_view_purchased_ticket "cs_1") [] db_pending)).
  apply reach_step.
  change db_pending
    with (snd (handle stub_platform (POST_process_payment 1 (Some "buyer@x.com")) []
                      db_listed)).
  apply reach_step.
  change db_listed
    with (snd (handle stub_platform
                      (POST_upload_ticket (listing "500.00" "1234567890")) [] empty_db)).
  apply reach_step. apply reach_empty.
Defined.

(** In [db_sold] the session [cs_1] still resolves to ticket 1. *)
Lemma resolves_sold : resolves stub_platform "cs_1" db_sold ticket_sold "pi_1".
Proof.
  exists (stub_session 1), 1. repeat split.
Defined.

(** C1, as stated, fails on the kind of the failure.  In [db_sold] the PNR
    of the ticket is sold; finalizing again with the same payment session
    fails and leaves the store as it is, but the failure is the generic one
    of the settlement ("Error processing your purchase. Please contact
    support."), not the conflict reported for a ticket already sold. *)
Lemma second_finalize_is_not_a_conflict :
  (exists sold, SoldTicket_by_pnr db_sold (Ticket.pnr_number ticket_sold) = Some sold)
  /\ handle stub_platform (GET_view_purchased_ticket "cs_1") [] db_sold
     = (finalization_failed, db_sold)
  /\ spec_error (fst (handle stub_platform (GET_view_purchased_ticket "cs_1") []
                             db_sold))
     = Some FinalizationError
  /\ spec_error (fst (handle stub_platform (GET_view_purchased_ticket "cs_1") []
                             db_sold))
     <> Some Conflict.
Proof.
  split; [eexists; reflexivity|]. split; [vm_compute; reflexivity|].
  split; [vm_compute; reflexivity|]. vm_compute. discriminate.
Qed.

(** C1, amended.  In every store the application reaches, no two sold
    tickets carry the same PNR; and when a payment session resolves to a
    ticket whose PNR is already sold, its finalisation fails -- with the
    failure of the settlement, whatever the store's fault schedule -- and
    leaves the whole store as it was: no sold ticket is added and no wallet
    is credited. *)
Theorem pnr_is_sold_at_most_once (P : Platform) (db : DB) :
  reachable P db ->
  NoDup (map SoldTicket.pnr_number (sold_tickets db))
  /\ forall session_id fs ticket payment_id sold,
       resolves P session_id db ticket payment_id ->
       SoldTicket_by_pnr db (Ticket.pnr_number ticket) = Some sold ->
       handle P (GET_view_purchased_ticket session_id) fs db
       = (finalization_failed, db)
       /\ spec_error finalization_failed = Some FinalizationError.
Proof.
  intros Hreach.
  pose proof (reachable_invariant P db Hreach) as Hinv.
  split; [exact (proj1 Hinv)|].
  intros session_id fs ticket payment_id sold Hres Hsold.
  split; [|reflexivity].
  assert (Hnone : Ticket.seller_id ticket = None).
  { destruct Hres as (cs & ticket_id & _ & _ & _ & Hget).
    destruct Hinv as (_ & Hsellers & _).
    rewrite Forall_forall in Hsellers. apply Hsellers.
    apply (Ticket_get_In _ _ _ Hget). }
  assert (Hpnr : pnr_sold db (Ticket.pnr_number ticket) = true)
    by (apply pnr_sold_iff; eauto).
  assert (Hwallet : exists w, SellerWallet_by_seller db 1 = Some w).
  { destruct Hinv as (_ & _ & Hwallet). apply Hwallet.
    unfold SoldTicket_by_pnr in Hsold. intros Hempty. rewrite Hempty in Hsold.
    discriminate Hsold. }
  destruct Hwallet as [w Hw].
  rewrite (finalize_outcome P session_id fs db ticket payment_id Hres).
  cbv zeta. rewrite Hnone. cbn [seller_or_default]. rewrite Hw, Hpnr.
  rewrite orb_true_r. reflexivity.
Qed.

(** The theorem at work on [db_sold]: finalizing the same session again
    fails and leaves the store as it is. *)
Lemma pnr_is_sold_at_most_once_witness :
  NoDup (map SoldTicket.pnr_number (sold_tickets db_sold))
  /\ handle stub_platform (GET_view_purchased_ticket "cs_1") [] db_sold
     = (finalization_failed, db_sold).
Proof.
  destruct (pnr_is_sold_at_most_once stub_platform db_sold reachable_db_sold)
    as [Hnodup Hsecond].
  split; [exact Hnodup|].
  destruct (Hsecond "cs_1" [] ticket_sold "pi_1"
              (SoldTicket.mk 1 "1234567890" "Delhi" "Mumbai" 741092 "12951"
                             (Some "buyer@x.com") "pi_1" None (Some 1))
              resolves_sold eq_refl)
    as [Hfailed _].
  exact Hfailed.
Defined.

(** * Further properties of the views *)

(** ** The extension check of uploads *)

Lemma after_last_dot_dotless (s : string) :
  contains_dot s = false -> after_last_dot s = None.
Proof.
  induction s as [|c rest IH]; [reflexivity|].
  cbn [contains_dot after_last_dot]. intros Hdot.
  apply orb_false_iff in Hdot. destruct Hdot as [Hc Hrest].
  rewrite (IH Hrest), Hc. reflexivity.
Qed.

Lemma after_last_dot_split (stem ext : string) :
  contains_dot ext = false ->
  after_last_dot (stem ++ "." ++ ext) = Some ext.
Proof.
  intros Hext. induction stem as [|c rest IH].
  - cbn. rewrite (after_last_dot_dotless ext Hext). reflexivity.
  - cbn [append after_last_dot]. cbn [append] in IH. rewrite IH. reflexivity.
Qed.

Lemma after_last_dot_some (s ext : string) :
  after_last_dot s = Some ext ->
  contains_dot ext = false /\ exists stem, s = stem ++ "." ++ ext.
Proof.
  revert ext. induction s as [|c rest IH]; intros ext; [discriminate|].
  cbn [after_last_dot].
  destruct (after_last_dot rest) as [e|] eqn:Hrest.
  - intros Heq. injection Heq as <-.
    destruct (IH e eq_refl) as [Hdot [stem Hstem]].
    split; [exact Hdot|]. exists (String c stem). cbn [append]. rewrite Hstem.
    reflexivity.
  - destruct (Ascii.eqb c "."%char) eqn:Hc; [|discriminate].
    intros Heq. injection Heq as <-. apply Ascii.eqb_eq in Hc. subst c.
    split.
    + clear IH. induction rest as [|d rest IH]; [reflexivity|].
      cbn [after_last_dot] in Hrest.
      destruct (after_last_dot rest) as [e|]; [discriminate|].
      cbn [contains_dot].
      destruct (Ascii.eqb d "."%char); [discriminate|].
      cbn [orb]. apply IH. reflexivity.
    + exists "". reflexivity.
Qed.

(** X1.  [allowed_file] decides on what follows the last dot of the file
    name, in lower case: a name is allowed exactly when it is some stem
    (possibly empty, possibly with dots of its own), a dot, and a dotless
    extension that is, up to case, one of pdf, jpg, jpeg, png, svg, gif.  A
    name without a dot is never allowed. *)
Theorem allowed_file_decides_on_last_extension (name : string) :
  allowed_file name = true
  <-> exists stem ext,
        name = stem ++ "." ++ ext
        /\ contains_dot ext = false
        /\ In (lower ext) ALLOWED_EXTENSIONS.
Proof.
  unfold allowed_file. split.
  - destruct (after_last_dot name) as [ext|] eqn:Hlast; [|discriminate].
    intros Hallowed.
    destruct (after_last_dot_some name ext Hlast) as [Hdot [stem Hname]].
    exists stem, ext. split; [exact Hname|]. split; [exact Hdot|].
    apply existsb_exists in Hallowed. destruct Hallowed as [a [Hin Ha]].
    apply String.eqb_eq in Ha. subst a. exact Hin.
  - intros (stem & ext & Hname & Hdot & Hin). subst name.
    rewrite (after_last_dot_split stem ext Hdot).
    apply existsb_exists. exists (lower ext). split; [exact Hin|].
    apply String.eqb_refl.
Qed.

(** ** The PNR check *)

Lemma take_digits_some (n : nat) (s rest : string) :
  take_digits n s = Some rest
  <-> exists d, s = d ++ rest
                /\ String.length d = n
                /\ forallb isdigit (list_ascii_of_string d) = true.
Proof.
  revert s. induction n as [|n IH]; intros s; cbn [take_digits].
  - split.
    + intros Heq. injection Heq as <-. exists "". repeat split.
    + intros (d & Hs & Hlen & _). destruct d; [|discriminate]. subst s. reflexivity.
  - destruct s as [|c s'].
    + split; [discriminate|].
      intros (d & Hs & Hlen & _). destruct d; discriminate.
    + destruct (isdigit c) eqn:Hc.
      * rewrite IH. split.
        -- intros (d & Hs & Hlen & Hdig). exists (String c d).
           cbn [append String.length list_ascii_of_string forallb].
           rewrite Hs, Hlen, Hc, Hdig. repeat split.
        -- intros (d & Hs & Hlen & Hdig). destruct d as [|c' d]; [discriminate|].
           cbn [append] in Hs. injection Hs as -> ->.
           cbn [String.length] in Hlen. injection Hlen as Hlen.
           cbn [list_ascii_of_string forallb] in Hdig.
           apply andb_true_iff in Hdig. exists d. tauto.
      * split; [discriminate|].
        intros (d & Hs & Hlen & Hdig). destruct d as [|c' d]; [discriminate|].
        cbn [append] in Hs. injection Hs as -> ->.
        cbn [list_ascii_of_string forallb] in Hdig.
        apply andb_true_iff in Hdig. destruct Hdig as [Hc' _]. congruence.
Qed.

Lemma SoldTicket_by_pnr_None (db : DB) (pnr : string) :
  SoldTicket_by_pnr db pnr = None
  <-> forall s, In s (sold_tickets db) -> SoldTicket.pnr_number s <> pnr.
Proof.
  unfold SoldTicket_by_pnr. split.
  - intros Hnone s Hin Heq.
    apply (find_none _ _ Hnone) in Hin. apply String.eqb_neq in Hin. contradiction.
  - intros Hall. destruct (find _ (sold_tickets db)) as [s|] eqn:Hfind; [|reflexivity].
    apply find_some in Hfind. destruct Hfind as [Hin Heq].
    apply String.eqb_eq in Heq. exfalso. exact (Hall s Hin Heq).
Qed.

Lemma take_decimals_some (decimal : N -> bool) (n : nat) (text rest : list N) :
  take_decimals decimal n text = Some rest
  <-> exists ds, text = (ds ++ rest)%list
                 /\ List.length ds = n
                 /\ forallb decimal ds = true.
Proof.
  revert text. induction n as [|n IH]; intros text; cbn [take_decimals].
  - split.
    + intros Heq. injection Heq as <-. exists []. repeat split.
    + intros (ds & Hs & Hlen & _). destruct ds; [|discriminate]. subst text.
      reflexivity.
  - destruct text as [|c text'].
    + split; [discriminate|].
      intros (ds & Hs & Hlen & _). destruct ds; discriminate.
    + destruct (decimal c) eqn:Hc.
      * rewrite IH. split.
        -- intros (ds & Hs & Hlen & Hdig). exists (c :: ds).
           cbn [app List.length forallb]. rewrite Hs, Hlen, Hc, Hdig. repeat split.
        -- intros (ds & Hs & Hlen & Hdig). destruct ds as [|c' ds]; [discriminate|].
           cbn [app] in Hs. injection Hs as -> ->.
           cbn [List.length] in Hlen. injection Hlen as Hlen.
           cbn [forallb] in Hdig. apply andb_true_iff in Hdig. exists ds. tauto.
      * split; [discriminate|].
        intros (ds & Hs & Hlen & Hdig). destruct ds as [|c' ds]; [discriminate|].
        cbn [app] in Hs. injection Hs as -> ->.
        cbn [forallb] in Hdig. apply andb_true_iff in Hdig.
        destruct Hdig as [Hc' _]. congruence.
Qed.

(** On the strings of this development the class of the decimal digits is
    the one [take_digits] reads. *)
Lemma take_decimals_code_points (decimal : N -> bool) (n : nat) :
  decimal_below_256 decimal ->
  forall s : string,
  take_decimals decimal n (code_points s) = option_map code_points (take_digits n s).
Proof.
  intros Hlatin. induction n as [|n IH]; intros s; [reflexivity|].
  destruct s as [|c s]; [reflexivity|].
  cbn [code_points list_ascii_of_string map take_decimals take_digits].
  rewrite (Hlatin _ (N_ascii_bounded c)).
  change ((48 <=? N_of_ascii c) && (N_of_ascii c <=? 57))%N with (isdigit c).
  destruct (isdigit c); [apply IH | reflexivity].
Qed.

Lemma line_feed_code_point (c : ascii) :
  Ascii.eqb c "010"%char = (N_of_ascii c =? 10)%N.
Proof.
  destruct c as [[] [] [] [] [] [] [] []]; reflexivity.
Qed.

Lemma re_match_pnr_code_points (decimal : N -> bool) (s : string) :
  decimal_below_256 decimal ->
  re_match_pnr s = re_match_pnr_text decimal (code_points s).
Proof.
  intros Hlatin. unfold re_match_pnr, re_match_pnr_text.
  rewrite (take_decimals_code_points decimal 10 Hlatin).
  destruct (take_digits 10 s) as [rest|]; [|reflexivity].
  cbn [option_map]. destruct rest as [|c [|c' rest]]; [reflexivity | |].
  - cbn [code_points list_ascii_of_string map]. unfold LF.
    cbn [String.eqb orb]. rewrite line_feed_code_point.
    destruct (N_of_ascii c =? 10)%N; reflexivity.
  - cbn [code_points list_ascii_of_string map]. unfold LF.
    cbn [String.eqb orb]. destruct (Ascii.eqb c "010"%char); reflexivity.
Qed.

Lemma re_match_pnr_text_iff (decimal : N -> bool) (text : list N) :
  re_match_pnr_text decimal text = true
  <-> exists ds, List.length ds = 10%nat
                 /\ forallb decimal ds = true
                 /\ (text = ds \/ text = (ds ++ [10%N])%list).
Proof.
  unfold re_match_pnr_text. split.
  - destruct (take_decimals decimal 10 text) as [rest|] eqn:Htake; [|discriminate].
    apply take_decimals_some in Htake. destruct Htake as (ds & Hs & Hlen & Hdig).
    destruct rest as [|c [|c' rest]]; [| |discriminate]; intros Hrest.
    + exists ds. rewrite app_nil_r in Hs. auto.
    + apply N.eqb_eq in Hrest. subst c. exists ds. auto.
  - intros (ds & Hlen & Hdig & [Hs | Hs]).
    + assert (Htake : take_decimals decimal 10 text = Some []).
      { apply take_decimals_some. exists ds. rewrite app_nil_r. auto. }
      rewrite Htake. reflexivity.
    + assert (Htake : take_decimals decimal 10 text = Some [10%N]).
      { apply take_decimals_some. exists ds. auto. }
      rewrite Htake. reflexivity.
Qed.

(** X2.  The pattern of [validate_pnr] matches, on any text, ten characters
    of the class [\d] of [re] -- the decimal digits of whatever script --
    alone or followed by one line feed.  The strings of this development
    hold the code points below 256, among which that class is the digits 0
    to 9, and on them [re_match_pnr] is that pattern.  So for a PNR of code
    points below 256, [validate_pnr] accepts exactly when the PNR is ten
    digits 0 to 9, or ten such digits followed by one line feed, and no sold
    ticket carries it; a PNR of another shape is refused as malformed
    whether it is sold or not, and a well-formed PNR that is sold is refused
    as sold. *)
Theorem validate_pnr_accepts (decimal : N -> bool) (db : DB) (pnr : string) :
  decimal_below_256 decimal ->
  let shaped := exists d, ten_digits d /\ (pnr = d \/ pnr = d ++ LF) in
  let unsold := forall s, In s (sold_tickets db) -> SoldTicket.pnr_number s <> pnr in
  re_match_pnr pnr = re_match_pnr_text decimal (code_points pnr)
  /\ (forall text,
        re_match_pnr_text decimal text = true
        <-> exists ds, List.length ds = 10%nat
                       /\ forallb decimal ds = true
                       /\ (text = ds \/ text = (ds ++ [10%N])%list))
  /\ (validate_pnr db pnr = (true, "") <-> shaped /\ unsold)
  /\ (~ shaped -> validate_pnr db pnr = (false, "PNR must be exactly 10 digits"))
  /\ (shaped -> ~ unsold ->
      validate_pnr db pnr
      = (false, "This ticket has already been sold and cannot be resold")).
Proof.
  intros Hlatin. cbv zeta.
  split; [apply re_match_pnr_code_points; exact Hlatin|].
  split; [intros text; apply re_match_pnr_text_iff|].
  assert (Hshape : re_match_pnr pnr = true
                   <-> exists d, ten_digits d /\ (pnr = d \/ pnr = d ++ LF)).
  { unfold re_match_pnr, ten_digits. split.
    - destruct (take_digits 10 pnr) as [rest|] eqn:Htake; [|discriminate].
      apply take_digits_some in Htake. destruct Htake as (d & Hs & Hlen & Hdig).
      intros Hrest. apply orb_true_iff in Hrest. exists d. split; [tauto|].
      destruct Hrest as [Hrest | Hrest]; apply String.eqb_eq in Hrest; subst rest.
      + left. rewrite Hs. clear. induction d; cbn; congruence.
      + right. exact Hs.
    - intros (d & [Hlen Hdig] & [Hs | Hs]).
      + assert (Htake : take_digits 10 pnr = Some "").
        { apply take_digits_some. exists d. split; [|tauto].
          rewrite Hs. clear. induction d; cbn; congruence. }
        rewrite Htake. reflexivity.
      + assert (Htake : take_digits 10 pnr = Some LF).
        { apply take_digits_some. exists d. tauto. }
        rewrite Htake. reflexivity. }
  unfold validate_pnr. split; [|split].
  - rewrite <- Hshape, <- SoldTicket_by_pnr_None.
    destruct (re_match_pnr pnr); cbn [negb].
    + destruct (SoldTicket_by_pnr db pnr); split; intros H;
        try discriminate; try (destruct H; discriminate); auto.
    + split; intros H; [discriminate | destruct H; discriminate].
  - rewrite <- Hshape. destruct (re_match_pnr pnr); [intros H; exfalso; auto|].
    reflexivity.
  - rewrite <- Hshape, <- SoldTicket_by_pnr_None. intros Hre Hsold.
    rewrite Hre. cbn [negb].
    destruct (SoldTicket_by_pnr db pnr); [reflexivity|]. exfalso. auto.
Qed.

(** The theorem at work, for a class of digits that holds the Arabic-Indic
    and the fullwidth digits besides 0 to 9: the PNR 0987654321 is matched
    as the pattern on texts matches it, and that pattern decides on the ten
    Arabic-Indic digits as on any text. *)
Lemma validate_pnr_accepts_witness :
  re_match_pnr "0987654321"
  = re_match_pnr_text decimal_of_examples (code_points "0987654321")
  /\ (re_match_pnr_text decimal_of_examples
        [1632; 1633; 1634; 1635; 1636; 1637; 1638; 1639; 1640; 1641]%N = true
      <-> exists ds, List.length ds = 10%nat
                     /\ forallb decimal_of_examples ds = true
                     /\ ([1632; 1633; 1634; 1635; 1636; 1637; 1638; 1639; 1640; 1641]%N
                         = ds
                         \/ [1632; 1633; 1634; 1635; 1636; 1637; 1638; 1639; 1640;
                             1641]%N
                            = (ds ++ [10%N])%list)).
Proof.
  assert (Hlatin : decimal_below_256 decimal_of_examples).
  { intros c Hc. unfold decimal_of_examples.
    replace (1632 <=? c)%N with false by (symmetry; apply N.leb_gt; lia).
    replace (65296 <=? c)%N with false by (symmetry; apply N.leb_gt; lia).
    cbn [andb]. rewrite !orb_false_r. reflexivity. }
  destruct (validate_pnr_accepts decimal_of_examples db_sold "0987654321" Hlatin)
    as (Hsame & Htext & _).
  split; [exact Hsame | apply Htext].
Defined.

(** ** Outcomes of an upload *)

Ltac string_tests :=
  repeat match goal with
         | H : (_ =? _)%string = true |- _ => apply String.eqb_eq in H
         | H : (_ =? _)%string = false |- _ => apply String.eqb_neq in H
         | H : negb _ = false |- _ => apply negb_false_iff in H
         | H : negb _ = true |- _ => apply negb_true_iff in H
         end.




(** ** The logs are append-only *)

Ltac solve_appended :=
  cbn [messages sold_tickets wallet_transactions];
  eexists _, _, _;
  repeat match goal with |- _ /\ _ => split end;
  first [ reflexivity | symmetry; apply app_nil_r ].

Lemma handle_appends (P : Platform) (req : Request) (fs : list bool) (db : DB) :
  exists ms ss xs,
    messages (snd (handle P req fs db)) = (messages db ++ ms)%list
    /\ sold_tickets (snd (handle P req fs db)) = (sold_tickets db ++ ss)%list
    /\ wallet_transactions (snd (handle P req fs db))
       = (wallet_transactions db ++ xs)%list.
Proof.
  destruct req; break_views.
  all: solve_appended.
Qed.

(** X4.  The message log, the sold tickets and the wallet transactions are
    append-only: whatever requests are served, in whatever order and with
    whatever faults of the store, the rows these three tables held are still
    there afterwards, unchanged and in the same order, followed by the rows
    added since.  No view edits or deletes a message, a sale or a ledger
    entry. *)
Theorem logs_are_append_only (P : Platform) (reqs : list (Request * list bool)) :
  forall db : DB,
  exists ms ss xs,
    messages (snd (serve P reqs db)) = (messages db ++ ms)%list
    /\ sold_tickets (snd (serve P reqs db)) = (sold_tickets db ++ ss)%list
    /\ wallet_transactions (snd (serve P reqs db))
       = (wallet_transactions db ++ xs)%list.
Proof.
  induction reqs as [|[req fs] reqs IH]; intros db.
  - exists [], [], []. cbn [serve snd]. rewrite !app_nil_r. repeat split.
  - rewrite serve_cons. cbn [snd].
    destruct (handle_appends P req fs db) as (ms1 & ss1 & xs1 & Hm1 & Hs1 & Hx1).
    destruct (IH (snd (handle P req fs db))) as (ms2 & ss2 & xs2 & Hm2 & Hs2 & Hx2).
    exists (ms1 ++ ms2)%list, (ss1 ++ ss2)%list, (xs1 ++ xs2)%list.
    rewrite Hm2, Hs2, Hx2, Hm1, Hs1, Hx1, <- !app_assoc. repeat split.
Qed.

(** ** Listings are never deleted or edited *)

Ltac solve_same_listing :=
  intros; unfold same_listing;
  repeat match goal with
         | |- context [if ?c then _ else _] => destruct c
         end;
  repeat split.

Ltac listing_unchanged :=
  exists (fun t => t), (@nil Ticket.t);
  split; [rewrite map_id, app_nil_r; reflexivity | solve_same_listing].

Ltac listing_appended :=
  eexists (fun t => t), (cons _ nil);
  split; [rewrite map_id; reflexivity | solve_same_listing].

Ltac listing_rewritten :=
  rewrite ?map_map; eexists _, (@nil Ticket.t);
  split; [rewrite app_nil_r; reflexivity | solve_same_listing].

Lemma handle_listings (P : Platform) (req : Request) (fs : list bool) (db : DB) :
  exists g extra,
    tickets (snd (handle P req fs db)) = (map g (tickets db) ++ extra)%list
    /\ forall t, same_listing t (g t).
Proof.
  destruct req; break_views.
  all: cbn [tickets];
    first [ listing_unchanged | listing_appended | listing_rewritten ].
Qed.

Lemma same_listing_trans (t1 t2 t3 : Ticket.t) :
  same_listing t1 t2 -> same_listing t2 t3 -> same_listing t1 t3.
Proof.
  unfold same_listing. intros H12 H23.
  repeat match goal with H : _ /\ _ |- _ => destruct H end.
  repeat split; congruence.
Qed.

Lemma serve_listings (P : Platform) (reqs : list (Request * list bool)) :
  forall db : DB,
  exists g extra,
    tickets (snd (serve P reqs db)) = (map g (tickets db) ++ extra)%list
    /\ forall t, same_listing t (g t).
Proof.
  induction reqs as [|[req fs] reqs IH]; intros db.
  - exists (fun t => t), []. cbn [serve snd]. rewrite map_id, app_nil_r.
    split; [reflexivity|]. intros t. unfold same_listing. repeat split.
  - rewrite serve_cons. cbn [snd].
    destruct (handle_listings P req fs db) as (g1 & e1 & Hshape1 & Hkeep1).
    destruct (IH (snd (handle P req fs db))) as (g2 & e2 & Hshape2 & Hkeep2).
    exists (fun t => g2 (g1 t)), (map g2 e1 ++ e2)%list.
    split.
    + rewrite Hshape2, Hshape1, map_app, map_map, <- app_assoc. reflexivity.
    + intros t. apply (same_listing_trans t (g1 t) (g2 (g1 t))); auto.
Qed.

(** X5.  A listing is never deleted and its data never edited.  A ticket
    that [Ticket.query.get] finds is still found, under the same key, after
    any sequence of requests, with the same title, price, description, file,
    PNR, route, travel date, train, passenger and seller; only its expiry
    flag and its payment fields can have changed. *)
Theorem listings_are_kept (P : Platform) (reqs : list (Request * list bool))
  (db : DB) (ticket_id : Z) (t : Ticket.t) :
  Ticket_get db ticket_id = Some t ->
  exists t',
    Ticket_get (snd (serve P reqs db)) ticket_id = Some t'
    /\ same_listing t t'.
Proof.
  intros Hget.
  destruct (serve_listings P reqs db) as (g & extra & Hshape & Hkeep).
  exists (g t). split; [|apply Hkeep].
  unfold Ticket_get in *. rewrite Hshape.
  apply find_app_some. rewrite find_ticket_map.
  - rewrite Hget. reflexivity.
  - intros t0. apply (Hkeep t0).
Qed.

(** The theorem at work: the ticket of [db_listed] after it was paid for,
    sold, cancelled and swept. *)
Lemma listings_are_kept_witness :
  exists t',
    Ticket_get
      (snd (serve stub_platform
              [ (POST_process_payment 1 (Some "buyer@x.com"), []);
                (GET_view_purchased_ticket "cs_1", []);
                (GET_payment_cancel 1, []);
                (GET_index 741093, []) ]
              db_listed))
      1
    = Some t'
    /\ same_listing ticket_listed t'.
Proof.
  exact (listings_are_kept stub_platform _ db_listed 1 ticket_listed eq_refl).
Defined.

(** ** An uploaded ticket can be looked up *)





(** ** Posting a message *)

(** X7.  [send_message] on an unknown ticket or with a message that is
    empty once stripped answers with an error and stores nothing.  Otherwise,
    when the store accepts the commit, exactly one message is appended: its
    text is the posted text stripped of surrounding white space, its sender
    is the role kept in the session (buyer when the session has none), and
    its shared flag is set only if the [share_ticket] key was posted and that
    role is the seller; a share flag posted by anyone else is dropped.  When
    the store refuses the commit the answer is "Database error" and nothing
    is stored. *)
Theorem send_message_outcomes (P : Platform) (db : DB) (ticket_id : Z)
  (message : option string) (share_ticket : bool) (user_type : option string)
  (fs : list bool) :
  let out := handle P (POST_send_message ticket_id message share_ticket user_type)
                    fs db in
  let text := strip (form_get message) in
  let sender := session_user_type user_type in
  let shared := share_ticket && (sender =? "seller")%string in
  (Ticket_get db ticket_id = None ->
   out = (jsonify false false (Some "Ticket not found"), db))
  /\ (Ticket_get db ticket_id <> None -> text = "" ->
      out = (jsonify false false (Some "Message cannot be empty"), db))
  /\ (Ticket_get db ticket_id <> None -> text <> "" -> store_accepts fs ->
      out = (jsonify true shared None,
             with_message db
               (Message.mk (next_id (map Message.id (messages db))) ticket_id sender
                           text shared)))
  /\ (Ticket_get db ticket_id <> None -> text <> "" -> ~ store_accepts fs ->
      out = (jsonify false false (Some "Database error"), db)).
Proof.
  cbv zeta. unfold store_accepts, session_user_type, with_message.
  destruct (Ticket_get db ticket_id) as [t|] eqn:Hget.
  - pose proof (Ticket_get_exists _ _ _ Hget) as Hex.
    split; [discriminate|].
    split; [|split]; intros _.
    + intros Hempty. unfold_views. rewrite Hget. simpl_views.
      rewrite Hempty. reflexivity.
    + intros Htext Hok. unfold_views. rewrite Hget. simpl_views.
      rewrite (eqb_empty_false _ Htext). simpl_views. rewrite Hok. simpl_views.
      cbn [Message.ticket_id]. rewrite Hex. cbn [negb]. simpl_views.
      destruct (share_ticket && _); reflexivity.
    + intros Htext Hrefused. destruct (hd false fs) eqn:Hfault; [|contradiction].
      unfold_views. rewrite Hget. simpl_views.
      rewrite (eqb_empty_false _ Htext). simpl_views. rewrite Hfault. reflexivity.
  - split; [|repeat split; intros Hsome; contradiction].
    intros _. unfold_views. rewrite Hget. reflexivity.
Qed.

(** ** Who can unlock a release *)

Ltac no_new_share :=
  match goal with
  | H : In _ (_ ++ _)%list |- _ =>
      apply in_app_or in H; destruct H as [H | [H | []]]; [left; exact H|]
  | H : In _ _ |- _ => left; exact H
  end.

(** X8.  A share-confirmation (a seller message with the shared flag) can
    only enter the log through [send_message] posted with the [share_ticket]
    key while the session's role is seller.  No other request creates one:
    in particular the purchase message of [payment_success], which carries
    the shared flag, is a system message and does not unlock
    [release_ticket]. *)
Theorem share_confirmation_only_from_seller (P : Platform) (req : Request)
  (fs : list bool) (db : DB) (ticket_id : Z) (m : Message.t) :
  In m (messages (snd (handle P req fs db))) ->
  share_confirmation ticket_id m ->
  In m (messages db)
  \/ exists text, req = POST_send_message ticket_id text true (Some "seller").
Proof.
  intros Hin (Htid & Hsender & Hshared). revert Hin.
  destruct req; break_views; cbn [messages]; intros Hin; try no_new_share.
  all: subst m;
    cbn [Message.ticket_id Message.sender_type Message.is_ticket_shared] in *;
    try discriminate.
  right. subst.
  match goal with
  | H : _ && _ = true |- _ => apply andb_true_iff in H; destruct H as [Hshare _]
  end.
  subst share_ticket. eexists. reflexivity.
Qed.

(** The theorem at work: the message by which the seller of [db_listed]
    shares the ticket details. *)
Lemma share_confirmation_only_from_seller_witness :
  In (Message.mk 1 1 "seller" "PNR and coach details attached" true)
     (messages db_listed)
  \/ exists text,
       POST_send_message 1 (Some "PNR and coach details attached") true (Some "seller")
       = POST_send_message 1 text true (Some "seller").
Proof.
  apply (share_confirmation_only_from_seller stub_platform
           (POST_send_message 1 (Some "PNR and coach details attached") true
                              (Some "seller"))
           [] db_listed 1).
  - left. reflexivity.
  - repeat split.
Defined.

(** ** A request that fails leaves nothing behind *)

Lemma failed_request_keeps_store_but_finalize (P : Platform) (req : Request)
  (fs : list bool) (db : DB) :
  (forall session_id, req <> GET_view_purchased_ticket session_id) ->
  reports_failure (fst (handle P req fs db)) = true ->
  snd (handle P req fs db) = db.
Proof.
  intros Hreq. destruct req; try (exfalso; eapply Hreq; reflexivity); clear Hreq.
  all: unfold_views; unfold validate_pnr;
    repeat (split_match; simpl_views; cbn [fst snd reports_failure negb]).
  all: intros Hfail; first [ reflexivity | discriminate Hfail ].
Qed.

(** X9.  A request that is answered with a failure (an error page, a JSON
    failure, or a flash of category danger or warning) has stored nothing:
    the store is the one before the request.  The one exception is
    [view_purchased_ticket], which may have committed the wallet it created
    for a seller who had none before it failed. *)
Theorem failed_request_keeps_store (P : Platform) (req : Request) (fs : list bool)
  (db : DB) :
  reports_failure (fst (handle P req fs db)) = true ->
  snd (handle P req fs db) = db
  \/ exists session_id seller,
       req = GET_view_purchased_ticket session_id
       /\ SellerWallet_by_seller db seller = None
       /\ snd (handle P req fs db) = with_wallet db (fresh_wallet db seller).
Proof.
  intros Hfail.
  destruct req as [| | | | | | | | | session_id |];
    try (left; apply failed_request_keeps_store_but_finalize;
         [intros sid; discriminate | exact Hfail]).
  destruct (finalize_cases P session_id fs db) as [(ticket & pid & Hres) | Hsame];
    [|left; exact Hsame].
  revert Hfail. rewrite (finalize_outcome P session_id fs db ticket pid Hres).
  cbv zeta.
  destruct (SellerWallet_by_seller db (seller_or_default (Ticket.seller_id ticket)))
    eqn:Hwallet.
  - destruct (hd false fs || pnr_sold db (Ticket.pnr_number ticket));
      cbn [fst snd]; intros Hfail; [left; reflexivity | discriminate Hfail].
  - destruct (hd false fs); cbn [fst snd]; [left; reflexivity|].
    destruct (hd false (tl fs) || pnr_sold db (Ticket.pnr_number ticket));
      cbn [fst snd]; intros Hfail; [|discriminate Hfail].
    right. exists session_id, (seller_or_default (Ticket.seller_id ticket)).
    repeat split. exact Hwallet.
Qed.

(** The theorem at work: a second upload of a PNR that [db_sold] holds as
    sold is refused. *)
Lemma failed_request_keeps_store_witness :
  snd (handle stub_platform (POST_upload_ticket (listing "500.00" "1234567890")) []
              db_sold)
  = db_sold
  \/ exists session_id seller,
       POST_upload_ticket (listing "500.00" "1234567890")
       = GET_view_purchased_ticket session_id
       /\ SellerWallet_by_seller db_sold seller = None
       /\ snd (handle stub_platform
                      (POST_upload_ticket (listing "500.00" "1234567890")) [] db_sold)
          = with_wallet db_sold (fresh_wallet db_sold seller).
Proof.
  exact (failed_request_keeps_store stub_platform
           (POST_upload_ticket (listing "500.00" "1234567890")) [] db_sold eq_refl).
Defined.

(** ** Cancelling a payment *)

(** Looking up another ticket after the rows with one key were rewritten. *)
Lemma find_ticket_update_other (f : Ticket.t -> Ticket.t) (l : list Ticket.t)
  (ticket_id other : Z) :
  (forall t, Ticket.id (f t) = Ticket.id t) ->
  other <> ticket_id ->
  find (fun t => Ticket.id t =? other)
       (map (fun t => if Ticket.id t =? ticket_id then f t else t) l)
  = find (fun t => Ticket.id t =? other) l.
Proof.
  intros Hid Hother. induction l as [|t l IH]; [reflexivity|].
  cbn [map find].
  destruct (Ticket.id t =? ticket_id) eqn:Hkey.
  - apply Z.eqb_eq in Hkey. rewrite Hid.
    replace (Ticket.id t =? other) with false by (symmetry; apply Z.eqb_neq; lia).
    exact IH.
  - destruct (Ticket.id t =? other); [reflexivity | exact IH].
Qed.

(** X10.  [payment_cancel] on an unknown ticket answers "Ticket not found."
    and stores nothing.  On a known ticket whose commit the store accepts it
    overwrites the payment status of that ticket with cancelled, whatever
    the status was (pending, completed, or none: a sold ticket is marked
    cancelled as well), keeps the buyer's email and the checkout session,
    and touches no other ticket and no other table.  The commit is not
    guarded: when the store refuses it the request ends in an internal
    server error and nothing is stored. *)
Theorem payment_cancel_outcomes (P : Platform) (db : DB) (ticket_id : Z)
  (fs : list bool) :
  let out := handle P (GET_payment_cancel ticket_id) fs db in
  (Ticket_get db ticket_id = None ->
   out = (redirect (Some ("Ticket not found.", "danger")) ep_index, db))
  /\ (forall t, Ticket_get db ticket_id = Some t -> store_accepts fs ->
      fst out = render_template "payment_cancel.html"
      /\ Ticket_get (snd out) ticket_id
         = Some (Ticket.set_payment_status (Some "cancelled") t)
      /\ (forall other, other <> ticket_id ->
          Ticket_get (snd out) other = Ticket_get db other)
      /\ sold_tickets (snd out) = sold_tickets db
      /\ messages (snd out) = messages db
      /\ seller_wallets (snd out) = seller_wallets db
      /\ wallet_transactions (snd out) = wallet_transactions db)
  /\ (forall t, Ticket_get db ticket_id = Some t -> ~ store_accepts fs ->
      out = (internal_server_error OperationalError, db)).
Proof.
  cbv zeta. unfold store_accepts. split; [|split].
  - intros Hget. unfold_views. rewrite Hget. reflexivity.
  - intros t Hget Hok.
    pose proof (Ticket_get_id _ _ _ Hget) as Hid.
    unfold_views. rewrite Hget. simpl_views. rewrite Hok. simpl_views.
    split; [reflexivity|]. split; [|split; [|repeat split]].
    + unfold Ticket_get in *. cbn [tickets]. rewrite find_ticket_map.
      * rewrite Hget. cbn [option_map]. rewrite Hid, Z.eqb_refl. reflexivity.
      * intros t0. destruct (_ =? _); reflexivity.
    + intros other Hother. unfold Ticket_get. cbn [tickets]. rewrite Hid.
      apply find_ticket_update_other; [reflexivity | exact Hother].
  - intros t Hget Hrefused. destruct (hd false fs) eqn:Hfault; [|contradiction].
    unfold_views. rewrite Hget. simpl_views. rewrite Hfault. reflexivity.
Qed.

(** ** When a purchase is finalized *)

(** A finalisation whose session does not resolve to a ticket fails and
    leaves the store alone. *)
Lemma finalize_unresolved (P : Platform) (session_id : string) (fs : list bool)
  (db : DB) :
  (exists ticket payment_id, resolves P session_id db ticket payment_id)
  \/ (reports_failure (fst (handle P (GET_view_purchased_ticket session_id) fs db))
      = true
      /\ snd (handle P (GET_view_purchased_ticket session_id) fs db) = db).
Proof.
  unfold resolves.
  destruct (stripe_session_retrieve P session_id) as [cs|] eqn:Hcs.
  2:{ right. unfold_views. rewrite Hcs. split; reflexivity. }
  destruct (stripe_payment_intent_retrieve P (cs_payment_intent cs)) as [pid|] eqn:Hpi.
  2:{ right. unfold_views. rewrite Hcs. simpl_views. rewrite Hpi. split; reflexivity. }
  destruct (cs_ticket_id cs) as [ticket_id|] eqn:Htid.
  2:{ right. unfold_views. rewrite Hcs. simpl_views. rewrite Hpi. simpl_views.
      rewrite Htid. split; reflexivity. }
  destruct (Ticket_get db ticket_id) as [ticket|] eqn:Hget.
  2:{ right. unfold_views. rewrite Hcs. simpl_views. rewrite Hpi. simpl_views.
      rewrite Htid. simpl_views. rewrite Hget. split; reflexivity. }
  left. exists ticket, pid, cs, ticket_id. auto.
Qed.

(** X11.  [view_purchased_ticket] finalizes the purchase exactly when the
    payment session resolves to a listed ticket, the PNR of that ticket is
    not among the sold tickets, and the store accepts the commits.  Nothing
    else is asked: neither the expiry flag of the ticket nor its payment
    status nor its checkout session enter the decision, so an expired
    listing and a listing whose payment was cancelled are sold like any
    other.  When the purchase is not finalized, no sale, no credit and no
    change of a ticket is stored. *)
Theorem purchase_finalized_iff (P : Platform) (session_id : string)
  (fs : list bool) (db : DB) :
  let out := handle P (GET_view_purchased_ticket session_id) fs db in
  (fst out = finalization_done
   <-> exists ticket payment_id,
         resolves P session_id db ticket payment_id
         /\ pnr_sold db (Ticket.pnr_number ticket) = false
         /\ commits_accepted db (seller_or_default (Ticket.seller_id ticket)) fs)
  /\ (fst out <> finalization_done ->
      tickets (snd out) = tickets db
      /\ sold_tickets (snd out) = sold_tickets db
      /\ wallet_transactions (snd out) = wallet_transactions db).
Proof.
  cbv zeta. unfold commits_accepted.
  destruct (finalize_unresolved P session_id fs db)
    as [(ticket & pid & Hres) | (Hfail & Hsame)].
  - rewrite (finalize_outcome P session_id fs db ticket pid Hres). cbv zeta.
    assert (Hunique : forall t2 p2, resolves P session_id db t2 p2 -> t2 = ticket).
    { intros t2 p2 (cs2 & id2 & Hcs2 & _ & Htid2 & Hget2).
      destruct Hres as (cs & id & Hcs & _ & Htid & Hget). congruence. }
    destruct (SellerWallet_by_seller db (seller_or_default (Ticket.seller_id ticket)))
      eqn:Hwallet.
    + destruct (hd false fs) eqn:Hfault; cbn [orb fst snd].
      * split; [|intros _; repeat split].
        split; [discriminate|].
        intros (t2 & p2 & Hres2 & _ & Hok).
        rewrite (Hunique t2 p2 Hres2), Hwallet in Hok. discriminate Hok.
      * destruct (pnr_sold db (Ticket.pnr_number ticket)) eqn:Hsold; cbn [fst snd].
        -- split; [|intros _; repeat split].
           split; [discriminate|].
           intros (t2 & p2 & Hres2 & Hunsold & _).
           rewrite (Hunique t2 p2 Hres2) in Hunsold. congruence.
        -- split; [|intros Hne; exfalso; apply Hne; reflexivity].
           split; [|reflexivity]. intros _. exists ticket, pid.
           rewrite Hwallet. auto.
    + destruct (hd false fs) eqn:Hfault; cbn [orb fst snd].
      * split; [|intros _; repeat split].
        split; [discriminate|].
        intros (t2 & p2 & Hres2 & _ & Hok).
        rewrite (Hunique t2 p2 Hres2), Hwallet in Hok. destruct Hok. discriminate.
      * destruct (hd false (tl fs)) eqn:Hfault2; cbn [orb fst snd].
        -- split; [|intros _; repeat split].
           split; [discriminate|].
           intros (t2 & p2 & Hres2 & _ & Hok).
           rewrite (Hunique t2 p2 Hres2), Hwallet in Hok. destruct Hok. discriminate.
        -- destruct (pnr_sold db (Ticket.pnr_number ticket)) eqn:Hsold; cbn [fst snd].
           ++ split; [|intros _; repeat split].
              split; [discriminate|].
              intros (t2 & p2 & Hres2 & Hunsold & _).
              rewrite (Hunique t2 p2 Hres2) in Hunsold. congruence.
           ++ split; [|intros Hne; exfalso; apply Hne; reflexivity].
              split; [|reflexivity]. intros _. exists ticket, pid.
              rewrite Hwallet. auto.
  - split; [|intros _; rewrite Hsame; repeat split].
    split.
    + intros Hdone. rewrite Hdone in Hfail. discriminate Hfail.
    + intros (t2 & p2 & Hres2 & Hunsold & Hok).
      rewrite (finalize_outcome P session_id fs db t2 p2 Hres2). cbv zeta.
      destruct (SellerWallet_by_seller db (seller_or_default (Ticket.seller_id t2))).
      * rewrite Hok, Hunsold. reflexivity.
      * destruct Hok as [Hfirst Hsecond]. rewrite Hfirst, Hsecond, Hunsold.
        reflexivity.
Qed.

(** ** Whose email a sale records *)

(** X12.  The sale records the email of whoever started a payment last, not
    of whoever paid.  When two buyers start a payment for the same ticket
    one after the other, the second email and checkout session replace the
    first on the ticket; when a payment session of that ticket is then
    finalized (the first buyer's, say), the sold ticket is recorded with the
    payment of that session but with the email of the second buyer. *)
Theorem sale_records_last_email (P : Platform) (db : DB) (ticket_id : Z)
  (first_email second_email session_id payment_id : string) (ticket : Ticket.t)
  (amount : Z) (cs1 cs2 cs : CheckoutSession) :
  Ticket_get db ticket_id = Some ticket ->
  first_email <> "" ->
  second_email <> "" ->
  price_with_commission ticket = inr amount ->
  stripe_session_create P (checkout_params P ticket first_email amount) = Some cs1 ->
  stripe_session_create P (checkout_params P ticket second_email amount) = Some cs2 ->
  stripe_session_retrieve P session_id = Some cs ->
  stripe_payment_intent_retrieve P (cs_payment_intent cs) = Some payment_id ->
  cs_ticket_id cs = Some ticket_id ->
  pnr_sold db (Ticket.pnr_number ticket) = false ->
  let db' :=
    snd (serve P [ (POST_process_payment ticket_id (Some first_email), []);
                   (POST_process_payment ticket_id (Some second_email), []);
                   (GET_view_purchased_ticket session_id, []) ]
               db) in
  exists sold,
    sold_tickets db' = (sold_tickets db ++ [sold])%list
    /\ SoldTicket.pnr_number sold = Ticket.pnr_number ticket
    /\ SoldTicket.payment_id sold = payment_id
    /\ SoldTicket.buyer_email sold = Some second_email.
Proof.
  intros Hget Hfirst Hsecond Hamount Hcs1 Hcs2 Hcs Hpi Htid Hunsold db'. subst db'.
  rewrite !serve_cons. cbn [serve snd].
  destruct (process_payment_records P db ticket_id first_email [] ticket amount cs1
              Hget Hfirst Hamount Hcs1 eq_refl)
    as (_ & Hget1 & Hsold1 & _).
  set (db1 := snd (handle P (POST_process_payment ticket_id (Some first_email)) [] db))
    in *.
  destruct (process_payment_records P db1 ticket_id second_email []
              (payment_pending first_email (cs_id cs1) ticket) amount cs2
              Hget1 Hsecond Hamount Hcs2 eq_refl)
    as (_ & Hget2 & Hsold2 & _).
  set (db2 := snd (handle P (POST_process_payment ticket_id (Some second_email)) [] db1))
    in *.
  set (t2 := payment_pending second_email (cs_id cs2)
               (payment_pending first_email (cs_id cs1) ticket)) in *.
  assert (Hres : resolves P session_id db2 t2 payment_id).
  { exists cs, ticket_id. auto. }
  assert (Hunsold2 : pnr_sold db2 (Ticket.pnr_number t2) = false).
  { unfold pnr_sold. rewrite Hsold2, Hsold1. exact Hunsold. }
  rewrite (finalize_outcome P session_id [] db2 t2 payment_id Hres). cbv zeta.
  rewrite Hunsold2. cbn [hd tl orb].
  exists (sold_row t2 payment_id (next_id (map SoldTicket.id (sold_tickets db2)))).
  split; [|repeat split].
  destruct (SellerWallet_by_seller db2 (seller_or_default (Ticket.seller_id t2)));
    cbn [snd settled with_wallet sold_tickets]; rewrite Hsold2, Hsold1; reflexivity.
Qed.

(** The theorem at work: two buyers start a payment for the ticket of
    [db_listed]; the sale is recorded with the email of the second. *)
Lemma sale_records_last_email_witness :
  exists sold,
    sold_tickets
      (snd (serve stub_platform
              [ (POST_process_payment 1 (Some "first@x.com"), []);
                (POST_process_payment 1 (Some "second@x.com"), []);
                (GET_view_purchased_ticket "cs_1", []) ]
              db_listed))
    = (sold_tickets db_listed ++ [sold])%list
    /\ SoldTicket.pnr_number sold = Ticket.pnr_number ticket_listed
    /\ SoldTicket.payment_id sold = "pi_1"
    /\ SoldTicket.buyer_email sold = Some "second@x.com".
Proof.
  apply (sale_records_last_email stub_platform db_listed 1 "first@x.com"
           "second@x.com" "cs_1" "pi_1" ticket_listed 55000 (stub_session 1)
           (stub_session 1) (stub_session 1)).
  all: first [ reflexivity | discriminate ].
Defined.

(** ** The return from the payment gateway *)

(** X13.  [payment_success] without a session id answers "Invalid payment
    session."; with a session the gateway does not know, or one that names
    no ticket, it answers "Error verifying payment."; in both cases nothing
    is stored.  Otherwise the success page is rendered, whatever happens to
    the store: when the session names a ticket of the store and the commit
    is accepted, one system message with the shared flag is appended to the
    chat of that ticket, naming the buyer's email on the ticket (the text
    None when the ticket has none); when the commit is refused, or the
    ticket is gone, the page is rendered all the same and nothing is stored.
    The ticket itself, the sold tickets and the wallets are never touched:
    the return from the gateway does not record a sale. *)
Theorem payment_success_outcomes (P : Platform) (db : DB)
  (session_id : option string) (fs : list bool) :
  let out := handle P (GET_payment_success session_id) fs db in
  let sid := form_get session_id in
  (sid = "" ->
   out = (redirect (Some ("Invalid payment session.", "danger")) ep_index, db))
  /\ (sid <> "" ->
      (stripe_session_retrieve P sid = None
       \/ exists cs, stripe_session_retrieve P sid = Some cs /\ cs_ticket_id cs = None) ->
      out = (redirect (Some ("Error verifying payment. Please contact support.",
                             "danger")) ep_index, db))
  /\ (sid <> "" ->
      (exists cs ticket_id, stripe_session_retrieve P sid = Some cs
                            /\ cs_ticket_id cs = Some ticket_id
                            /\ Ticket_get db ticket_id = None) ->
      out = (render_template "payment_success.html", db))
  /\ (forall ticket, sid <> "" -> session_names P sid db ticket -> store_accepts fs ->
      out = (render_template "payment_success.html",
             with_message db
               (purchase_message ticket (next_id (map Message.id (messages db))))))
  /\ (forall ticket, sid <> "" -> session_names P sid db ticket -> ~ store_accepts fs ->
      out = (render_template "payment_success.html", db)).
Proof.
  cbv zeta. unfold store_accepts, session_names.
  assert (Hgiven : form_get session_id <> "" -> not_given session_id = false).
  { destruct session_id as [s|]; cbn [form_get not_given]; [|congruence].
    apply eqb_empty_false. }
  split; [|split; [|split; [|split]]].
  - intros Hempty. destruct session_id as [s|]; cbn [form_get] in Hempty.
    + subst s. reflexivity.
    + reflexivity.
  - intros Hsid Hunknown. unfold_views. rewrite (Hgiven Hsid).
    destruct Hunknown as [Hnone | (cs & Hcs & Htid)].
    + rewrite Hnone. reflexivity.
    + rewrite Hcs. simpl_views. rewrite Htid. reflexivity.
  - intros Hsid (cs & ticket_id & Hcs & Htid & Hget).
    unfold_views. rewrite (Hgiven Hsid), Hcs. simpl_views. rewrite Htid. simpl_views.
    rewrite Hget. reflexivity.
  - intros ticket Hsid (cs & ticket_id & Hcs & Htid & Hget) Hok.
    pose proof (Ticket_get_exists _ _ _ Hget) as Hex.
    pose proof (Ticket_get_id _ _ _ Hget) as Hid.
    unfold_views. rewrite (Hgiven Hsid), Hcs. simpl_views. rewrite Htid. simpl_views.
    rewrite Hget. simpl_views. rewrite Hok. simpl_views.
    cbn [Message.ticket_id]. rewrite Hex. cbn [negb]. simpl_views.
    unfold with_message, purchase_message. rewrite Hid. reflexivity.
  - intros ticket Hsid (cs & ticket_id & Hcs & Htid & Hget) Hrefused.
    destruct (hd false fs) eqn:Hfault; [|contradiction].
    unfold_views. rewrite (Hgiven Hsid), Hcs. simpl_views. rewrite Htid. simpl_views.
    rewrite Hget. simpl_views. rewrite Hfault. reflexivity.
Qed.

(** ** What the chat records stays *)

Lemma serve_keeps_messages (P : Platform) (reqs : list (Request * list bool)) :
  forall (db : DB) (m : Message.t),
  In m (messages db) -> In m (messages (snd (serve P reqs db))).
Proof.
  induction reqs as [|[req fs] reqs IH]; intros db m Hin; [exact Hin|].
  rewrite serve_cons. cbn [snd]. apply IH.
  destruct (handle_appends P req fs db) as (ms & _ & _ & Hm & _).
  rewrite Hm. apply in_or_app. left. exact Hin.
Qed.

Lemma serve_keeps_tickets (P : Platform) (reqs : list (Request * list bool))
  (db : DB) (ticket_id : Z) :
  Ticket_get db ticket_id <> None ->
  exists t', Ticket_get (snd (serve P reqs db)) ticket_id = Some t'.
Proof.
  destruct (Ticket_get db ticket_id) as [t|] eqn:Hget; [intros _ | congruence].
  destruct (serve_listings P reqs db) as (g & extra & Hshape & Hkeep).
  exists (g t). unfold Ticket_get in *. rewrite Hshape.
  apply find_app_some. rewrite find_ticket_map.
  - rewrite Hget. reflexivity.
  - intros t0. apply (Hkeep t0).
Qed.

(** X14.  What the chat of a ticket records cannot be taken back.  Once the
    seller has shared the ticket, [release_ticket] is accepted after any
    further requests, as often as it is called: nothing revokes a share, and
    a release is not limited to one.  Once the buyer has requested the
    release, [request_release] is refused with the warning, and stores
    nothing, after any further requests: the request can be neither
    withdrawn nor repeated. *)
Theorem chat_marks_are_permanent (P : Platform) (db : DB)
  (reqs : list (Request * list bool)) (ticket_id : Z) :
  Ticket_get db ticket_id <> None ->
  let db' := snd (serve P reqs db) in
  ((exists m, In m (messages db) /\ share_confirmation ticket_id m) ->
   forall fs, store_accepts fs ->
     handle P (GET_release_ticket ticket_id) fs db'
     = (redirect None (ep_payment_page ticket_id),
        with_message db'
          (Message.mk (next_id (map Message.id (messages db'))) ticket_id "seller"
                      RELEASE_CONFIRMATION false)))
  /\ ((exists m, In m (messages db) /\ release_request ticket_id m) ->
      forall fs,
        handle P (GET_request_release ticket_id) fs db'
        = (redirect (Some ("You have already requested this ticket to be released. Please wait for the seller to confirm.",
                           "warning"))
                    (ep_chat ticket_id),
           db')).
Proof.
  intros Hlisted db'.
  destruct (serve_keeps_tickets P reqs db ticket_id Hlisted) as (t' & Hget).
  fold db' in Hget.
  pose proof (Ticket_get_exists _ _ _ Hget) as Hex.
  split.
  - intros (m & Hin & Hshare) fs Hok. unfold store_accepts in Hok.
    destruct (Message_shared_by db' ticket_id "seller") as [m'|] eqn:Hfind.
    2:{ apply Message_shared_by_None in Hfind. exfalso. apply Hfind.
        exists m. split; [apply serve_keeps_messages; exact Hin | exact Hshare]. }
    unfold_views. rewrite Hget. simpl_views. rewrite Hfind. simpl_views.
    rewrite Hok. simpl_views. cbn [Message.ticket_id]. rewrite Hex. reflexivity.
  - intros (m & Hin & Hrequest) fs.
    destruct (Message_by_text db' ticket_id "buyer" RELEASE_REQUEST) as [m'|] eqn:Hfind.
    2:{ apply Message_by_text_None in Hfind. exfalso. apply Hfind.
        exists m. split; [apply serve_keeps_messages; exact Hin | exact Hrequest]. }
    unfold_views. rewrite Hget. simpl_views. rewrite Hfind. reflexivity.
Qed.

(** The theorem at work on [db_shared]: after a release and a release
    request, which lead to [db_released], the seller releases again. *)
Lemma chat_marks_are_permanent_witness :
  handle stub_platform (GET_release_ticket 1) [] db_released
  = (redirect None (ep_payment_page 1),
     with_message db_released
       (Message.mk (next_id (map Message.id (messages db_released))) 1 "seller"
                   RELEASE_CONFIRMATION false)).
Proof.
  refine (proj1 (chat_marks_are_permanent stub_platform db_shared
                   [ (GET_release_ticket 1, []); (GET_request_release 1, []) ] 1 _)
                _ [] eq_refl).
  - discriminate.
  - eexists. split; [left; reflexivity|]. repeat split.
Defined.

(** ** The books balance *)

Lemma sale_credited_kept (db db' : DB) (l : list SoldTicket.t)
  (xs : list WalletTransaction.t) :
  (forall t, In t (tickets db) ->
             exists t', In t' (tickets db') /\ same_listing t t') ->
  Forall2 (sale_credited db) l xs -> Forall2 (sale_credited db') l xs.
Proof.
  intros Hkept. apply Forall2_impl.
  intros s x (Hpay & Htype & t & Hin & Hfrom & Hpnr & Hamount).
  destruct (Hkept t Hin) as (t' & Hin' & Hsame).
  destruct Hsame as (Hid & _ & Hprice & _ & _ & Hpnr' & _).
  split; [exact Hpay|]. split; [exact Htype|].
  exists t'. split; [exact Hin'|]. repeat split; congruence.
Qed.

Lemma handle_keeps_listed (P : Platform) (req : Request) (fs : list bool) (db : DB)
  (t : Ticket.t) :
  In t (tickets db) ->
  exists t', In t' (tickets (snd (handle P req fs db))) /\ same_listing t t'.
Proof.
  intros Hin.
  destruct (handle_listings P req fs db) as (g & extra & Hshape & Hkeep).
  exists (g t). split; [|apply Hkeep].
  rewrite Hshape. apply in_or_app. left. apply in_map. exact Hin.
Qed.

Lemma same_listing_refl (t : Ticket.t) : same_listing t t.
Proof. unfold same_listing. repeat split. Qed.

Lemma with_wallet_books (db : DB) :
  books_balance db ->
  seller_wallets db = [] ->
  books_balance (with_wallet db (fresh_wallet db 1)).
Proof.
  intros (Hpairs & Hwallet) Hnone. rewrite Hnone in Hwallet.
  split.
  - apply (sale_credited_kept db); [|exact Hpairs].
    intros t Hin. exists t. split; [exact Hin | apply same_listing_refl].
  - unfold with_wallet. cbn [seller_wallets wallet_transactions].
    rewrite Hnone, Hwallet. cbn [app fresh_wallet SellerWallet.seller_id
      SellerWallet.balance]. repeat split. constructor.
Qed.

Lemma settled_books (db : DB) (ticket : Ticket.t) (payment_id : string)
  (w : SellerWallet.t) :
  books_balance db ->
  seller_wallets db = [w] ->
  In ticket (tickets db) ->
  books_balance (settled db ticket payment_id w).
Proof.
  intros (Hpairs & Hwallet) Hone Hin. rewrite Hone in Hwallet.
  destruct Hwallet as (Hseller & Hbalance & Hown).
  assert (Hkept : forall t, In t (tickets db) ->
            exists t', In t' (tickets (settled db ticket payment_id w))
                       /\ same_listing t t').
  { intros t Ht.
    exists (if Ticket.id t =? Ticket.id ticket
            then Ticket.set_payment_status (Some "completed") t else t).
    split.
    - unfold settled. cbn [tickets].
      apply (in_map (fun t0 => if Ticket.id t0 =? Ticket.id ticket
                               then Ticket.set_payment_status (Some "completed") t0
                               else t0)).
      exact Ht.
    - destruct (_ =? _); unfold same_listing; repeat split. }
  split.
  - unfold settled at 2 3. cbn [sold_tickets wallet_transactions].
    apply Forall2_app; [apply (sale_credited_kept db); assumption|].
    constructor; [|constructor].
    split; [reflexivity|]. split; [reflexivity|].
    destruct (Hkept ticket Hin) as (t' & Hin' & Hsame).
    destruct Hsame as (Hid & _ & Hprice & _ & _ & Hpnr & _).
    exists t'. split; [exact Hin'|].
    cbn [sold_row credit_row SoldTicket.from_ticket_id SoldTicket.pnr_number
         WalletTransaction.amount].
    repeat split; congruence.
  - unfold settled. cbn [seller_wallets wallet_transactions]. rewrite Hone.
    cbn [map]. rewrite Z.eqb_refl.
    cbn [SellerWallet.set_balance SellerWallet.seller_id SellerWallet.balance
         SellerWallet.id].
    split; [exact Hseller|]. split.
    + unfold credited. rewrite fold_left_app. cbn [fold_left credit_row
        WalletTransaction.amount]. fold (credited (wallet_transactions db)).
      rewrite Hbalance. reflexivity.
    + apply Forall_app. split; [exact Hown|]. constructor; [reflexivity|constructor].
Qed.

Lemma handle_keeps_books (P : Platform) (req : Request) (fs : list bool) (db : DB) :
  ledger_invariant db -> books_balance db ->
  books_balance (snd (handle P req fs db)).
Proof.
  intros Hinv Hbooks.
  assert (Hother : (forall session_id, req <> GET_view_purchased_ticket session_id) ->
                   books_balance (snd (handle P req fs db))).
  { intros Hreq.
    destruct (other_requests_keep_ledger P req fs db Hreq) as (Hsold & Hwallets & Htxns).
    destruct Hbooks as (Hpairs & Hwallet).
    split.
    - rewrite Hsold, Htxns. apply (sale_credited_kept db); [|exact Hpairs].
      intros t Hin. apply handle_keeps_listed. exact Hin.
    - rewrite Hwallets, Htxns. exact Hwallet. }
  destruct req; try (apply Hother; discriminate).
  destruct (finalize_cases P session_id fs db) as [(ticket & pid & Hres) | Hsame];
    [|rewrite Hsame; exact Hbooks].
  assert (Hin : In ticket (tickets db)).
  { destruct Hres as (cs & ticket_id & _ & _ & _ & Hget).
    apply (Ticket_get_In _ _ _ Hget). }
  assert (Hnone : Ticket.seller_id ticket = None).
  { destruct Hinv as (_ & Hsellers & _).
    rewrite Forall_forall in Hsellers. apply Hsellers. exact Hin. }
  rewrite (finalize_outcome P session_id fs db ticket pid Hres).
  cbv zeta. rewrite Hnone. cbn [seller_or_default].
  destruct (SellerWallet_by_seller db 1) as [w|] eqn:Hwallet.
  - destruct (hd false fs || pnr_sold db (Ticket.pnr_number ticket)); cbn [snd];
      [exact Hbooks|].
    apply settled_books; [exact Hbooks | | exact Hin].
    destruct Hbooks as (_ & Hshape). unfold SellerWallet_by_seller in Hwallet.
    destruct (seller_wallets db) as [|w0 [|w1 l]]; [discriminate | | contradiction].
    cbn [find] in Hwallet. destruct Hshape as (Hseller & _).
    rewrite Hseller in Hwallet. cbn in Hwallet. congruence.
  - assert (Hempty : seller_wallets db = []).
    { destruct Hbooks as (_ & Hshape). unfold SellerWallet_by_seller in Hwallet.
      destruct (seller_wallets db) as [|w0 [|w1 l]]; [reflexivity | | contradiction].
      cbn [find] in Hwallet. destruct Hshape as (Hseller & _).
      rewrite Hseller in Hwallet. cbn in Hwallet. discriminate. }
    destruct (hd false fs); cbn [snd]; [exact Hbooks|].
    destruct (hd false (tl fs) || pnr_sold db (Ticket.pnr_number ticket)); cbn [snd].
    + apply with_wallet_books; assumption.
    + apply settled_books.
      * apply with_wallet_books; assumption.
      * unfold with_wallet. cbn [seller_wallets]. rewrite Hempty. reflexivity.
      * exact Hin.
Qed.

(** X15.  In every store the application reaches the books balance.  Sold
    tickets and wallet transactions pair up in the order they were recorded:
    to each sale belongs one credit for the same payment, of the price at
    which the ticket the sale came from is listed, and that ticket is still
    in the store with the PNR of the sale.  There is at most one wallet, that
    of the default seller 1; every transaction belongs to it, and its balance
    is the sum of the transactions in the order they were added. *)
Theorem books_balance_in_reachable_stores (P : Platform) (db : DB) :
  reachable P db -> books_balance db.
Proof.
  induction 1 as [|db req fs Hreach IH].
  - split; [constructor | reflexivity].
  - apply handle_keeps_books; [apply (reachable_invariant P); exact Hreach | exact IH].
Qed.

(** The theorem at work on [db_sold]. *)
Lemma books_balance_in_reachable_stores_witness : books_balance db_sold.
Proof.
  exact (books_balance_in_reachable_stores stub_platform db_sold reachable_db_sold).
Defined.

(** ** Listings that cannot be paid for *)



(** ** The roles of a visitor *)

Ltac new_message_cases H :=
  first [ left; exact H
        | apply in_app_or in H; destruct H as [H | [H | []]]; [left; exact H|] ].

Lemma handle_senders (P : Platform) (req : Request) (fs : list bool) (db : DB)
  (cookie : Cookie) (m : Message.t) :
  role_known cookie ->
  In m (messages (snd (handle P (in_session cookie req) fs db))) ->
  In m (messages db)
  \/ In (Message.sender_type m) ["buyer"; "seller"; "system"].
Proof.
  intros Hrole. destruct req; cbn [in_session]; break_views; cbn [messages].
  all: intros Hin; new_message_cases Hin.
  all: subst m; cbn [Message.sender_type]; right.
  all: try (cbn [In]; tauto).
  all: destruct Hrole as [Hrole | [Hrole | Hrole]]; inversion Hrole; cbn [In]; tauto.
Qed.

Lemma handle_share_needs_seller (P : Platform) (req : Request) (fs : list bool)
  (db : DB) (cookie : Cookie) (ticket_id : Z) (m : Message.t) :
  cookie <> Some "seller" ->
  In m (messages (snd (handle P (in_session cookie req) fs db))) ->
  share_confirmation ticket_id m ->
  In m (messages db).
Proof.
  intros Hrole Hin (Htid & Hsender & Hshared). revert Hin.
  destruct req; cbn [in_session]; break_views; cbn [messages].
  all: intros Hin;
    first [ exact Hin
          | apply in_app_or in Hin; destruct Hin as [Hin | [Hin | []]]; [exact Hin|] ].
  all: subst m;
    cbn [Message.ticket_id Message.sender_type Message.is_ticket_shared] in *;
    try discriminate.
  all: subst; exfalso; apply Hrole; reflexivity.
Qed.

Lemma switch_user_role (user_type : string) (referrer : option string)
  (cookie : Cookie) :
  snd (switch_user user_type referrer cookie)
  = if existsb (String.eqb user_type) ["buyer"; "seller"]
    then Some user_type else cookie.
Proof.
  unfold switch_user. destruct (existsb _ _); reflexivity.
Qed.

(** X17.  The role of a visitor is kept in the session and is never
    anything but buyer or seller: [switch_user] takes these two names only
    and leaves the session alone on any other, and [chat] gives a session
    without a role the role buyer.  So, whatever a visitor does, every
    message that reaches the log is signed buyer, seller or system; and a
    visitor who does not hold the seller's role and never switches to it
    adds no share-confirmation. *)
Theorem visitor_roles (P : Platform) (visits : list (Visit * list bool)) :
  forall (cookie : Cookie) (db : DB),
  role_known cookie ->
  let st' := browse P visits (cookie, db) in
  role_known (fst st')
  /\ (forall m, In m (messages (snd st')) ->
        In m (messages db)
        \/ In (Message.sender_type m) ["buyer"; "seller"; "system"])
  /\ (cookie <> Some "seller" -> never_switches_to_seller visits ->
      fst st' <> Some "seller"
      /\ forall ticket_id m, In m (messages (snd st')) ->
           share_confirmation ticket_id m -> In m (messages db)).
Proof.
  induction visits as [|[v fs] visits IH]; intros cookie db Hrole; cbv zeta.
  - cbn [browse fst snd]. split; [exact Hrole|]. split; [intros m Hin; left; exact Hin|].
    intros Hnot _. split; [exact Hnot|]. intros ticket_id m Hin _. exact Hin.
  - cbn [browse].
    assert (Hstep : exists cookie1 db1,
               snd (visit P v fs (cookie, db)) = (cookie1, db1)
               /\ role_known cookie1
               /\ (forall m, In m (messages db1) ->
                     In m (messages db)
                     \/ In (Message.sender_type m) ["buyer"; "seller"; "system"])
               /\ (cookie <> Some "seller" ->
                   (forall referrer, v <> V_switch_user "seller" referrer) ->
                   cookie1 <> Some "seller"
                   /\ forall ticket_id m, In m (messages db1) ->
                        share_confirmation ticket_id m -> In m (messages db))).
    { destruct v as [user_type referrer | ticket_id | req]; cbn [visit fst snd].
      - exists (snd (switch_user user_type referrer cookie)), db.
        split; [destruct (switch_user user_type referrer cookie); reflexivity|].
        rewrite switch_user_role. cbn [existsb].
        split; [|split; [intros m Hin; left; exact Hin|]].
        + destruct (String.eqb_spec user_type "buyer") as [-> | _];
            [right; left; reflexivity|].
          destruct (String.eqb_spec user_type "seller") as [-> | _];
            [right; right; reflexivity | exact Hrole].
        + intros Hnot Hswitch. split; [|intros ticket_id m Hin _; exact Hin].
          destruct (String.eqb_spec user_type "buyer") as [-> | _]; [discriminate|].
          destruct (String.eqb_spec user_type "seller") as [-> | _]; [|exact Hnot].
          exfalso. apply (Hswitch referrer). reflexivity.
      - exists (snd (chat ticket_id cookie db)), db.
        split; [destruct (chat ticket_id cookie db); reflexivity|].
        unfold chat. destruct (Ticket_get db ticket_id); cbn [snd].
        + split; [|split; [intros m Hin; left; exact Hin|]].
          * destruct cookie as [u|]; [exact Hrole | right; left; reflexivity].
          * intros Hnot _. split; [|intros t0 m Hin _; exact Hin].
            destruct cookie as [u|]; [exact Hnot | discriminate].
        + split; [exact Hrole|]. split; [intros m Hin; left; exact Hin|].
          intros Hnot _. split; [exact Hnot|]. intros t0 m Hin _. exact Hin.
      - exists cookie, (snd (handle P (in_session cookie req) fs db)).
        split; [destruct (handle P (in_session cookie req) fs db); reflexivity|].
        split; [exact Hrole|]. split.
        + intros m Hin. apply (handle_senders P req fs db cookie m Hrole Hin).
        + intros Hnot _. split; [exact Hnot|].
          intros ticket_id m Hin Hshare.
          apply (handle_share_needs_seller P req fs db cookie ticket_id m Hnot Hin Hshare). }
    destruct Hstep as (cookie1 & db1 & Hvisit & Hrole1 & Hsenders1 & Hshare1).
    rewrite Hvisit.
    destruct (IH cookie1 db1 Hrole1) as (Hrole' & Hsenders' & Hshare').
    split; [exact Hrole'|]. split.
    + intros m Hin. destruct (Hsenders' m Hin) as [Hold | Hnew]; [|right; exact Hnew].
      apply Hsenders1. exact Hold.
    + intros Hnot Hnever.
      assert (Hv : forall referrer, v <> V_switch_user "seller" referrer).
      { intros referrer Heq. apply (Hnever referrer fs). left. rewrite Heq. reflexivity. }
      assert (Hrest : never_switches_to_seller visits).
      { intros referrer fs0 Hin. apply (Hnever referrer fs0). right. exact Hin. }
      destruct (Hshare1 Hnot Hv) as (Hnot1 & Hold1).
      destruct (Hshare' Hnot1 Hrest) as (Hnot' & Hold').
      split; [exact Hnot'|].
      intros ticket_id m Hin Hshare. apply (Hold1 ticket_id m); [|exact Hshare].
      apply (Hold' ticket_id m Hin Hshare).
Qed.

(** The theorem at work: a new visitor opens the chat of the ticket of
    [db_listed] and posts with the [share_ticket] key. *)
Lemma visitor_roles_witness :
  role_known (fst (browse stub_platform buyer_visits (None, db_listed)))
  /\ (forall m,
        In m (messages (snd (browse stub_platform buyer_visits (None, db_listed)))) ->
        In m (messages db_listed)
        \/ In (Message.sender_type m) ["buyer"; "seller"; "system"])
  /\ (None <> Some "seller" -> never_switches_to_seller buyer_visits ->
      fst (browse stub_platform buyer_visits (None, db_listed)) <> Some "seller"
      /\ forall ticket_id m,
           In m (messages (snd (browse stub_platform buyer_visits (None, db_listed)))) ->
           share_confirmation ticket_id m -> In m (messages db_listed)).
Proof.
  exact (visitor_roles stub_platform buyer_visits None db_listed (or_introl eq_refl)).
Defined.

(** ** Taking the seller's role *)

(** X18.  The seller's role is open to every visitor.  Whatever role the
    session holds, [switch_user] with the name seller gives it the seller's
    role without any check; a message then posted with the [share_ticket]
    key to the chat of a listed ticket is stored as the seller's
    share-confirmation, and [release_ticket] of that ticket is accepted. *)
Theorem any_visitor_can_release (P : Platform) (cookie : Cookie) (db : DB)
  (ticket_id : Z) (text : string) (referrer user_type : option string)
  (fs fs' : list bool) :
  Ticket_get db ticket_id <> None ->
  strip text <> "" ->
  store_accepts fs ->
  store_accepts fs' ->
  let st' :=
    browse P [ (V_switch_user "seller" referrer, []);
               (V_request (POST_send_message ticket_id (Some text) true user_type), fs) ]
           (cookie, db) in
  fst st' = Some "seller"
  /\ snd st'
     = with_message db
         (Message.mk (next_id (map Message.id (messages db))) ticket_id "seller"
                     (strip text) true)
  /\ handle P (GET_release_ticket ticket_id) fs' (snd st')
     = (redirect None (ep_payment_page ticket_id),
        with_message (snd st')
          (Message.mk (next_id (map Message.id (messages (snd st')))) ticket_id
                      "seller" RELEASE_CONFIRMATION false)).
Proof.
  intros Hlisted Htext Hok Hok' st'. subst st'.
  unfold store_accepts in *.
  destruct (Ticket_get db ticket_id) as [t|] eqn:Hget; [clear Hlisted | congruence].
  pose proof (Ticket_get_exists _ _ _ Hget) as Hex.
  assert (Hsent : handle P (POST_send_message ticket_id (Some text) true (Some "seller"))
                         fs db
                  = (jsonify true true None,
                     with_message db
                       (Message.mk (next_id (map Message.id (messages db))) ticket_id
                                   "seller" (strip text) true))).
  { unfold_views. rewrite Hget. simpl_views. cbn [form_get].
    rewrite (eqb_empty_false _ Htext). simpl_views. rewrite Hok. simpl_views.
    cbn [Message.ticket_id]. rewrite Hex. reflexivity. }
  cbn [browse visit fst snd in_session].
  rewrite (surjective_pairing (switch_user "seller" referrer cookie)).
  rewrite switch_user_role. cbn [existsb String.eqb Ascii.eqb Bool.eqb orb fst snd].
  cbn [in_session]. rewrite Hsent. cbn [fst snd].
  split; [reflexivity|]. split; [reflexivity|].
  set (shared := Message.mk (next_id (map Message.id (messages db))) ticket_id "seller"
                            (strip text) true).
  assert (Hget' : Ticket_get (with_message db shared) ticket_id = Some t) by exact Hget.
  assert (Hex' : existsb (fun t0 => Ticket.id t0 =? ticket_id)
                         (tickets (with_message db shared)) = true) by exact Hex.
  destruct (Message_shared_by (with_message db shared) ticket_id "seller")
    as [m'|] eqn:Hfind.
  2:{ apply Message_shared_by_None in Hfind. exfalso. apply Hfind. exists shared.
      split; [|repeat split].
      unfold with_message. cbn [messages]. apply in_or_app. right. left. reflexivity. }
  clear Hsent.
  generalize dependent (with_message db shared). intros db1 Hget1 Hex1 Hfind1.
  unfold_views. rewrite Hget1. simpl_views. rewrite Hfind1. simpl_views.
  rewrite Hok'. simpl_views. cbn [Message.ticket_id]. rewrite Hex1. reflexivity.
Qed.

(** The theorem at work: a visitor of [db_listed] takes the seller's role,
    shares, and releases the ticket. *)
Lemma any_visitor_can_release_witness :
  fst (browse stub_platform
         [ (V_switch_user "seller" None, []);
           (V_request (POST_send_message 1 (Some "here is the ticket") true None), []) ]
         (None, db_listed))
  = Some "seller"
  /\ fst (handle stub_platform (GET_release_ticket 1) []
            (snd (browse stub_platform
                    [ (V_switch_user "seller" None, []);
                      (V_request (POST_send_message 1 (Some "here is the ticket") true
                                                    None), []) ]
                    (None, db_listed))))
     = redirect None (ep_payment_page 1).
Proof.
  destruct (any_visitor_can_release stub_platform None db_listed 1
              "here is the ticket" None None [] [])
    as (Hrole & _ & Hrelease); try reflexivity; try discriminate.
  split; [exact Hrole | exact (f_equal fst Hrelease)].
Defined.

(** ** Which file a download serves *)

(** X19.  [download_ticket] serves the file named after the PNR of the sold
    ticket when the upload folder holds it.  When it does not, the view does
    not fail: it serves the first file of the folder whose name ends in
    [.svg], whichever ticket that file belongs to.  The file then served is
    fixed by the folder alone, so any two sold tickets whose own files are
    missing are answered with the same file; only the name of the attachment
    is taken from the ticket asked for. *)
Theorem download_serves_own_file_or_first_svg (F : Folder) (db : DB)
  (sold_ticket_id : Z) (sold : SoldTicket.t) (path name : string) :
  coherent F ->
  SoldTicket_get db sold_ticket_id = Some sold ->
  download_ticket F sold_ticket_id db = send_file path name ->
  name = download_name_of sold
  /\ ((path_exists F (own_path sold) = true /\ path = own_path sold)
      \/ (path_exists F (own_path sold) = false
          /\ exists names filename,
               listdir F = Some names
               /\ find (endswith ".svg") names = Some filename
               /\ path = os_path_join UPLOAD_FOLDER filename)).
Proof.
  intros Hcoherent Hget. unfold download_ticket. rewrite Hget. cbv zeta.
  destruct (path_exists F (own_path sold)) eqn:Hown.
  - destruct (can_send F (own_path sold)); [|discriminate].
    intros Hsent. injection Hsent as Hpath Hname. subst path name.
    split; [reflexivity|]. left. split; reflexivity.
  - destruct (listdir F) as [names|]; [|discriminate].
    destruct (find (endswith ".svg") names) as [filename|] eqn:Hfind.
    + destruct (can_send F (os_path_join UPLOAD_FOLDER filename)); [|discriminate].
      intros Hsent. injection Hsent as Hpath Hname. subst path name.
      split; [reflexivity|]. right. split; [reflexivity|].
      exists names, filename. repeat split. exact Hfind.
    + destruct (can_send F (own_path sold)) eqn:Hsend; [|discriminate].
      apply Hcoherent in Hsend. congruence.
Qed.

(** The theorem at work: the folder holds no file for the PNR sold in
    [db_sold], and the download is answered with the file of another
    ticket. *)
Lemma download_serves_own_file_or_first_svg_witness :
  download_ticket folder_of_examples 1 db_sold
  = send_file "uploads/9999999999.svg" "Ticket_Delhi_to_Mumbai.svg"
  /\ "Ticket_Delhi_to_Mumbai.svg"
     = download_name_of
         (SoldTicket.mk 1 "1234567890" "Delhi" "Mumbai" 741092 "12951"
                        (Some "buyer@x.com") "pi_1" None (Some 1)).
Proof.
  split; [reflexivity|].
  refine (proj1 (download_serves_own_file_or_first_svg folder_of_examples db_sold 1
                   (SoldTicket.mk 1 "1234567890" "Delhi" "Mumbai" 741092 "12951"
                                  (Some "buyer@x.com") "pi_1" None (Some 1))
                   "uploads/9999999999.svg" "Ticket_Delhi_to_Mumbai.svg"
                   _ eq_refl eq_refl)).
  intros path Hsend. exact Hsend.
Defined.

(** ** The state of a listed ticket *)

Lemma missing_or_blank_false (v : option string) :
  missing_or_blank v = false -> strip (form_get v) <> "".
Proof.
  destruct v as [x|]; cbn [missing_or_blank form_get]; [|discriminate].
  apply String.eqb_neq.
Qed.

Lemma not_given_false (v : option string) :
  not_given v = false -> form_get v <> "".
Proof.
  destruct v as [x|]; cbn [not_given form_get]; [|discriminate].
  apply String.eqb_neq.
Qed.

Ltac ticket_fields :=
  cbn [Ticket.id Ticket.title Ticket.price Ticket.description Ticket.filename
       Ticket.pnr_number Ticket.from_location Ticket.to_location Ticket.travel_date
       Ticket.train_number Ticket.passenger_name Ticket.seller_id Ticket.is_expired
       Ticket.stripe_checkout_id Ticket.payment_status Ticket.buyer_email
       Ticket.set_is_expired Ticket.set_buyer_email Ticket.set_stripe_checkout_id
       Ticket.set_payment_status].

Ltac solve_payment_step :=
  intros; unfold payment_step, same_listing;
  repeat (match goal with
          | |- context [if ?c then _ else _] =>
              lazymatch c with
              | context [if _ then _ else _] => fail
              | _ => destruct c eqn:?
              end
          end;
          repeat (ticket_fields;
                  match goal with
                  | H : ?x = _ |- context [if ?x then _ else _] => rewrite H
                  end));
  ticket_fields;
  (split; [repeat split|]);
  first
    [ left; repeat split; reflexivity
    | right; right; repeat split; reflexivity
    | right; left; split; [reflexivity|]; split; [discriminate|];
      eexists; split; [|reflexivity];
      apply not_given_false; assumption ].

Ltac solve_fresh_listing :=
  constructor; [|constructor];
  unfold fresh_listing, listing_checked;
  cbn [Ticket.title Ticket.price Ticket.pnr_number Ticket.from_location
       Ticket.to_location Ticket.train_number Ticket.passenger_name Ticket.seller_id
       Ticket.stripe_checkout_id Ticket.payment_status Ticket.buyer_email];
  string_tests;
  repeat match goal with |- _ /\ _ => split end;
  first [ reflexivity | assumption | apply missing_or_blank_false; assumption ].

Lemma handle_payment_steps (P : Platform) (req : Request) (fs : list bool) (db : DB) :
  (forall session_id, req <> GET_view_purchased_ticket session_id) ->
  exists g extra,
    tickets (snd (handle P req fs db)) = (map g (tickets db) ++ extra)%list
    /\ (forall t, same_listing t (g t) /\ payment_step t (g t))
    /\ Forall fresh_listing extra.
Proof.
  intros Hreq. destruct req; try (exfalso; eapply Hreq; reflexivity); clear Hreq.
  all: unfold_views; unfold validate_pnr;
    repeat (split_match; simpl_views; cbn [fst snd] in * ).
  all: cbn [tickets].
  all: first
    [ exists (fun t => t), (@nil Ticket.t);
      split; [rewrite map_id, app_nil_r; reflexivity
             | split; [solve_payment_step | constructor]]
    | eexists (fun t => t), (cons _ nil);
      split; [rewrite map_id; reflexivity
             | split; [solve_payment_step | solve_fresh_listing]]
    | rewrite ?map_map; eexists _, (@nil Ticket.t);
      split; [rewrite app_nil_r; reflexivity
             | split; [solve_payment_step | constructor]] ].
Qed.

Lemma listing_checked_kept (t t' : Ticket.t) :
  same_listing t t' -> listing_checked t -> listing_checked t'.
Proof.
  unfold same_listing, listing_checked.
  intros (_ & Htitle & Hprice & _ & _ & Hpnr & Hfrom & Hto & _ & Htrain & Hpass & Hseller).
  rewrite Htitle, Hprice, Hpnr, Hfrom, Hto, Htrain, Hpass, Hseller. trivial.
Qed.

Lemma payment_state_step (sold : list SoldTicket.t) (t t' : Ticket.t) :
  Ticket.id t' = Ticket.id t ->
  payment_step t t' -> payment_state_ok sold t -> payment_state_ok sold t'.
Proof.
  unfold payment_step, payment_state_ok.
  intros Hid Hstep (Hstatus & Hdone & Hboth & Hset & Hemail).
  destruct Hstep as [(Hs & Hc & He) | [(Hs & Hc & email & Hne & He) | (Hs & Hc & He)]].
  - rewrite Hs, Hc, He, Hid. auto.
  - rewrite Hs, He. repeat split.
    + cbn [In]. tauto.
    + discriminate.
    + intros Hnone. contradiction.
    + discriminate.
    + discriminate.
    + congruence.
  - rewrite Hs, Hc, He. repeat split; try discriminate; try tauto.
    cbn [In]. tauto.
Qed.

Lemma payment_state_more_sold (sold extra : list SoldTicket.t) (t : Ticket.t) :
  payment_state_ok sold t -> payment_state_ok (sold ++ extra) t.
Proof.
  unfold payment_state_ok. intros (Hstatus & Hdone & Hrest).
  split; [exact Hstatus|]. split; [|exact Hrest].
  intros Hcompleted. destruct (Hdone Hcompleted) as (s & Hin & Hfrom).
  exists s. split; [apply in_or_app; left; exact Hin | exact Hfrom].
Qed.

Lemma settled_consistent (db : DB) (ticket : Ticket.t) (payment_id : string)
  (w : SellerWallet.t) :
  tickets_consistent db -> tickets_consistent (settled db ticket payment_id w).
Proof.
  unfold tickets_consistent, settled. cbn [tickets sold_tickets].
  intros Hall. apply Forall_map. revert Hall. apply Forall_impl. intros t (Hlisting & Hstate).
  destruct (Ticket.id t =? Ticket.id ticket) eqn:Hid.
  - apply Z.eqb_eq in Hid. split.
    + apply (listing_checked_kept t); [|exact Hlisting].
      unfold same_listing. repeat split.
    + destruct Hstate as (_ & _ & Hboth & _ & Hemail).
      unfold payment_state_ok.
      cbn [Ticket.payment_status Ticket.stripe_checkout_id Ticket.buyer_email
           Ticket.id Ticket.set_payment_status].
      split; [cbn [In]; tauto|]. split; [|split; [exact Hboth|split;
        [discriminate | exact Hemail]]].
      intros _. eexists. split; [apply in_elt|].
      cbn [sold_row SoldTicket.from_ticket_id]. rewrite Hid. reflexivity.
  - split; [exact Hlisting | apply payment_state_more_sold; exact Hstate].
Qed.

Lemma handle_keeps_consistent (P : Platform) (req : Request) (fs : list bool)
  (db : DB) :
  tickets_consistent db -> tickets_consistent (snd (handle P req fs db)).
Proof.
  intros Hall.
  assert (Hother : (forall session_id, req <> GET_view_purchased_ticket session_id) ->
                   tickets_consistent (snd (handle P req fs db))).
  { intros Hreq.
    destruct (other_requests_keep_ledger P req fs db Hreq) as (Hsold & _).
    destruct (handle_payment_steps P req fs db Hreq) as (g & extra & Hshape & Hstep & Hnew).
    unfold tickets_consistent in *. rewrite Hshape, Hsold.
    apply Forall_app. split.
    - apply Forall_map. revert Hall. apply Forall_impl.
      intros t (Hlisting & Hstate). destruct (Hstep t) as (Hsame & Hpay).
      split; [apply (listing_checked_kept t); assumption|].
      apply (payment_state_step _ t); [apply Hsame | exact Hpay | exact Hstate].
    - revert Hnew. apply Forall_impl.
      intros t (Hlisting & Hs & Hc & He). split; [exact Hlisting|].
      unfold payment_state_ok. rewrite Hs, Hc, He.
      repeat split; try discriminate; try tauto. cbn [In]. tauto. }
  destruct req; try (apply Hother; discriminate).
  destruct (finalize_cases P session_id fs db) as [(ticket & pid & Hres) | Hsame];
    [|rewrite Hsame; exact Hall].
  rewrite (finalize_outcome P session_id fs db ticket pid Hres). cbv zeta.
  destruct (SellerWallet_by_seller db (seller_or_default (Ticket.seller_id ticket))).
  - destruct (hd false fs || pnr_sold db (Ticket.pnr_number ticket)); cbn [snd];
      [exact Hall | apply settled_consistent; exact Hall].
  - destruct (hd false fs); cbn [snd]; [exact Hall|].
    destruct (hd false (tl fs) || pnr_sold db (Ticket.pnr_number ticket)); cbn [snd];
      [exact Hall | apply settled_consistent; exact Hall].
Qed.

(** X20.  In every store the application reaches, every ticket is a
    listing that passed the checks of the upload (its title is not blank,
    its price is not zero or negative, its route, train and passenger are
    given, its PNR matches the pattern, it names no seller), and its payment
    fields fit together: the status is unset, pending, cancelled or
    completed; a completed ticket has a sale recorded from it; the checkout
    session and the buyer's email are set together, the status is then set
    as well, and the email is not empty. *)
Theorem tickets_consistent_in_reachable_stores (P : Platform) (db : DB) :
  reachable P db -> tickets_consistent db.
Proof.
  induction 1 as [|db req fs Hreach IH].
  - constructor.
  - apply handle_keeps_consistent. exact IH.
Qed.

(** The theorem at work on [db_sold]. *)
Lemma tickets_consistent_in_reachable_stores_witness : tickets_consistent db_sold.
Proof.
  exact (tickets_consistent_in_reachable_stores stub_platform db_sold
           reachable_db_sold).
Defined.
